(** * Crypto trading platform: backtest core

    A shallow embedding of the simulation core of the repository
    (src/core/backtest_engine.py, src/strategies/grid_strategy.py,
    src/data/data_models.py, src/volatility.py, src/adaptive_parameters.py,
    src/backtest/metrics.py) and the properties of it that the specification
    states.

    Numbers.  A Python [float] is an IEEE 754 binary64 value and so is Rocq's
    primitive [float]: [+], [-], [*], [/] and the comparisons below are the
    operations the interpreter performs, bit for bit.  Three places are
    idealised and marked where they occur: [sum] and numpy's [mean]/[var]
    add from left to right, [x ** 2] is [x * x], and [x ** 0.5] is the
    correctly rounded square root.  [numpy.log] has no counterpart and is a
    parameter of the volatility calculator.

    Exceptions.  Code that can raise returns a [result]; a float division
    raises [ZeroDivisionError] on a zero divisor as Python's does.

    Objects.  Python dictionaries keep insertion order, so they are
    association lists with unique keys.  The one object that is reachable
    through several references, the live [PortfolioState] of a run, lives in
    an explicit store and is named by its location. *)

From Stdlib Require Import Floats ZArith List String Bool Arith Lia.
From Stdlib Require Import DecimalString.
Import ListNotations.

Set Warnings "-inexact-float".

Open Scope float_scope.
Open Scope list_scope.

(* ------------------------------------------------------------------ *)
(** ** Python prelude *)

Module Py.

Inductive exn : Set :=
| ZeroDivisionError
| ValueError
| TypeError
| IndexError.

Inductive result (A : Type) : Type :=
| Ok (a : A)
| Raise (e : exn).
Arguments Ok {A} a.
Arguments Raise {A} e.

Definition bind {A B} (m : result A) (k : A -> result B) : result B :=
  match m with
  | Ok a => k a
  | Raise e => Raise e
  end.

(** [a > b], [a >= b] and [a == b] on floats. *)
Definition fgt (a b : float) : bool := b <? a.
Definition fge (a b : float) : bool := b <=? a.
Definition flt (a b : float) : bool := a <? b.
Definition fle (a b : float) : bool := a <=? b.
Definition feq (a b : float) : bool := a =? b.

(** [min(a, b)] keeps its first argument unless the second is smaller;
    [max(a, b)] keeps it unless the second is larger. *)
Definition fmin (a b : float) : float := if flt b a then b else a.
Definition fmax (a b : float) : float := if fgt b a then b else a.
Definition fmax3 (a b c : float) : float := fmax (fmax a b) c.

(** [a / b] with Python's check of the divisor. *)
Definition fdiv (a b : float) : result float :=
  if feq b 0 then Raise ZeroDivisionError else Ok (a / b).

(** An [int] used where a float is expected ([len(xs)], a loop index). *)
Fixpoint of_nat (n : nat) : float :=
  match n with
  | O => 0
  | S k => of_nat k + 1
  end.

(** [sum(xs)]: starts from the integer 0 and adds from the left. *)
Definition fsum (xs : list float) : float := fold_left add xs 0.

(** [x ** 2] and [x ** 0.5]. *)
Definition sq (x : float) : float := x * x.
Definition pow_half (x : float) : float := sqrt x.

(** [str(n)] for a non-negative [int]. *)
Definition str (n : nat) : string := NilEmpty.string_of_uint (Nat.to_uint n).

(** [xs[-n:]]; since [-0] is [0], [xs[-0:]] is the whole list. *)
Definition last_n {A} (n : nat) (xs : list A) : list A :=
  match n with
  | O => xs
  | _ => skipn (List.length xs - n) xs
  end.

(** Map a fallible function over a list, left to right. *)
Fixpoint mapM {A B} (f : A -> result B) (xs : list A) : result (list B) :=
  match xs with
  | [] => Ok []
  | x :: r => bind (f x) (fun y => bind (mapM f r) (fun ys => Ok (y :: ys)))
  end.

(** Thread a state through a fallible loop body, left to right. *)
Fixpoint foldM {A S} (f : S -> A -> result S) (xs : list A) (s : S) : result S :=
  match xs with
  | [] => Ok s
  | x :: r => bind (f s x) (foldM f r)
  end.

(** *** dict: insertion-ordered, unique keys *)
Definition dict (V : Type) : Type := list (string * V).

Fixpoint get {V} (d : dict V) (k : string) : option V :=
  match d with
  | [] => None
  | (k', v) :: r => if String.eqb k k' then Some v else get r k
  end.

(** [d[k] = v]: an existing key keeps its place, a new one goes last. *)
Fixpoint set {V} (d : dict V) (k : string) (v : V) : dict V :=
  match d with
  | [] => [(k, v)]
  | (k', v') :: r =>
      if String.eqb k k' then (k', v) :: r else (k', v') :: set r k v
  end.

(** [del d[k]] for a key that is present. *)
Fixpoint del {V} (d : dict V) (k : string) : dict V :=
  match d with
  | [] => []
  | (k', v') :: r => if String.eqb k k' then r else (k', v') :: del r k
  end.

Definition keys {V} (d : dict V) : list string := map fst d.
Definition values {V} (d : dict V) : list V := map snd d.

End Py.

Import Py.

Notation "x <- m ;; k" := (Py.bind m (fun x => k))
  (at level 61, m at next level, right associativity).
Notation "' pat <- m ;; k" := (Py.bind m (fun x => match x with pat => k end))
  (at level 61, pat pattern, m at next level, right associativity).

(** Code that can also fail on a missing attribute ([OrderStatus.CLOSED],
    [None.timestamp]) returns an [outcome]: a value, one of the exceptions
    above, or [AttributeError]. *)
Inductive raised : Set :=
| Builtin (e : Py.exn)
| AttributeError.

Inductive outcome (A : Type) : Type :=
| Returns (a : A)
| Raises (e : raised).
Arguments Returns {A} a.
Arguments Raises {A} e.

Definition returns_value {A} (o : outcome A) : bool :=
  match o with
  | Returns _ => true
  | Raises _ => false
  end.

(** [a / b] on two [int]s: true division, with the check of the divisor. *)
Definition int_div (a b : nat) : result float :=
  match b with
  | O => Raise ZeroDivisionError
  | _ => Ok (of_nat a / of_nat b)
  end.

(* ------------------------------------------------------------------ *)
(** ** src/core/enums.py *)

Inductive TradeType : Set := LONG | SHORT | BOTH.
Inductive OrderType : Set := MARKET | LIMIT | STOP | STOP_LIMIT.
Inductive OrderStatus : Set :=
| PENDING | OPEN | PARTIALLY_FILLED | FILLED | CANCELLED | REJECTED | EXPIRED.
Inductive SignalType : Set :=
| BUY | SELL | HOLD | STRONG_BUY | STRONG_SELL | EXIT | ENTRY.
Inductive StrategyState : Set := IDLE | ACTIVE.

Definition TradeType_eqb (a b : TradeType) : bool :=
  match a, b with
  | LONG, LONG | SHORT, SHORT | BOTH, BOTH => true
  | _, _ => false
  end.

Definition StrategyState_eqb (a b : StrategyState) : bool :=
  match a, b with
  | IDLE, IDLE | ACTIVE, ACTIVE => true
  | _, _ => false
  end.

(** [TradeType.value] *)
Definition TradeType_value (t : TradeType) : string :=
  match t with
  | LONG => "long"
  | SHORT => "short"
  | BOTH => "both"
  end.

(* ------------------------------------------------------------------ *)
(** ** src/data/data_models.py *)

Module Candle.
Record t := mk {
  timestamp : float;
  open : float;
  high : float;
  low : float;
  close : float;
  volume : float;
  quote_asset_volume : option float
}.

(** [__post_init__]: the OHLC check a candle passes when it is built. *)
Definition valid (c : t) : bool :=
  (fle (low c) (close c) && fle (close c) (high c))
  && (fle (low c) (open c) && fle (open c) (high c)).
End Candle.

Module MarketData.
Record t := mk {
  symbol : string;
  candles : list Candle.t;
  timeframe : string
}.

Definition get_last_n_candles (self : t) (n : nat) : list Candle.t :=
  match n with
  | O => []
  | _ => last_n n (candles self)
  end.

(** The returns of consecutive closes: [(c[i] - c[i-1]) / c[i-1]]. *)
Fixpoint returns (prev : float) (cs : list Candle.t) : result (list float) :=
  match cs with
  | [] => Ok []
  | c :: r =>
      ret <- fdiv (Candle.close c - prev) prev ;;
      rest <- returns (Candle.close c) r ;;
      Ok (ret :: rest)
  end.

Definition calculate_volatility (self : t) (period : nat) : result float :=
  let cs := get_last_n_candles self (period + 1) in
  match cs with
  | [] | [_] => Ok 0
  | c0 :: r =>
      rets <- returns (Candle.close c0) r ;;
      match rets with
      | [] => Ok 0
      | _ =>
          mean_ret <- fdiv (fsum rets) (of_nat (List.length rets)) ;;
          variance <- fdiv (fsum (map (fun r => sq (r - mean_ret)) rets))
                          (of_nat (List.length rets)) ;;
          Ok (pow_half variance * 100)
      end
  end.

(** The properties [latest_candle] and [latest_close]. *)
Definition latest_candle (self : t) : option Candle.t :=
  match candles self with
  | [] => None
  | c :: r => Some (last r c)
  end.

Definition latest_close (self : t) : option float :=
  option_map Candle.close (latest_candle self).
End MarketData.

Module Order.
Record t := mk {
  order_id : string;
  symbol : string;
  trade_type : TradeType;
  order_type : OrderType;
  quantity : float;
  price : option float;
  status : OrderStatus;
  created_at : float;
  filled_quantity : float;
  filled_price : option float;
  commission : float
}.

(** The constructor with the dataclass defaults; [now] is the clock
    reading [datetime.now().timestamp()] takes. *)
Definition new (now : float) (order_id symbol : string) (trade_type : TradeType)
    (order_type : OrderType) (quantity : float) (price : option float) : t :=
  mk order_id symbol trade_type order_type quantity price PENDING now 0 None 0.

(** The properties [is_filled] and [fill_percent]. *)
Definition is_filled (self : t) : bool :=
  fge (filled_quantity self) (quantity self).

Definition fill_percent (self : t) : float :=
  if feq (quantity self) 0 then 0.0
  else filled_quantity self / quantity self * 100.

(** [fill_order].  The last statement assigns [OrderStatus.CLOSED], a
    member the enumeration does not have. *)
Definition fill_order (self : t) (filled_qty fill_price fee : float)
    : outcome t :=
  let filled_quantity' := filled_quantity self + filled_qty in
  let commission' := commission self + fee in
  let filled_price' :=
    match filled_price self with
    | None => Ok fill_price
    | Some fp =>
        let total_filled := filled_quantity' in
        fdiv (fp * (total_filled - filled_qty) + fill_price * filled_qty)
             total_filled
    end in
  match filled_price' with
  | Raise e => Raises (Builtin e)
  | Ok fp' =>
      if fge filled_quantity' (quantity self)
      then Raises AttributeError
      else Returns (mk (order_id self) (symbol self) (trade_type self)
                       (order_type self) (quantity self) (price self)
                       (status self) (created_at self)
                       filled_quantity' (Some fp') commission')
  end.
End Order.

Module Position.
Record t := mk {
  position_id : string;
  symbol : string;
  trade_type : TradeType;
  entry_price : float;
  quantity : float;
  entry_time : option float;
  entry_orders : list Order.t
}.

Definition is_open (self : t) : bool := fgt (quantity self) 0.

Definition calculate_unrealized_pnl (self : t) (current_price : float) : float :=
  if feq (quantity self) 0 then 0
  else
    match trade_type self with
    | LONG => (current_price - entry_price self) * quantity self
    | _ => (entry_price self - current_price) * quantity self
    end.

Definition calculate_unrealized_pnl_percent (self : t) (current_price : float)
    : result float :=
  if feq (entry_price self) 0 then Ok 0
  else
    match trade_type self with
    | LONG =>
        r <- fdiv (current_price - entry_price self) (entry_price self) ;;
        Ok (r * 100)
    | _ =>
        r <- fdiv (entry_price self - current_price) (entry_price self) ;;
        Ok (r * 100)
    end.

(** [add_entry_order]: the one method of the repository that appends to
    [entry_orders] and re-averages the entry price with it. *)
Definition add_entry_order (self : t) (order : Order.t) : result t :=
  if feq (Order.filled_quantity order) 0 then Ok self
  else
    match Order.filled_price order with
    | None => Raise TypeError
    | Some fp =>
        let old_total := quantity self * entry_price self in
        let new_total := Order.filled_quantity order * fp in
        let quantity' := quantity self + Order.filled_quantity order in
        entry_price' <-
          (if fgt quantity' 0 then fdiv (old_total + new_total) quantity'
           else Ok 0) ;;
        Ok (mk (position_id self) (symbol self) (trade_type self)
               entry_price' quantity'
               (match entry_time self with
                | None => Some (Order.created_at order)
                | Some e => Some e
                end)
               (entry_orders self ++ [order]))
    end.
End Position.

Module Trade.
Record t := mk {
  trade_id : string;
  symbol : string;
  entry_price : float;
  exit_price : float;
  quantity : float;
  entry_time : option float;
  exit_time : float;
  pnl : float;
  pnl_after_commission : float;
  pnl_percent : float
}.

Definition is_profitable (self : t) : bool := fgt (pnl_after_commission self) 0.

Definition duration_seconds (self : t) : result float :=
  match entry_time self with
  | None => Raise TypeError
  | Some e => Ok (exit_time self - e)
  end.
End Trade.

Module Signal.
Record t := mk {
  signal_type : SignalType;
  symbol : string;
  strength : float;
  generated_at : float;
  rationale : string
}.

(** The constructor: [__post_init__] rejects a strength outside [0, 1]. *)
Definition new (now : float) (signal_type : SignalType) (symbol : string)
    (strength : float) (rationale : string) : result t :=
  if fle 0 strength && fle strength 1
  then Ok (mk signal_type symbol strength now rationale)
  else Raise ValueError.
End Signal.

(* ------------------------------------------------------------------ *)
(** ** src/config_models.py (the fields the core reads) *)

Module GridTradingParams.
Record t := mk {
  initial_position_size : float;
  grid_spacing_percent : float;
  grid_levels : nat;
  take_profit_percent : float;
  max_drawdown_percent : float;
  max_position_size_percent : float;
  order_type : string;
  limit_order_timeout_seconds : nat
}.
End GridTradingParams.

Module StrategyConfig.
Record t := mk {
  symbol : string;
  long_params : GridTradingParams.t;
  short_params : GridTradingParams.t;
  enable_long : bool;
  enable_short : bool;
  min_volatility_threshold : float
}.
End StrategyConfig.

Module BacktestConfig.
Record t := mk {
  initial_balance : float;
  maker_fee_percent : float;
  taker_fee_percent : float;
  slippage_percent : float
}.
End BacktestConfig.

(* ------------------------------------------------------------------ *)
(** ** src/volatility.py *)

Module VolatilityMeasures.
Record t := mk {
  bollinger_bandwidth : float;
  garman_klass : float;
  atr : float;
  ewma : float;
  composite : float
}.
End VolatilityMeasures.

Module Np.
(** [numpy.mean], [numpy.var] and [numpy.std] of a list.  numpy divides
    without raising: an empty list gives [0 / 0]. *)
Definition mean (xs : list float) : float := fsum xs / of_nat (List.length xs).
Definition var (xs : list float) : float :=
  let m := mean xs in mean (map (fun x => sq (x - m)) xs).
Definition std (xs : list float) : float := sqrt (var xs).
End Np.

Module VolatilityCalculator.
Record t := mk {
  bb_period : nat;
  bb_std_dev : float;
  atr_period : nat;
  ewma_alpha : float;
  closes : list float;
  highs : list float;
  lows : list float;
  opens : list float;
  previous_ewma : option float
}.

(** [VolatilityCalculator()] with the default arguments. *)
Definition new : t := mk 20 2.0 14 0.33 [] [] [] [] None.

Definition with_previous_ewma (self : t) (v : option float) : t :=
  mk (bb_period self) (bb_std_dev self) (atr_period self) (ewma_alpha self)
     (closes self) (highs self) (lows self) (opens self) v.

Definition _calculate_bollinger_bandwidth (self : t) : float :=
  if Nat.ltb (List.length (closes self)) (bb_period self) then 0
  else
    let recent := last_n (bb_period self) (closes self) in
    let mean := Np.mean recent in
    let std_dev := Np.std recent in
    (bb_std_dev self * std_dev) / mean * 100.

(** True ranges [tr_values]: one per candle after the first. *)
Fixpoint true_ranges (prev_close : float) (hlc : list (float * float * float))
    : list float :=
  match hlc with
  | [] => []
  | (h, l, c) :: r =>
      fmax3 (h - l) (abs (h - prev_close)) (abs (l - prev_close))
      :: true_ranges c r
  end.

Definition _calculate_atr (self : t) : float :=
  if Nat.ltb (List.length (closes self)) (atr_period self + 1) then 0
  else
    let hlc := combine (combine (highs self) (lows self)) (closes self) in
    let tr_values :=
      match hlc with
      | [] => []
      | (_, _, c0) :: r => true_ranges c0 r
      end in
    Np.mean (last_n (atr_period self) tr_values).

(** Simple returns of consecutive closes. *)
Fixpoint returns (prev : float) (cs : list float) : result (list float) :=
  match cs with
  | [] => Ok []
  | c :: r =>
      ret <- fdiv (c - prev) prev ;;
      rest <- returns c r ;;
      Ok (ret :: rest)
  end.

Definition _calculate_ewma (self : t) : result (float * t) :=
  if Nat.ltb (List.length (closes self)) 2 then Ok (0, self)
  else
    rets <- (match closes self with
             | [] => Ok []
             | c0 :: r => returns c0 r
             end) ;;
    let previous_ewma' :=
      match previous_ewma self with
      | None => match rets with [] => 0 | _ => Np.var rets end
      | Some prev =>
          let latest_return := last rets 0 in
          ewma_alpha self * sq latest_return + (1 - ewma_alpha self) * prev
      end in
    Ok (sqrt (abs previous_ewma') * 100, with_previous_ewma self (Some previous_ewma')).

Definition get_composite_volatility (measures : VolatilityMeasures.t) : float :=
  if feq (VolatilityMeasures.bollinger_bandwidth measures) 0
     && feq (VolatilityMeasures.garman_klass measures) 0
     && feq (VolatilityMeasures.atr measures) 0
     && feq (VolatilityMeasures.ewma measures) 0
  then 0
  else
    let normalized_atr :=
      if fgt (VolatilityMeasures.atr measures) 0
      then VolatilityMeasures.atr measures * 100 else 0 in
    VolatilityMeasures.bollinger_bandwidth measures * 0.25
    + VolatilityMeasures.garman_klass measures * 0.25
    + normalized_atr * 0.25
    + VolatilityMeasures.ewma measures * 0.25.

Section WithLog.
(** [numpy.log] *)
Variable np_log : float -> float.

(** One term of the Garman-Klass sum for a candle [(h, l, c, o)]. *)
Definition gk_term (hlco : float * float * float * float) : result float :=
  let '(h, l, c, o) := hlco in
  hl_ratio <- fdiv h l ;;
  co_ratio <- fdiv c o ;;
  let hl := np_log hl_ratio in
  let co := np_log co_ratio in
  Ok (0.5 * sq hl - (2 * np_log 2 - 1) * sq co).

Definition _calculate_garman_klass (self : t) : result float :=
  if Nat.ltb (List.length (closes self)) (atr_period self) then Ok 0
  else
    let recent_h := last_n (atr_period self) (highs self) in
    let recent_l := last_n (atr_period self) (lows self) in
    let recent_c := last_n (atr_period self) (closes self) in
    let recent_o := last_n (atr_period self) (opens self) in
    gk_sum <- foldM (fun acc hlco => x <- gk_term hlco ;; Ok (acc + x))
                    (combine (combine (combine recent_h recent_l) recent_c) recent_o)
                    0 ;;
    let gk_variance := gk_sum / of_nat (List.length recent_h) in
    Ok (sqrt (abs gk_variance) * 100).

(** [update]: pushes the candle, trims the buffers, recomputes the four
    measures.  It returns the snapshot and the calculator it leaves. *)
Definition update (self : t) (high low close open_price : float)
    : result (VolatilityMeasures.t * t) :=
  let closes' := closes self ++ [close] in
  let highs' := highs self ++ [high] in
  let lows' := lows self ++ [low] in
  let opens' := opens self ++ [open_price] in
  let max_history := (Nat.max (bb_period self) (atr_period self) + 5)%nat in
  let pop0 (xs : list float) := if Nat.ltb max_history (List.length closes') then tl xs else xs in
  let self1 := mk (bb_period self) (bb_std_dev self) (atr_period self)
                  (ewma_alpha self) (pop0 closes') (pop0 highs') (pop0 lows')
                  (pop0 opens') (previous_ewma self) in
  let bb := _calculate_bollinger_bandwidth self1 in
  gk <- _calculate_garman_klass self1 ;;
  let atr := _calculate_atr self1 in
  '(ewma, self2) <- _calculate_ewma self1 ;;
  Ok (VolatilityMeasures.mk bb gk atr ewma 0.0, self2).
End WithLog.
End VolatilityCalculator.

(* ------------------------------------------------------------------ *)
(** ** src/adaptive_parameters.py *)

Module ScaledParameters.
Record t := mk {
  grid_spacing_percent : float;
  order_volume : float;
  take_profit_percent : float;
  max_drawdown_percent : float;
  volatility_level : string;
  scaling_factor : float;
  timestamp : float
}.
End ScaledParameters.

Module AdaptiveParameterConfig.
Record t := mk {
  base_grid_spacing_percent : float;
  base_order_volume : float;
  base_take_profit_percent : float;
  base_max_drawdown_percent : float;
  low_volatility_threshold : float;
  high_volatility_threshold : float;
  min_scaling_factor : float;
  max_scaling_factor : float;
  bb_weight : float;
  gk_weight : float;
  atr_weight : float;
  ewma_weight : float;
  scaling_modes : dict string
}.

(** [AdaptiveParameterConfig()] with the dataclass defaults. *)
Definition default : t :=
  mk 0.5 0.02 5.0 8.0 1.0 5.0 0.4 2.5 0.25 0.25 0.25 0.25
     [("grid_spacing_percent", "direct"); ("order_volume", "inverse");
      ("take_profit_percent", "direct"); ("max_drawdown_percent", "direct")]%string.
End AdaptiveParameterConfig.

Module AdaptiveParameterEngine.
Record t := mk {
  config : AdaptiveParameterConfig.t;
  volatility_history : list float;
  scaling_history : list ScaledParameters.t
}.

Definition new (config : option AdaptiveParameterConfig.t) : t :=
  mk (match config with Some c => c | None => AdaptiveParameterConfig.default end)
     [] [].

Definition _calculate_composite_volatility (self : t)
    (measures : VolatilityMeasures.t) : float :=
  let normalized_atr :=
    if fgt (VolatilityMeasures.atr measures) 0
    then VolatilityMeasures.atr measures * 100 else 0 in
  let composite :=
    VolatilityMeasures.bollinger_bandwidth measures
      * AdaptiveParameterConfig.bb_weight (config self)
    + VolatilityMeasures.garman_klass measures
      * AdaptiveParameterConfig.gk_weight (config self)
    + normalized_atr * AdaptiveParameterConfig.atr_weight (config self)
    + VolatilityMeasures.ewma measures
      * AdaptiveParameterConfig.ewma_weight (config self) in
  fmax 0.0 composite.

Definition _classify_volatility (self : t) (volatility : float) : string :=
  if flt volatility (AdaptiveParameterConfig.low_volatility_threshold (config self))
  then "LOW"
  else if fgt volatility (AdaptiveParameterConfig.high_volatility_threshold (config self))
  then "HIGH"
  else if fgt volatility
            (AdaptiveParameterConfig.high_volatility_threshold (config self) * 1.5)
  then "EXTREME"
  else "NORMAL".

Definition _calculate_scaling_factor (self : t) (volatility : float) : float :=
  let reference_vol :=
    (AdaptiveParameterConfig.low_volatility_threshold (config self)
     + AdaptiveParameterConfig.high_volatility_threshold (config self)) / 2 in
  let reference_vol := if feq reference_vol 0 then 1.0 else reference_vol in
  let scaling := volatility / reference_vol in
  fmax (AdaptiveParameterConfig.min_scaling_factor (config self))
      (fmin (AdaptiveParameterConfig.max_scaling_factor (config self)) scaling).

Definition _scale_parameter (self : t) (base_value scaling_factor : float)
    (param_name : string) : result float :=
  let mode :=
    match get (AdaptiveParameterConfig.scaling_modes (config self)) param_name with
    | Some m => m
    | None => "direct"%string
    end in
  scaled <- (if String.eqb mode "direct" then Ok (base_value * scaling_factor)
             else fdiv base_value scaling_factor) ;;
  Ok (fmax 0.0 scaled).

Definition scale_parameters (self : t) (measures : VolatilityMeasures.t)
    : result (ScaledParameters.t * t) :=
  let composite_vol := _calculate_composite_volatility self measures in
  let vol_level := _classify_volatility self composite_vol in
  let scaling_factor := _calculate_scaling_factor self composite_vol in
  gs <- _scale_parameter self
          (AdaptiveParameterConfig.base_grid_spacing_percent (config self))
          scaling_factor "grid_spacing_percent" ;;
  ov <- _scale_parameter self
          (AdaptiveParameterConfig.base_order_volume (config self))
          scaling_factor "order_volume" ;;
  tp <- _scale_parameter self
          (AdaptiveParameterConfig.base_take_profit_percent (config self))
          scaling_factor "take_profit_percent" ;;
  dd <- _scale_parameter self
          (AdaptiveParameterConfig.base_max_drawdown_percent (config self))
          scaling_factor "max_drawdown_percent" ;;
  let scaled := ScaledParameters.mk gs ov tp dd vol_level scaling_factor 0.0 in
  Ok (scaled,
      mk (config self) (volatility_history self ++ [composite_vol])
         (scaling_history self ++ [scaled])).
End AdaptiveParameterEngine.

(* ------------------------------------------------------------------ *)
(** ** src/strategies/grid_strategy.py *)

Module GridTradingStrategy.
(** The attributes [Strategy.__init__], [initialize_adaptive] and
    [GridTradingStrategy.__init__] give an instance. *)
Record t := mk {
  symbol : string;
  trade_type : TradeType;
  state : StrategyState;
  position : option Position.t;
  entry_orders : list Order.t;
  exit_orders : list Order.t;
  vol_calculator : VolatilityCalculator.t;
  param_engine : AdaptiveParameterEngine.t;
  current_measures : option VolatilityMeasures.t;
  current_scaled : option ScaledParameters.t;
  params : GridTradingParams.t;
  grid_prices : list float;
  entry_signal_generated : bool;
  current_max_price : float;
  current_min_price : float
}.

Definition new (symbol : string) (trade_type : TradeType)
    (params : GridTradingParams.t) : t :=
  mk symbol trade_type IDLE None [] []
     VolatilityCalculator.new (AdaptiveParameterEngine.new None) None None
     params [] false 0.0 infinity.

(** [Strategy.reset] *)
Definition reset (self : t) : t :=
  mk (symbol self) (trade_type self)
     IDLE                       (* self.state = StrategyState.IDLE *)
     None                       (* self.position = None *)
     []                         (* self.entry_orders = [] *)
     []                         (* self.exit_orders = [] *)
     (vol_calculator self) (param_engine self)
     (current_measures self) (current_scaled self)
     (params self) (grid_prices self)
     false                      (* self.entry_signal_generated = False *)
     (current_max_price self) (current_min_price self).

Definition set_entry_signal_generated (self : t) (b : bool) : t :=
  mk (symbol self) (trade_type self) (state self) (position self)
     (entry_orders self) (exit_orders self) (vol_calculator self)
     (param_engine self) (current_measures self) (current_scaled self)
     (params self) (grid_prices self) b
     (current_max_price self) (current_min_price self).

Definition set_grid_prices (self : t) (ps : list float) : t :=
  mk (symbol self) (trade_type self) (state self) (position self)
     (entry_orders self) (exit_orders self) (vol_calculator self)
     (param_engine self) (current_measures self) (current_scaled self)
     (params self) ps (entry_signal_generated self)
     (current_max_price self) (current_min_price self).

Definition set_price_extremes (self : t) (hi lo : float) : t :=
  mk (symbol self) (trade_type self) (state self) (position self)
     (entry_orders self) (exit_orders self) (vol_calculator self)
     (param_engine self) (current_measures self) (current_scaled self)
     (params self) (grid_prices self) (entry_signal_generated self) hi lo.

(** [GridTradingParams] declares no [min_volatility_threshold], so the
    [hasattr] test of [analyze] fails and the threshold is the literal. *)
Definition min_vol_threshold (self : t) : float := 0.1.

(** The messages of a signal are formatted text; the model keeps none. *)
Definition rationale : string := "".

(** [analyze]: the signals, and the strategy the call leaves. *)
Definition analyze (now : float) (self : t) (market_data : MarketData.t)
    : result (list Signal.t * t) :=
  if StrategyState_eqb (state self) IDLE && negb (entry_signal_generated self)
  then
    volatility <- MarketData.calculate_volatility market_data 20 ;;
    if fge volatility (min_vol_threshold self)
    then
      let signal_type :=
        if TradeType_eqb (trade_type self) LONG then BUY else SELL in
      signal <- Signal.new now signal_type (symbol self)
                  (fmin (volatility / 10.0) 1.0) rationale ;;
      Ok ([signal], set_entry_signal_generated self true)
    else Ok ([], self)
  else Ok ([], self).

Definition grid_order_id (self : t) (level : nat) : string :=
  (symbol self ++ "_" ++ TradeType_value (trade_type self) ++ "_grid_"
   ++ str level)%string.

(** [generate_grid_orders]: the orders, and the strategy with the grid
    prices appended to [grid_prices]. *)
Definition generate_grid_orders (now : float) (self : t)
    (entry_price position_size current_price : float)
    : result (list Order.t * t) :=
  let grid_spacing_percent :=
    match current_scaled self with
    | Some sc => ScaledParameters.grid_spacing_percent sc
    | None => GridTradingParams.grid_spacing_percent (params self)
    end in
  size_per_order <-
    fdiv position_size (of_nat (GridTradingParams.grid_levels (params self))) ;;
  let grid_spacing := grid_spacing_percent / 100.0 in
  let levels := seq 0 (GridTradingParams.grid_levels (params self)) in
  let side := if TradeType_eqb (trade_type self) LONG then LONG else SHORT in
  let price_at (level : nat) :=
    if TradeType_eqb (trade_type self) LONG
    then entry_price * (1 - grid_spacing * of_nat level)
    else entry_price * (1 + grid_spacing * of_nat level) in
  let orders :=
    map (fun level =>
           Order.new now (grid_order_id self level) (symbol self) side LIMIT
                     size_per_order (Some (price_at level)))
        levels in
  Ok (orders, set_grid_prices self (grid_prices self ++ map price_at levels)).

(** [check_exit_conditions]: the exit signal or [None], and the strategy
    with the price extremes it tracked. *)
Definition check_exit_conditions (now : float) (self : t)
    (current_price account_equity : float) (position_arg : option Position.t)
    : result (option Signal.t * t) :=
  let pos := match position_arg with Some p => Some p | None => position self end in
  match pos with
  | None => Ok (None, self)
  | Some pos =>
      if negb (Position.is_open pos) then Ok (None, self)
      else
        let self := set_price_extremes self
                      (fmax (current_max_price self) current_price)
                      (fmin (current_min_price self) current_price) in
        let '(tp_percent, dd_percent) :=
          match current_scaled self with
          | Some sc => (ScaledParameters.take_profit_percent sc,
                        ScaledParameters.max_drawdown_percent sc)
          | None => (GridTradingParams.take_profit_percent (params self),
                     GridTradingParams.max_drawdown_percent (params self))
          end in
        pnl_percent <- Position.calculate_unrealized_pnl_percent pos current_price ;;
        if fge pnl_percent tp_percent
        then
          signal <- Signal.new now EXIT (symbol self) 1.0 rationale ;;
          Ok (Some signal, self)
        else
          match Position.entry_orders pos with
          | [] => Ok (None, self)
          | _ :: _ =>
              let drawdown :=
                if TradeType_eqb (trade_type self) LONG
                then (if fgt (current_max_price self) 0
                      then (current_max_price self - current_price)
                           / current_max_price self * 100
                      else 0)
                else (if fgt (current_min_price self) 0
                      then (current_price - current_min_price self)
                           / current_min_price self * 100
                      else 0) in
              let max_loss_allowed := account_equity * (dd_percent / 100.0) in
              let current_loss :=
                abs (Position.calculate_unrealized_pnl pos current_price) in
              if fge current_loss max_loss_allowed
              then
                signal <- Signal.new now EXIT (symbol self) 1.0 rationale ;;
                Ok (Some signal, self)
              else Ok (None, self)
          end
  end.

(** [calculate_position_size]; the argument [max_position_percent] is not
    read. *)
Definition calculate_position_size (self : t)
    (account_balance max_position_percent : float) : result float :=
  let max_position_value :=
    account_balance
    * (GridTradingParams.max_position_size_percent (params self) / 100.0) in
  fdiv max_position_value (GridTradingParams.initial_position_size (params self)).

Definition set_position (self : t) (pos : option Position.t)
    (orders : list Order.t) : t :=
  mk (symbol self) (trade_type self) (state self) pos
     orders (exit_orders self) (vol_calculator self)
     (param_engine self) (current_measures self) (current_scaled self)
     (params self) (grid_prices self) (entry_signal_generated self)
     (current_max_price self) (current_min_price self).

Definition set_state (self : t) (st : StrategyState) : t :=
  mk (symbol self) (trade_type self) st (position self)
     (entry_orders self) (exit_orders self) (vol_calculator self)
     (param_engine self) (current_measures self) (current_scaled self)
     (params self) (grid_prices self) (entry_signal_generated self)
     (current_max_price self) (current_min_price self).

(** The loop of [update_state] over the filled orders: each goes into the
    position and onto the strategy's own list. *)
Fixpoint add_filled_orders (pos : Position.t) (entry_orders : list Order.t)
    (filled_orders : list Order.t) : result (Position.t * list Order.t) :=
  match filled_orders with
  | [] => Ok (pos, entry_orders)
  | order :: r =>
      pos <- Position.add_entry_order pos order ;;
      add_filled_orders pos (entry_orders ++ [order]) r
  end.

(** [update_state].  With fills and no position yet it builds
    [Position(position_id=..., symbol=..., trade_type=...)], a call that
    leaves out the required [entry_price] and [quantity]; the id is
    formatted first, from [market_data.latest_candle.timestamp]. *)
Definition update_state (self : t) (market_data : MarketData.t)
    (filled_orders : list Order.t) : outcome t :=
  let current_price :=
    match MarketData.latest_close market_data with
    | Some c => if feq c 0 then 0.0 else c
    | None => 0.0
    end in
  let after_fills : outcome t :=
    match filled_orders with
    | [] => Returns self
    | _ :: _ =>
        match position self with
        | None =>
            match MarketData.latest_candle market_data with
            | None => Raises AttributeError
            | Some _ => Raises (Builtin TypeError)
            end
        | Some pos =>
            match add_filled_orders pos (entry_orders self) filled_orders with
            | Raise e => Raises (Builtin e)
            | Ok (pos, orders) => Returns (set_position self (Some pos) orders)
            end
        end
    end in
  match after_fills with
  | Raises e => Raises e
  | Returns self =>
      let self :=
        match position self with
        | Some pos =>
            if Position.is_open pos
            then set_price_extremes self
                   (fmax (current_max_price self) current_price)
                   (fmin (current_min_price self) current_price)
            else self
        | None => self
        end in
      Returns (if StrategyState_eqb (state self) IDLE
               then set_state self ACTIVE else self)
  end.
End GridTradingStrategy.

(* ------------------------------------------------------------------ *)
(** ** src/adaptive_integration.py *)

Module AdaptiveStrategyMixin.
Definition set_adaptive (self : GridTradingStrategy.t)
    (calc : VolatilityCalculator.t) (engine : AdaptiveParameterEngine.t)
    (measures : option VolatilityMeasures.t)
    (scaled : option ScaledParameters.t) : GridTradingStrategy.t :=
  GridTradingStrategy.mk
    (GridTradingStrategy.symbol self) (GridTradingStrategy.trade_type self)
    (GridTradingStrategy.state self) (GridTradingStrategy.position self)
    (GridTradingStrategy.entry_orders self) (GridTradingStrategy.exit_orders self)
    calc engine measures scaled
    (GridTradingStrategy.params self) (GridTradingStrategy.grid_prices self)
    (GridTradingStrategy.entry_signal_generated self)
    (GridTradingStrategy.current_max_price self)
    (GridTradingStrategy.current_min_price self).

(** [update_adaptive_parameters]: one candle through the calculator, the
    snapshot through the parameter engine. *)
Definition update_adaptive_parameters (np_log : float -> float)
    (self : GridTradingStrategy.t) (high low close open_price : float)
    : result (ScaledParameters.t * GridTradingStrategy.t) :=
  '(measures, calc) <-
    VolatilityCalculator.update
      np_log (GridTradingStrategy.vol_calculator self) high low close open_price ;;
  '(scaled, engine) <-
    AdaptiveParameterEngine.scale_parameters
      (GridTradingStrategy.param_engine self) measures ;;
  Ok (scaled, set_adaptive self calc engine (Some measures) (Some scaled)).

Definition get_current_grid_spacing (self : GridTradingStrategy.t) : option float :=
  option_map ScaledParameters.grid_spacing_percent
             (GridTradingStrategy.current_scaled self).

Definition get_current_take_profit (self : GridTradingStrategy.t) : option float :=
  option_map ScaledParameters.take_profit_percent
             (GridTradingStrategy.current_scaled self).

Definition get_current_max_drawdown (self : GridTradingStrategy.t) : option float :=
  option_map ScaledParameters.max_drawdown_percent
             (GridTradingStrategy.current_scaled self).
End AdaptiveStrategyMixin.

(* ------------------------------------------------------------------ *)
(** ** src/backtest/metrics.py *)

Module TradeMetrics.
(** The two [datetime] fields of the dataclass are left out: no metric
    modelled here reads them. *)
Record t := mk {
  entry_price : float;
  exit_price : float;
  quantity : float;
  profit_loss : float;
  profit_loss_percent : float;
  duration : nat;
  max_profit : float;
  max_loss : float
}.
End TradeMetrics.

Module MetricsCalculator.
Definition gross_profit (trades : list TradeMetrics.t) : float :=
  fsum (map TradeMetrics.profit_loss
           (filter (fun t => fgt (TradeMetrics.profit_loss t) 0) trades)).

Definition gross_loss (trades : list TradeMetrics.t) : float :=
  fsum (map (fun t => abs (TradeMetrics.profit_loss t))
           (filter (fun t => flt (TradeMetrics.profit_loss t) 0) trades)).

Definition calculate_profit_factor (trades : list TradeMetrics.t) : float :=
  if feq (gross_loss trades) 0
  then (if fgt (gross_profit trades) 0 then infinity else 0.0)
  else gross_profit trades / gross_loss trades.

(** [calculate_returns]: one percentage per step of the curve. *)
Fixpoint returns_from (prev : float) (rest : list float) : result (list float) :=
  match rest with
  | [] => Ok []
  | x :: r =>
      ret <- (if feq prev 0 then Ok 0.0
              else q <- fdiv (x - prev) prev ;; Ok (q * 100)) ;;
      rets <- returns_from x r ;;
      Ok (ret :: rets)
  end.

Definition calculate_returns (equity_curve : list float) : result (list float) :=
  match equity_curve with
  | [] => Ok []
  | x :: r => returns_from x r
  end.

Definition calculate_calmar_ratio (annual_return max_drawdown_percent : float)
    : result float :=
  if feq max_drawdown_percent 0 then Ok 0.0
  else fdiv annual_return max_drawdown_percent.

Definition calculate_win_rate (trades : list TradeMetrics.t) : result float :=
  match trades with
  | [] => Ok 0.0
  | _ :: _ =>
      let winning_trades :=
        List.length (filter (fun t => fgt (TradeMetrics.profit_loss t) 0) trades) in
      q <- int_div winning_trades (List.length trades) ;;
      Ok (q * 100)
  end.

Definition calculate_recovery_factor (net_profit max_drawdown : float)
    : result float :=
  if feq max_drawdown 0 then Ok 0.0
  else fdiv net_profit max_drawdown.
End MetricsCalculator.

(* ------------------------------------------------------------------ *)
(** ** src/core/backtest_engine.py *)

Module PortfolioState.
Record t := mk {
  timestamp : float;
  cash_balance : float;
  positions : dict Position.t;
  closed_trades : list Trade.t;
  total_fees : float
}.

(** [PortfolioState(timestamp=..., cash_balance=...)] *)
Definition new (timestamp cash_balance : float) : t :=
  mk timestamp cash_balance [] [] 0.0.

(** The property [total_equity]. *)
Definition total_equity (self : t) : float :=
  let unrealized_pnl :=
    fsum (map (fun pos => Position.calculate_unrealized_pnl pos 0.0)
             (values (positions self))) in
  cash_balance self + unrealized_pnl.

Definition realized_pnl (self : t) : float :=
  fsum (map Trade.pnl_after_commission (closed_trades self)).

Definition unrealized_pnl (self : t) : float :=
  fsum (map (fun pos => Position.calculate_unrealized_pnl pos 0.0)
           (values (positions self))).
End PortfolioState.

Module BacktestMetrics.
Record t := mk {
  total_return_percent : float;
  total_trades : nat;
  winning_trades : nat;
  losing_trades : nat;
  win_rate : float;
  average_win : float;
  average_loss : float;
  profit_factor : float;
  sharpe_ratio : float;
  sortino_ratio : float;
  calmar_ratio : float;
  max_drawdown_percent : float;
  max_drawdown_duration_days : nat;
  best_trade_percent : float;
  worst_trade_percent : float;
  average_trade_duration_days : float;
  consecutive_wins : nat;
  consecutive_losses : nat
}.

(** [BacktestMetrics()] *)
Definition default : t :=
  mk 0.0 0 0 0 0.0 0.0 0.0 0.0 0.0 0.0 0.0 0.0 0 0.0 0.0 0.0 0 0.
End BacktestMetrics.

Module OrderExecutor.
Record t := mk {
  maker_fee : float;
  taker_fee : float;
  slippage : float
}.

Definition new (maker_fee taker_fee slippage : float) : t :=
  mk (maker_fee / 100.0) (taker_fee / 100.0) (slippage / 100.0).

(** [execute_limit_order]: [(filled_qty, fill_price)].  Comparing a float
    with a missing price raises. *)
Definition execute_limit_order (self : t) (order : Order.t) (candle : Candle.t)
    : result (float * float) :=
  match Order.price order with
  | None => Raise TypeError
  | Some price =>
      match Order.trade_type order with
      | LONG =>
          if fle (Candle.low candle) price
          then Ok (Order.quantity order,
                   fmin price (Candle.close candle) * (1 + slippage self))
          else Ok (0.0, 0.0)
      | _ =>
          if fge (Candle.high candle) price
          then Ok (Order.quantity order,
                   fmax price (Candle.close candle) * (1 - slippage self))
          else Ok (0.0, 0.0)
      end
  end.

Definition calculate_commission (self : t) (quantity price : float)
    (is_maker : bool) : float :=
  let fee_percent := if is_maker then maker_fee self else taker_fee self in
  quantity * price * fee_percent.
End OrderExecutor.

Module BacktestEngine.
(** Locations of [PortfolioState] objects and the store that holds them. *)
Definition loc := nat.
Definition store := list PortfolioState.t.

Definition alloc (h : store) (p : PortfolioState.t) : loc * store :=
  (List.length h, h ++ [p]).

Definition deref (h : store) (l : loc) : PortfolioState.t :=
  nth l h (PortfolioState.new 0 0).

Fixpoint assign (h : store) (l : loc) (p : PortfolioState.t) : store :=
  match h, l with
  | [], _ => []
  | _ :: r, O => p :: r
  | x :: r, S l' => x :: assign r l' p
  end.

Record t := mk {
  config : BacktestConfig.t;
  portfolio_history : list loc;
  all_trades : list Trade.t;
  order_executor : OrderExecutor.t
}.

Definition new (config : BacktestConfig.t) : t :=
  mk config [] []
     (OrderExecutor.new (BacktestConfig.maker_fee_percent config)
                        (BacktestConfig.taker_fee_percent config)
                        (BacktestConfig.slippage_percent config)).

Definition strategy_pair : Type :=
  option GridTradingStrategy.t * option GridTradingStrategy.t.

(** What a run of [run_backtest] mutates: the store, the engine object
    [self], and the locals [strategies] and [pending_orders]. *)
Record run := mk_run {
  heap : store;
  self : t;
  strategies : dict strategy_pair;
  pending_orders : dict (list Order.t)
}.

Definition fill : Type := Order.t * float * float.

(** Step 1: test the pending orders of a symbol against the candle. *)
Definition check_pending (ex : OrderExecutor.t) (candle : Candle.t)
    (orders : list Order.t) : result (list fill * list Order.t) :=
  foldM (fun (acc : list fill * list Order.t) order =>
           let '(filled_orders, remaining_orders) := acc in
           '(filled_qty, fill_price) <-
             OrderExecutor.execute_limit_order ex order candle ;;
           if fgt filled_qty 0
           then Ok (filled_orders ++ [(order, filled_qty, fill_price)],
                    remaining_orders)
           else Ok (filled_orders, remaining_orders ++ [order]))
        orders ([], []).

Definition position_id (symbol : string) (order : Order.t) (candle_idx : nat)
    : string :=
  (symbol ++ "_" ++ TradeType_value (Order.trade_type order) ++ "_"
   ++ str candle_idx)%string.

(** Step 2, the body of the loop over the filled orders. *)
Definition apply_fill (ex : OrderExecutor.t) (symbol : string)
    (candle_idx : nat) (candle : Candle.t) (p : PortfolioState.t) (f : fill)
    : result PortfolioState.t :=
  let '(order, filled_qty, fill_price) := f in
  let commission := OrderExecutor.calculate_commission ex filled_qty fill_price true in
  let total_fees := PortfolioState.total_fees p + commission in
  let cash := PortfolioState.cash_balance p - commission in
  positions <-
    match get (PortfolioState.positions p) symbol with
    | None =>
        Ok (set (PortfolioState.positions p) symbol
                (Position.mk (position_id symbol order candle_idx) symbol
                             (Order.trade_type order) fill_price filled_qty
                             (Some (Candle.timestamp candle)) []))
    | Some pos =>
        let total_qty := Position.quantity pos + filled_qty in
        entry_price <-
          fdiv (Position.entry_price pos * Position.quantity pos
               + fill_price * filled_qty) total_qty ;;
        Ok (set (PortfolioState.positions p) symbol
                (Position.mk (Position.position_id pos) (Position.symbol pos)
                             (Position.trade_type pos) entry_price total_qty
                             (match Position.entry_time pos with
                              | None => Some (Candle.timestamp candle)
                              | Some e => Some e
                              end)
                             (Position.entry_orders pos)))
    end ;;
  Ok (PortfolioState.mk (PortfolioState.timestamp p)
                        (cash - filled_qty * fill_price)
                        positions (PortfolioState.closed_trades p) total_fees).

(** Step 3 for one side: analyse and, on a signal, queue the grid. *)
Definition try_entry (now : float) (cfg : BacktestConfig.t)
    (market_data : MarketData.t) (candle : Candle.t) (symbol : string)
    (strat : option GridTradingStrategy.t) (pending : dict (list Order.t))
    : result (option GridTradingStrategy.t * dict (list Order.t)) :=
  match strat with
  | None => Ok (None, pending)
  | Some st =>
      match GridTradingStrategy.position st with
      | Some _ => Ok (Some st, pending)
      | None =>
          '(signals, st) <- GridTradingStrategy.analyze now st market_data ;;
          match signals with
          | [] => Ok (Some st, pending)
          | _ :: _ =>
              let entry_price := Candle.close candle in
              position_size <-
                fdiv (BacktestConfig.initial_balance cfg * 0.1) entry_price ;;
              '(grid_orders, st) <-
                GridTradingStrategy.generate_grid_orders
                  now st entry_price position_size (Candle.close candle) ;;
              let queued :=
                match get pending symbol with Some os => os | None => [] end in
              Ok (Some st, set pending symbol (queued ++ grid_orders))
          end
      end
  end.

(** Step 4, the body under [if exit_signal]: book the trade and delete the
    position.  [tag] is the letter of the trade id, [pnl] the raw P&L. *)
Definition close_position (ex : OrderExecutor.t) (symbol tag : string)
    (candle_idx : nat) (candle : Candle.t) (position : Position.t)
    (pnl : float) (p : PortfolioState.t) (trades : list Trade.t)
    : result (PortfolioState.t * list Trade.t) :=
  let current_price := Candle.close candle in
  let commission :=
    OrderExecutor.calculate_commission ex (Position.quantity position)
                                       current_price true in
  let pnl_after_commission := pnl - commission in
  let total_fees := PortfolioState.total_fees p + commission in
  let cash := PortfolioState.cash_balance p
              + (Position.quantity position * current_price - commission) in
  pnl_percent <-
    (if fgt (Position.entry_price position) 0
     then r <- fdiv pnl (Position.entry_price position * Position.quantity position) ;;
          Ok (r * 100)
     else Ok 0) ;;
  let trade :=
    Trade.mk (symbol ++ "_" ++ tag ++ "_" ++ str candle_idx)%string symbol
             (Position.entry_price position) current_price
             (Position.quantity position) (Position.entry_time position)
             (Candle.timestamp candle) pnl pnl_after_commission pnl_percent in
  Ok (PortfolioState.mk (PortfolioState.timestamp p) cash
                        (del (PortfolioState.positions p) symbol)
                        (PortfolioState.closed_trades p ++ [trade]) total_fees,
      trades ++ [trade]).

(** Step 4. *)
Definition check_exits (now : float) (ex : OrderExecutor.t) (symbol : string)
    (candle_idx : nat) (candle : Candle.t) (pair : strategy_pair)
    (p : PortfolioState.t) (trades : list Trade.t)
    : result (strategy_pair * PortfolioState.t * list Trade.t) :=
  let '(long_strat, short_strat) := pair in
  match get (PortfolioState.positions p) symbol with
  | None => Ok (pair, p, trades)
  | Some position =>
      let current_price := Candle.close candle in
      match Position.trade_type position, long_strat, short_strat with
      | LONG, Some ls, _ =>
          '(exit_signal, ls) <-
            GridTradingStrategy.check_exit_conditions
              now ls current_price (PortfolioState.total_equity p) (Some position) ;;
          match exit_signal with
          | None => Ok ((Some ls, short_strat), p, trades)
          | Some _ =>
              let pnl := (current_price - Position.entry_price position)
                         * Position.quantity position in
              '(p, trades) <-
                close_position ex symbol "L" candle_idx candle position pnl p trades ;;
              Ok ((Some ls, short_strat), p, trades)
          end
      | SHORT, _, Some ss =>
          '(exit_signal, ss) <-
            GridTradingStrategy.check_exit_conditions
              now ss current_price (PortfolioState.total_equity p) (Some position) ;;
          match exit_signal with
          | None => Ok ((long_strat, Some ss), p, trades)
          | Some _ =>
              let pnl := (Position.entry_price position - current_price)
                         * Position.quantity position in
              '(p, trades) <-
                close_position ex symbol "S" candle_idx candle position pnl p trades ;;
              Ok ((long_strat, Some ss), p, trades)
          end
      | _, _, _ => Ok (pair, p, trades)
      end
  end.

(** The body of [for symbol in strategies.keys()] for the portfolio at
    location [portfolio]. *)
Definition process_symbol (now : float) (portfolio : loc)
    (market_data_dict : dict MarketData.t) (candle_idx : nat)
    (current_candles : dict Candle.t) (r : run) (symbol : string)
    : result run :=
  match get current_candles symbol, get (strategies r) symbol,
        get market_data_dict symbol with
  | Some candle, Some (long_strat, short_strat), Some market_data =>
      let ex := order_executor (self r) in
      let p := deref (heap r) portfolio in
      (* step 1 *)
      '(filled_orders, pending) <-
        match get (pending_orders r) symbol with
        | None => Ok ([], pending_orders r)
        | Some orders =>
            '(filled_orders, remaining_orders) <- check_pending ex candle orders ;;
            Ok (filled_orders, set (pending_orders r) symbol remaining_orders)
        end ;;
      (* step 2 *)
      p <- foldM (apply_fill ex symbol candle_idx candle) filled_orders p ;;
      (* step 3 *)
      '(long_strat, pending) <-
        try_entry now (config (self r)) market_data candle symbol long_strat pending ;;
      '(short_strat, pending) <-
        try_entry now (config (self r)) market_data candle symbol short_strat pending ;;
      (* step 4 *)
      '(strats, p, trades) <-
        check_exits now ex symbol candle_idx candle (long_strat, short_strat)
                    p (all_trades (self r)) ;;
      Ok (mk_run (assign (heap r) portfolio p)
                 (mk (config (self r)) (portfolio_history (self r)) trades ex)
                 (set (strategies r) symbol strats)
                 pending)
  | _, _, _ => Ok r
  end.

(** [current_candles]: the candle of every symbol at [candle_idx]. *)
Definition candles_at (market_data_dict : dict MarketData.t) (candle_idx : nat)
    : result (dict Candle.t) :=
  mapM (fun kv : string * MarketData.t =>
          match nth_error (MarketData.candles (snd kv)) candle_idx with
          | Some c => Ok (fst kv, c)
          | None => Raise IndexError
          end)
       market_data_dict.

(** The body of the main loop: every symbol, then
    [self.portfolio_history.append(portfolio)]. *)
Definition process_candle (now : float) (portfolio : loc)
    (market_data_dict : dict MarketData.t) (r : run) (candle_idx : nat)
    : result run :=
  current_candles <- candles_at market_data_dict candle_idx ;;
  r <- foldM (process_symbol now portfolio market_data_dict candle_idx current_candles)
             (keys (strategies r)) r ;;
  Ok (mk_run (heap r)
             (mk (config (self r)) (portfolio_history (self r) ++ [portfolio])
                 (all_trades (self r)) (order_executor (self r)))
             (strategies r) (pending_orders r)).

Definition init_strategies (strategy_configs : list StrategyConfig.t)
    : dict strategy_pair :=
  fold_left
    (fun strategies cfg =>
       let long_strategy :=
         if StrategyConfig.enable_long cfg
         then Some (GridTradingStrategy.new (StrategyConfig.symbol cfg) LONG
                                            (StrategyConfig.long_params cfg))
         else None in
       let short_strategy :=
         if StrategyConfig.enable_short cfg
         then Some (GridTradingStrategy.new (StrategyConfig.symbol cfg) SHORT
                                            (StrategyConfig.short_params cfg))
         else None in
       set strategies (StrategyConfig.symbol cfg) (long_strategy, short_strategy))
    strategy_configs [].

(** [min(len(data.candles) for data in market_data_dict.values())] *)
Definition num_candles (market_data_dict : dict MarketData.t) : result nat :=
  match values market_data_dict with
  | [] => Raise ValueError
  | d :: ds =>
      Ok (fold_left (fun m d' => Nat.min m (List.length (MarketData.candles d')))
                    ds (List.length (MarketData.candles d)))
  end.

(** The state in which the main loop starts, with the location of the
    fresh portfolio. *)
Definition start (self : t) (h : store) (strategy_configs : list StrategyConfig.t)
    : loc * run :=
  let '(portfolio, h) :=
    alloc h (PortfolioState.new 0.0 (BacktestConfig.initial_balance (config self))) in
  (portfolio, mk_run h self (init_strategies strategy_configs) []).

(** The main loop over the candle indices [idxs]. *)
Definition main_loop (now : float) (portfolio : loc)
    (market_data_dict : dict MarketData.t) (idxs : list nat) (r : run)
    : result run :=
  foldM (process_candle now portfolio market_data_dict) idxs r.

(** [max(trades, key=...)] and [min(trades, key=...)]: the first extreme. *)
Definition best_by (better : float -> float -> bool) (t0 : Trade.t)
    (ts : list Trade.t) : Trade.t :=
  fold_left (fun b t => if better (Trade.pnl_percent t) (Trade.pnl_percent b)
                        then t else b) ts t0.

Definition _calculate_metrics (self : t) (final_portfolio : PortfolioState.t)
    (trades : list Trade.t) : result BacktestMetrics.t :=
  match trades with
  | [] => Ok BacktestMetrics.default
  | t0 :: ts =>
      let total_trades := List.length trades in
      let winning_trades := List.length (filter Trade.is_profitable trades) in
      let losing_trades := (total_trades - winning_trades)%nat in
      let win_rate :=
        if Nat.ltb 0 total_trades
        then of_nat winning_trades / of_nat total_trades * 100 else 0.0 in
      let winning_pnls :=
        map Trade.pnl_after_commission (filter Trade.is_profitable trades) in
      let losing_pnls :=
        map (fun t => abs (Trade.pnl_after_commission t))
            (filter (fun t => negb (Trade.is_profitable t)) trades) in
      let average_win :=
        match winning_pnls with
        | [] => 0.0
        | _ => fsum winning_pnls / of_nat (List.length winning_pnls)
        end in
      let average_loss :=
        match losing_pnls with
        | [] => 0.0
        | _ => fsum losing_pnls / of_nat (List.length losing_pnls)
        end in
      let profit_factor :=
        if fgt average_loss 0 && fgt (fsum losing_pnls) 0
        then fsum winning_pnls / fsum losing_pnls else 0.0 in
      let best_trade := best_by fgt t0 ts in
      let worst_trade := best_by flt t0 ts in
      durations <- mapM Trade.duration_seconds trades ;;
      let avg_duration := fsum durations / of_nat (List.length trades) in
      let initial_balance := BacktestConfig.initial_balance (config self) in
      let final_balance := PortfolioState.total_equity final_portfolio in
      ret <- fdiv (final_balance - initial_balance) initial_balance ;;
      Ok (BacktestMetrics.mk (ret * 100) total_trades winning_trades losing_trades
            win_rate average_win average_loss profit_factor 0.0 0.0 0.0 0.0 0
            (Trade.pnl_percent best_trade) (Trade.pnl_percent worst_trade)
            (avg_duration / 86400) 0 0)
  end.

(** [run_backtest]: the metrics and the state the run leaves (the store,
    the engine with its history and trades, the strategies). *)
Definition run_backtest (now : float) (self : t) (h : store)
    (market_data_dict : dict MarketData.t)
    (strategy_configs : list StrategyConfig.t)
    : result (BacktestMetrics.t * run) :=
  let '(portfolio, r) := start self h strategy_configs in
  n <- num_candles market_data_dict ;;
  r <- main_loop now portfolio market_data_dict (seq 0 n) r ;;
  metrics <- _calculate_metrics (BacktestEngine.self r)
               (deref (heap r) portfolio) (all_trades (BacktestEngine.self r)) ;;
  Ok (metrics, r).

(** [get_portfolio_history]: the objects its entries name, read now. *)
Definition get_portfolio_history (r : run) : list PortfolioState.t :=
  map (deref (heap r)) (portfolio_history (self r)).
End BacktestEngine.

(* ------------------------------------------------------------------ *)
(** ** Sample data *)

Module Sample.
Open Scope string_scope.

(** Grid parameters: one level, 1% spacing, 1% take profit, 1% drawdown. *)
Definition params : GridTradingParams.t :=
  GridTradingParams.mk 100.0 1.0 1 1.0 1.0 10.0 "limit" 300.

Definition strategy : GridTradingStrategy.t :=
  GridTradingStrategy.new "BTCUSDC" LONG params.

(** A pending LONG limit order at 100 for 10 units. *)
Definition long_order : Order.t :=
  Order.new 0 "BTCUSDC_long_grid_0" "BTCUSDC" LONG LIMIT 10.0 (Some 100.0).

Definition candle (ts o h l c : float) : Candle.t :=
  Candle.mk ts o h l c 1000.0 None.

(** Low exactly at the order price, and low above it. *)
Definition candle_touching : Candle.t := candle 0 101 102 100 101.
Definition candle_above : Candle.t := candle 0 101 102 100.5 101.

Definition executor : OrderExecutor.t := OrderExecutor.new 0.1 0.1 0.05.

(** Fifteen identical candles (high 101, low 99, close 100, open 100). *)
Definition flat_range : list (float * float * float * float) :=
  repeat (101.0, 99.0, 100.0, 100.0) 15.

(** One closed trade that won 20, as the engine and as the metrics
    module record it. *)
Definition winning_trade : Trade.t :=
  Trade.mk "BTCUSDC_L_2" "BTCUSDC" 100 102 10 (Some 3600) 7200 20 20 2.

Definition winning_trade_metrics : TradeMetrics.t :=
  TradeMetrics.mk 100 102 10 20 2 1 20 0.

(** A four-candle backtest of one symbol, long side only, without fees or
    slippage: a signal on candle 0, the grid order at 100 filled on candle
    1, take profit at 102 on candle 2, and a flat candle 3. *)
Definition config : BacktestConfig.t := BacktestConfig.mk 10000.0 0.0 0.0 0.0.

Definition strategy_config : StrategyConfig.t :=
  StrategyConfig.mk "BTCUSDC" params params true false 0.5.

Definition market_data : MarketData.t :=
  MarketData.mk "BTCUSDC"
    [candle 0 100 100 100 100;
     candle 3600 100 101 99 100;
     candle 7200 100 102 100 102;
     candle 10800 102 102 102 102]
    "1h".

Definition market_data_dict : dict MarketData.t := [("BTCUSDC", market_data)].

(** The run after its first [n] candles, from a fresh engine and an empty
    store; the portfolio is the first object allocated, at location 0. *)
Definition after (n : nat) : result BacktestEngine.run :=
  let '(portfolio, r) :=
    BacktestEngine.start (BacktestEngine.new config) [] [strategy_config] in
  BacktestEngine.main_loop 0 portfolio market_data_dict (seq 0 n) r.

Definition portfolio_after (n : nat) : result PortfolioState.t :=
  r <- after n ;; Ok (BacktestEngine.deref (BacktestEngine.heap r) 0%nat).

Definition position_after (n : nat) : result (option Position.t) :=
  p <- portfolio_after n ;; Ok (get (PortfolioState.positions p) "BTCUSDC").

Definition long_strategy_after (n : nat) : result (option GridTradingStrategy.t) :=
  r <- after n ;;
  Ok (match get (BacktestEngine.strategies r) "BTCUSDC" with
      | Some (long_strat, _) => long_strat
      | None => None
      end).

(** The cash balance each history entry shows when read after [n] candles. *)
Definition history_cash_after (n : nat) : result (list float) :=
  r <- after n ;;
  Ok (map PortfolioState.cash_balance (BacktestEngine.get_portfolio_history r)).

(** The position open after candle 1, and the long strategy after the
    take profit of candle 2. *)
Definition open_position : Position.t :=
  Position.mk "BTCUSDC_long_1" "BTCUSDC" LONG 100 10 (Some 3600) [].

Definition strategy_after_close : GridTradingStrategy.t :=
  GridTradingStrategy.mk "BTCUSDC" LONG IDLE None [] []
    VolatilityCalculator.new (AdaptiveParameterEngine.new None) None None
    params [100] true 102 100.
End Sample.

(** The specification's reading of a position's entry orders: the sum of
    their filled quantities. *)
Definition filled_quantity_sum (orders : list Order.t) : float :=
  fsum (map Order.filled_quantity orders).

(** The specification's total equity at market prices: cash plus the
    unrealized P&L of every open position at [price]. *)
Definition equity_at_price (p : PortfolioState.t) (price : float) : float :=
  PortfolioState.cash_balance p
  + fsum (map (fun pos => Position.calculate_unrealized_pnl pos price)
              (values (PortfolioState.positions p))).

(** The engine's test [filled_qty > 0] on what [execute_limit_order]
    returned. *)
Definition fills (r : result (float * float)) : bool :=
  match r with
  | Ok (filled_qty, _) => fgt filled_qty 0
  | Raise _ => false
  end.

(** No position is open for an exit check: [position or self.position] is
    [None], or it holds no quantity. *)
Definition no_open_position (self : GridTradingStrategy.t)
    (position_arg : option Position.t) : Prop :=
  match position_arg, GridTradingStrategy.position self with
  | Some p, _ => Position.is_open p = false
  | None, Some p => Position.is_open p = false
  | None, None => True
  end.

(** Feed a list of candles [(high, low, close, open)] to a calculator; the
    last snapshot and the calculator left. *)
Definition feed (np_log : float -> float) (calc : VolatilityCalculator.t)
    (cs : list (float * float * float * float))
    : result (option VolatilityMeasures.t * VolatilityCalculator.t) :=
  foldM (fun (acc : option VolatilityMeasures.t * VolatilityCalculator.t) hlco =>
           let '(h, l, c, o) := hlco in
           '(m, calc) <- VolatilityCalculator.update np_log (snd acc) h l c o ;;
           Ok (Some m, calc))
        cs (None, calc).

(** Every open position of the portfolio has an empty [entry_orders]. *)
Definition no_entry_orders (p : PortfolioState.t) : Prop :=
  Forall (fun pos => Position.entry_orders pos = [])
         (values (PortfolioState.positions p)).

(** The long strategy of [symbol] exists and its entry flag is latched. *)
Definition long_latched (r : BacktestEngine.run) (symbol : string) : Prop :=
  match get (BacktestEngine.strategies r) symbol with
  | Some (Some long_strat, _) =>
      GridTradingStrategy.entry_signal_generated long_strat = true
  | _ => False
  end.

(* ------------------------------------------------------------------ *)
(** ** Predicates of the further properties *)

(** [VolatilityCalculator.update]: the bound [max(bb_period, atr_period) + 5]
    it keeps its four buffers under. *)
Definition max_history (calc : VolatilityCalculator.t) : nat :=
  Nat.max (VolatilityCalculator.bb_period calc) (VolatilityCalculator.atr_period calc)
  + 5.

(** The four buffers hold the same candles and respect the bound. *)
Definition buffers_aligned (calc : VolatilityCalculator.t) : Prop :=
  List.length (VolatilityCalculator.highs calc)
  = List.length (VolatilityCalculator.closes calc)
  /\ List.length (VolatilityCalculator.lows calc)
     = List.length (VolatilityCalculator.closes calc)
  /\ List.length (VolatilityCalculator.opens calc)
     = List.length (VolatilityCalculator.closes calc)
  /\ List.length (VolatilityCalculator.closes calc) <= max_history calc.

(** A buffer after an update: the value pushed, the oldest entry popped
    when the bound is exceeded. *)
Definition pushed (calc : VolatilityCalculator.t) (xs : list float) (x : float)
    : list float :=
  if Nat.ltb (max_history calc) (S (List.length (VolatilityCalculator.closes calc)))
  then tl (xs ++ [x]) else xs ++ [x].

(** A position whose quantity is the sum of the filled quantities of its
    entry orders. *)
Definition quantity_is_filled_sum (pos : Position.t) : Prop :=
  Position.quantity pos = filled_quantity_sum (Position.entry_orders pos).

(** The signal a strategy emits on entry: BUY when it trades long, SELL
    otherwise. *)
Definition entry_signal_type (self : GridTradingStrategy.t) : SignalType :=
  match GridTradingStrategy.trade_type self with
  | LONG => BUY
  | _ => SELL
  end.

(** The direction of the orders of a grid. *)
Definition grid_side (self : GridTradingStrategy.t) : TradeType :=
  match GridTradingStrategy.trade_type self with
  | LONG => LONG
  | _ => SHORT
  end.

(** What every order of a fresh grid looks like. *)
Definition fresh_grid_order (self : GridTradingStrategy.t) (position_size : float)
    (order : Order.t) : Prop :=
  Order.order_type order = LIMIT
  /\ Order.status order = PENDING
  /\ Order.trade_type order = grid_side self
  /\ Order.symbol order = GridTradingStrategy.symbol self
  /\ Order.filled_quantity order = 0
  /\ Order.filled_price order = None
  /\ fdiv position_size
          (of_nat (GridTradingParams.grid_levels (GridTradingStrategy.params self)))
     = Ok (Order.quantity order).

(** The take-profit and drawdown percentages in force: the adaptive ones
    when the strategy has them, the configured ones otherwise. *)
Definition exit_percentages (self : GridTradingStrategy.t) : float * float :=
  match GridTradingStrategy.current_scaled self with
  | Some sc => (ScaledParameters.take_profit_percent sc,
                ScaledParameters.max_drawdown_percent sc)
  | None => (GridTradingParams.take_profit_percent (GridTradingStrategy.params self),
             GridTradingParams.max_drawdown_percent (GridTradingStrategy.params self))
  end.

Definition is_some {A} (o : option A) : bool :=
  match o with Some _ => true | None => false end.

Definition has_entry_orders (pos : Position.t) : bool :=
  match Position.entry_orders pos with [] => false | _ :: _ => true end.

(** Step 1 of the engine: the order of a fill, the engine's test on an
    order, and a fill that is what the executor returned for its order. *)
Definition fill_order_of (f : BacktestEngine.fill) : Order.t := fst (fst f).

Definition order_fills (ex : OrderExecutor.t) (candle : Candle.t) (order : Order.t)
    : bool :=
  fills (OrderExecutor.execute_limit_order ex order candle).

Definition fill_matches (ex : OrderExecutor.t) (candle : Candle.t)
    (f : BacktestEngine.fill) : Prop :=
  OrderExecutor.execute_limit_order ex (fill_order_of f) candle
  = Ok (snd (fst f), snd f)
  /\ fgt (snd (fst f)) 0 = true.

(** A strategy the state machine has not moved: idle, without a position,
    orders or adaptive values. *)
Definition untouched (st : GridTradingStrategy.t) : Prop :=
  GridTradingStrategy.state st = IDLE
  /\ GridTradingStrategy.position st = None
  /\ GridTradingStrategy.entry_orders st = []
  /\ GridTradingStrategy.exit_orders st = []
  /\ GridTradingStrategy.current_measures st = None
  /\ GridTradingStrategy.current_scaled st = None.

Definition side_untouched (s : option GridTradingStrategy.t) : Prop :=
  match s with
  | Some st => untouched st
  | None => True
  end.

Definition strategies_untouched (r : BacktestEngine.run) : Prop :=
  Forall (fun pr : BacktestEngine.strategy_pair =>
            side_untouched (fst pr) /\ side_untouched (snd pr))
         (values (BacktestEngine.strategies r)).

(** The engine object of [r] continues [self0]: same configuration and
    executor, the trades of [self0] first. *)
Definition engine_extends (self0 : BacktestEngine.t) (r : BacktestEngine.run) : Prop :=
  (exists new_trades,
      BacktestEngine.all_trades (BacktestEngine.self r)
      = BacktestEngine.all_trades self0 ++ new_trades)
  /\ BacktestEngine.config (BacktestEngine.self r) = BacktestEngine.config self0
  /\ BacktestEngine.order_executor (BacktestEngine.self r)
     = BacktestEngine.order_executor self0.

(** A call that does not raise IndexError. *)
Definition never_index_error {A} (r : result A) : Prop :=
  match r with
  | Raise IndexError => False
  | _ => True
  end.

(** Further sample data. *)
Module Cases.
Open Scope string_scope.

(** A stand-in for [numpy.log]: its first-order expansion at 1. *)
Definition np_log (x : float) : float := x - 1.

(** A snapshot of the four measures. *)
Definition measures : VolatilityMeasures.t := VolatilityMeasures.mk 2.0 1.0 2.0 0.5 0.0.

(** The sample order after a complete fill at 100. *)
Definition filled_order : Order.t :=
  Order.mk "BTCUSDC_long_grid_0" "BTCUSDC" LONG LIMIT 10.0 (Some 100.0)
           PENDING 0 10.0 (Some 100.0) 0.

(** A market order: it has no price. *)
Definition market_order : Order.t :=
  Order.new 0 "BTCUSDC_long_market_0" "BTCUSDC" LONG MARKET 10.0 None.

(** A LONG limit order priced at the close of [Sample.candle_touching]. *)
Definition order_at_close : Order.t :=
  Order.new 0 "BTCUSDC_long_grid_0" "BTCUSDC" LONG LIMIT 10.0 (Some 101.0).

(** A position object before its first order. *)
Definition empty_position : Position.t :=
  Position.mk "BTCUSDC_long_0" "BTCUSDC" LONG 0 0 None [].

(** The sample market after its first candle only. *)
Definition first_candle_only : MarketData.t :=
  MarketData.mk "BTCUSDC" [Sample.candle 0 100 100 100 100] "1h".

(** A symbol without candles. *)
Definition no_candles : MarketData.t := MarketData.mk "ETHUSDC" [] "1h".

(** The portfolio of the sample run after candle 1: the position open. *)
Definition portfolio_open : PortfolioState.t :=
  PortfolioState.mk 0 9000 [("BTCUSDC", Sample.open_position)] [] 0.

(** A trade whose position never got an entry time. *)
Definition trade_without_entry_time : Trade.t :=
  Trade.mk "BTCUSDC_L_2" "BTCUSDC" 100 102 10 None 7200 20 20 2.

(** An engine that has run before: one history entry and one trade. *)
Definition engine_used : BacktestEngine.t :=
  BacktestEngine.mk Sample.config [0%nat] [Sample.winning_trade]
    (BacktestEngine.order_executor (BacktestEngine.new Sample.config)).
End Cases.

(* ------------------------------------------------------------------ *)
(** ** Proof tactics *)

(** Split an equation [x <- m ;; k = Ok v] into the two calls. *)
Ltac bind_ok H :=
  match type of H with
  | Py.bind ?m _ = Ok _ =>
      let E := fresh "E" in
      destruct m eqn:E; cbn [Py.bind] in H; [|discriminate H]
  end.

(** Split a chain of calls that ended in [Ok]. *)
Ltac binds_ok H :=
  repeat first
    [ bind_ok H
    | match type of H with
      | match ?x with _ => _ end = Ok _ => destruct x eqn:?; try discriminate H
      end ].

(** Close a branch of the exit check: the result against the decision. *)
Ltac exit_done H :=
  repeat match goal with
         | E : Signal.new _ _ _ _ _ = Ok _ |- _ =>
             unfold Signal.new in E; cbn in E; inversion E; subst; clear E
         end;
  inversion H; subst; clear H; cbn;
  split; [reflexivity|];
  split; [intros s Hs; inversion Hs; subst; split; reflexivity | reflexivity].

(** A concrete call that returns: evaluate it and take what it returned. *)
Ltac returns_by_evaluation := vm_compute; eexists; reflexivity.

(* ------------------------------------------------------------------ *)
(** ** Order of floats *)

Section FloatOrder.

Lemma SFcompare_antisym (x y : spec_float) :
  SFcompare y x = option_map CompOpp (SFcompare x y).
Proof.
  destruct x as [sx|sx| |sx mx ex], y as [sy|sy| |sy my ey]; simpl;
    try reflexivity;
    try (destruct sx; reflexivity); try (destruct sy; reflexivity);
    try (destruct sx, sy; reflexivity).
  destruct sx, sy; simpl; try reflexivity;
    rewrite (Z.compare_antisym ex ey); destruct (ex ?= ey)%Z; simpl;
    try reflexivity;
    rewrite (Logic.eq_sym (Pos.compare_cont_antisym mx my Eq)
               : Pos.compare_cont Eq my mx = CompOpp (Pos.compare_cont Eq mx my));
    destruct (Pos.compare_cont Eq mx my); reflexivity.
Qed.

(** [a < b] excludes [b <= a]. *)
Lemma flt_not_fle (a b : float) : flt a b = true -> fle b a = false.
Proof.
  unfold flt, fle. rewrite ltb_spec, leb_spec. unfold SFltb, SFleb.
  rewrite (SFcompare_antisym (Prim2SF a) (Prim2SF b)).
  destruct (SFcompare (Prim2SF a) (Prim2SF b)) as [[]|]; simpl; congruence.
Qed.

(** [a == b] gives [b <= a]. *)
Lemma feq_fle (a b : float) : feq a b = true -> fle b a = true.
Proof.
  unfold feq, fle. rewrite FloatAxioms.eqb_spec, leb_spec. unfold SFeqb, SFleb.
  rewrite (SFcompare_antisym (Prim2SF a) (Prim2SF b)).
  destruct (SFcompare (Prim2SF a) (Prim2SF b)) as [[]|]; simpl; congruence.
Qed.

End FloatOrder.

(* ------------------------------------------------------------------ *)
(** ** Order matching *)

(** C7.  A pending LONG limit order of positive quantity fills on a candle
    exactly when the candle's low is at or below the order price; the fill
    is the whole quantity at [min(price, close) * (1 + slippage)]; a price
    equal to the low fills and a price below the low returns the empty fill
    [(0.0, 0.0)].  A SHORT order that fills gets
    [max(price, close) * (1 - slippage)]. *)
Theorem execute_limit_order_long_fills_iff_low_le_price
    (ex : OrderExecutor.t) (order : Order.t) (candle : Candle.t) (price : float) :
  Order.trade_type order = LONG ->
  Order.price order = Some price ->
  fgt (Order.quantity order) 0 = true ->
  fills (OrderExecutor.execute_limit_order ex order candle)
    = fle (Candle.low candle) price
  /\ (fle (Candle.low candle) price = true ->
      OrderExecutor.execute_limit_order ex order candle
      = Ok (Order.quantity order,
            fmin price (Candle.close candle) * (1 + OrderExecutor.slippage ex)))
  /\ (feq price (Candle.low candle) = true ->
      fills (OrderExecutor.execute_limit_order ex order candle) = true)
  /\ (flt price (Candle.low candle) = true ->
      OrderExecutor.execute_limit_order ex order candle = Ok (0.0, 0.0))
  /\ (forall (short : Order.t) (p : float),
        Order.trade_type short = SHORT ->
        Order.price short = Some p ->
        fge (Candle.high candle) p = true ->
        OrderExecutor.execute_limit_order ex short candle
        = Ok (Order.quantity short,
              fmax p (Candle.close candle) * (1 - OrderExecutor.slippage ex))).
Proof.
  intros Hlong Hprice Hqty.
  assert (Hiff : fills (OrderExecutor.execute_limit_order ex order candle)
                 = fle (Candle.low candle) price).
  { unfold OrderExecutor.execute_limit_order. rewrite Hprice, Hlong.
    destruct (fle (Candle.low candle) price); simpl; [exact Hqty | reflexivity]. }
  split; [exact Hiff|].
  split.
  { intros Hle. unfold OrderExecutor.execute_limit_order.
    rewrite Hprice, Hlong, Hle. reflexivity. }
  split.
  { intros Heq. rewrite Hiff. apply feq_fle. exact Heq. }
  split.
  { intros Hlt. unfold OrderExecutor.execute_limit_order.
    rewrite Hprice, Hlong, (flt_not_fle _ _ Hlt). reflexivity. }
  intros short p Hshort Hp Hge. unfold OrderExecutor.execute_limit_order.
  rewrite Hp, Hshort, Hge. reflexivity.
Qed.

Lemma execute_limit_order_long_fills_iff_low_le_price_witness :
  (Order.trade_type Sample.long_order = LONG
   /\ Order.price Sample.long_order = Some 100.0
   /\ fgt (Order.quantity Sample.long_order) 0 = true)
  /\ fills (OrderExecutor.execute_limit_order
              Sample.executor Sample.long_order Sample.candle_touching)
     = fle (Candle.low Sample.candle_touching) 100.0.
Proof.
  split.
  - repeat split; reflexivity.
  - apply (execute_limit_order_long_fills_iff_low_le_price
             Sample.executor Sample.long_order Sample.candle_touching 100.0);
      reflexivity.
Defined.

(** The boundary on the sample order at 100: a candle whose low is 100 fills
    it at [100 * 1.0005], a candle whose low is 100.5 leaves it pending. *)
Lemma execute_limit_order_boundary_sample :
  OrderExecutor.execute_limit_order
    Sample.executor Sample.long_order Sample.candle_touching
  = Ok (10.0, 100.0 * (1 + 0.05 / 100.0))
  /\ OrderExecutor.execute_limit_order
       Sample.executor Sample.long_order Sample.candle_above
     = Ok (0.0, 0.0).
Proof. split; vm_compute; reflexivity. Qed.

(* ------------------------------------------------------------------ *)
(** ** Strategy: exit check and reset *)

(** C9 (as the code has it).  An exit check with no open position, whether
    both the argument and the strategy's own position are [None] or the
    position holds no quantity, returns [None] without raising and leaves
    the strategy as it was. *)
Theorem check_exit_conditions_without_open_position
    (now : float) (self : GridTradingStrategy.t)
    (current_price account_equity : float) (position_arg : option Position.t) :
  no_open_position self position_arg ->
  GridTradingStrategy.check_exit_conditions
    now self current_price account_equity position_arg
  = Ok (None, self).
Proof.
  unfold no_open_position, GridTradingStrategy.check_exit_conditions.
  destruct position_arg as [p|].
  - intros ->. reflexivity.
  - destruct (GridTradingStrategy.position self) as [p|].
    + intros ->. reflexivity.
    + reflexivity.
Qed.

Lemma check_exit_conditions_without_open_position_witness :
  no_open_position Sample.strategy None
  /\ GridTradingStrategy.check_exit_conditions 0 Sample.strategy 100 10000 None
     = Ok (None, Sample.strategy).
Proof.
  split.
  - exact I.
  - apply (check_exit_conditions_without_open_position
             0 Sample.strategy 100 10000 None).
    exact I.
Defined.

(** C9, the claim as stated fails: on a fresh strategy, with no position
    passed and none of its own, the exit check does not raise; it returns
    [None]. *)
Lemma check_exit_conditions_no_position_is_silent :
  GridTradingStrategy.check_exit_conditions 0 Sample.strategy 100 10000 None
  = Ok (None, Sample.strategy).
Proof. vm_compute. reflexivity. Qed.

(** The same for a position that holds no quantity. *)
Lemma check_exit_conditions_closed_position_is_silent :
  GridTradingStrategy.check_exit_conditions 0 Sample.strategy 100 10000
    (Some (Position.mk "BTCUSDC_long_1" "BTCUSDC" LONG 100 0 None []))
  = Ok (None, Sample.strategy).
Proof. vm_compute. reflexivity. Qed.

(** [reset] is idempotent. *)
Lemma reset_idempotent (self : GridTradingStrategy.t) :
  GridTradingStrategy.reset (GridTradingStrategy.reset self)
  = GridTradingStrategy.reset self.
Proof. reflexivity. Qed.

(** The next entry cycle after a reset: the new grid goes after the prices
    of the previous grids. *)
Lemma generate_grid_orders_after_reset (now : float)
    (self self' : GridTradingStrategy.t)
    (entry_price position_size current_price : float) (orders : list Order.t) :
  GridTradingStrategy.generate_grid_orders
    now (GridTradingStrategy.reset self) entry_price position_size current_price
  = Ok (orders, self') ->
  exists new_prices,
    GridTradingStrategy.grid_prices self'
    = GridTradingStrategy.grid_prices self ++ new_prices
    /\ List.length new_prices
       = GridTradingParams.grid_levels (GridTradingStrategy.params self).
Proof.
  unfold GridTradingStrategy.generate_grid_orders.
  destruct (fdiv _ _); simpl; [|discriminate].
  intros H. inversion H; subst; clear H. simpl.
  eexists. split; [reflexivity|].
  rewrite length_map, length_seq. reflexivity.
Qed.

(** The next exit check after a reset: the running extremes start from the
    ones of the previous position. *)
Lemma check_exit_conditions_after_reset (now : float)
    (self self' : GridTradingStrategy.t) (current_price account_equity : float)
    (pos : Position.t) (exit_signal : option Signal.t) :
  Position.is_open pos = true ->
  GridTradingStrategy.check_exit_conditions
    now (GridTradingStrategy.reset self) current_price account_equity (Some pos)
  = Ok (exit_signal, self') ->
  GridTradingStrategy.current_max_price self'
  = fmax (GridTradingStrategy.current_max_price self) current_price
  /\ GridTradingStrategy.current_min_price self'
     = fmin (GridTradingStrategy.current_min_price self) current_price.
Proof.
  unfold GridTradingStrategy.check_exit_conditions. intros Hopen H.
  rewrite Hopen in H. cbn [negb] in H.
  destruct (GridTradingStrategy.current_scaled _) as [sc|];
    binds_ok H; inversion H; subst; split; reflexivity.
Qed.

(** C10.  [reset] writes the five fields [state], [position],
    [entry_signal_generated], [entry_orders] and [exit_orders], and leaves
    every other field, [grid_prices], [current_max_price] and
    [current_min_price] among them, as it was; so the next grid is appended
    after the old grid prices and the next exit check takes its running
    maximum and minimum from the old extremes. *)
Theorem reset_modifies_exactly_five_fields (self : GridTradingStrategy.t) :
  (GridTradingStrategy.state (GridTradingStrategy.reset self) = IDLE
   /\ GridTradingStrategy.position (GridTradingStrategy.reset self) = None
   /\ GridTradingStrategy.entry_signal_generated (GridTradingStrategy.reset self)
      = false
   /\ GridTradingStrategy.entry_orders (GridTradingStrategy.reset self) = []
   /\ GridTradingStrategy.exit_orders (GridTradingStrategy.reset self) = [])
  /\ (GridTradingStrategy.grid_prices (GridTradingStrategy.reset self)
      = GridTradingStrategy.grid_prices self
      /\ GridTradingStrategy.current_max_price (GridTradingStrategy.reset self)
         = GridTradingStrategy.current_max_price self
      /\ GridTradingStrategy.current_min_price (GridTradingStrategy.reset self)
         = GridTradingStrategy.current_min_price self)
  /\ (GridTradingStrategy.symbol (GridTradingStrategy.reset self)
      = GridTradingStrategy.symbol self
      /\ GridTradingStrategy.trade_type (GridTradingStrategy.reset self)
         = GridTradingStrategy.trade_type self
      /\ GridTradingStrategy.vol_calculator (GridTradingStrategy.reset self)
         = GridTradingStrategy.vol_calculator self
      /\ GridTradingStrategy.param_engine (GridTradingStrategy.reset self)
         = GridTradingStrategy.param_engine self
      /\ GridTradingStrategy.current_measures (GridTradingStrategy.reset self)
         = GridTradingStrategy.current_measures self
      /\ GridTradingStrategy.current_scaled (GridTradingStrategy.reset self)
         = GridTradingStrategy.current_scaled self
      /\ GridTradingStrategy.params (GridTradingStrategy.reset self)
         = GridTradingStrategy.params self)
  /\ (forall (now entry_price position_size current_price : float)
             (orders : list Order.t) (self' : GridTradingStrategy.t),
         GridTradingStrategy.generate_grid_orders
           now (GridTradingStrategy.reset self)
           entry_price position_size current_price
         = Ok (orders, self') ->
         exists new_prices,
           GridTradingStrategy.grid_prices self'
           = GridTradingStrategy.grid_prices self ++ new_prices
           /\ List.length new_prices
              = GridTradingParams.grid_levels (GridTradingStrategy.params self))
  /\ (forall (now current_price account_equity : float) (pos : Position.t)
             (exit_signal : option Signal.t) (self' : GridTradingStrategy.t),
         Position.is_open pos = true ->
         GridTradingStrategy.check_exit_conditions
           now (GridTradingStrategy.reset self)
           current_price account_equity (Some pos)
         = Ok (exit_signal, self') ->
         GridTradingStrategy.current_max_price self'
         = fmax (GridTradingStrategy.current_max_price self) current_price
         /\ GridTradingStrategy.current_min_price self'
            = fmin (GridTradingStrategy.current_min_price self) current_price).
Proof.
  split; [|split; [|split; [|split]]].
  - destruct self. simpl. repeat split.
  - destruct self. simpl. repeat split.
  - destruct self. simpl. repeat split.
  - intros now entry_price position_size current_price orders self'.
    apply generate_grid_orders_after_reset.
  - intros now current_price account_equity pos exit_signal self'.
    apply check_exit_conditions_after_reset.
Qed.

(** The extremes do survive a reset on the sample: the strategy left by the
    closed trade has tracked the range 100..102, and so has its reset. *)
Lemma reset_keeps_sample_extremes :
  GridTradingStrategy.grid_prices
    (GridTradingStrategy.reset Sample.strategy_after_close) = [100.0]
  /\ GridTradingStrategy.current_max_price
       (GridTradingStrategy.reset Sample.strategy_after_close) = 102.0
  /\ GridTradingStrategy.current_min_price
       (GridTradingStrategy.reset Sample.strategy_after_close) = 100.0.
Proof. repeat split. Qed.

(* ------------------------------------------------------------------ *)
(** ** Volatility classification *)

(** C5, which the code does not meet.  A volatility above the high
    threshold is classified before the EXTREME comparison is reached: the
    result is 'LOW' or 'HIGH', never 'EXTREME'.  With the default thresholds
    (1.0 and 5.0) the value 10.0, which is above [1.5 * 5.0], is 'HIGH'. *)
Theorem classify_volatility_above_high_never_extreme :
  (forall (self : AdaptiveParameterEngine.t) (volatility : float),
      fgt volatility
          (AdaptiveParameterConfig.high_volatility_threshold
             (AdaptiveParameterEngine.config self)) = true ->
      AdaptiveParameterEngine._classify_volatility self volatility = "LOW"%string
      \/ AdaptiveParameterEngine._classify_volatility self volatility
         = "HIGH"%string)
  /\ fgt 10.0 (5.0 * 1.5) = true
  /\ AdaptiveParameterEngine._classify_volatility
       (AdaptiveParameterEngine.new None) 10.0 = "HIGH"%string.
Proof.
  split.
  - intros self volatility Hhigh.
    unfold AdaptiveParameterEngine._classify_volatility.
    destruct (flt volatility _); [left; reflexivity|].
    rewrite Hhigh. right; reflexivity.
  - split; vm_compute; reflexivity.
Qed.

(** The three branches that are reachable with the default thresholds. *)
Lemma classify_volatility_default_samples :
  map (AdaptiveParameterEngine._classify_volatility
         (AdaptiveParameterEngine.new None))
      [0.5; 1.0; 3.0; 5.0; 5.1; 7.5; 7.6; 100.0]
  = ["LOW"; "NORMAL"; "NORMAL"; "NORMAL"; "HIGH"; "HIGH"; "HIGH"; "HIGH"]%string.
Proof. vm_compute. reflexivity. Qed.

(* ------------------------------------------------------------------ *)
(** ** Profit factor *)

Lemma filter_none_when_all {A} (f : A -> bool) (xs : list A) :
  forallb f xs = true -> filter (fun x => negb (f x)) xs = [].
Proof.
  induction xs as [|x xs IH]; simpl; [reflexivity|].
  intros H. apply andb_prop in H. destruct H as [Hx Hxs].
  rewrite Hx. simpl. apply IH. exact Hxs.
Qed.

(** The metrics module on its own meets the specification: gross profit
    over gross loss, infinity when only the loss is zero, 0 when both are. *)
Lemma calculate_profit_factor_cases (trades : list TradeMetrics.t) :
  (feq (MetricsCalculator.gross_loss trades) 0 = false ->
   MetricsCalculator.calculate_profit_factor trades
   = MetricsCalculator.gross_profit trades / MetricsCalculator.gross_loss trades)
  /\ (feq (MetricsCalculator.gross_loss trades) 0 = true ->
      fgt (MetricsCalculator.gross_profit trades) 0 = true ->
      MetricsCalculator.calculate_profit_factor trades = infinity)
  /\ (feq (MetricsCalculator.gross_loss trades) 0 = true ->
      fgt (MetricsCalculator.gross_profit trades) 0 = false ->
      MetricsCalculator.calculate_profit_factor trades = 0).
Proof.
  unfold MetricsCalculator.calculate_profit_factor.
  repeat split; intros; repeat match goal with H : _ = _ |- _ => rewrite H end;
    reflexivity.
Qed.

(** C8, which the engine does not meet.  The profit factor the engine
    reports is computed in [_calculate_metrics], not by the metrics module:
    when every trade of the list is profitable it is 0, the default of the
    record.  For the one winning trade of the sample the engine reports 0
    where [MetricsCalculator.calculate_profit_factor] returns infinity. *)
Theorem engine_profit_factor_zero_without_losses :
  (forall (self : BacktestEngine.t) (final_portfolio : PortfolioState.t)
          (trades : list Trade.t) (m : BacktestMetrics.t),
      forallb Trade.is_profitable trades = true ->
      BacktestEngine._calculate_metrics self final_portfolio trades = Ok m ->
      BacktestMetrics.profit_factor m = 0)
  /\ (m <- BacktestEngine._calculate_metrics
             (BacktestEngine.new Sample.config)
             (PortfolioState.mk 0 10020 [] [Sample.winning_trade] 0)
             [Sample.winning_trade] ;;
      Ok (BacktestMetrics.winning_trades m, BacktestMetrics.losing_trades m,
          BacktestMetrics.profit_factor m))
     = Ok (1%nat, 0%nat, 0)
  /\ MetricsCalculator.calculate_profit_factor [Sample.winning_trade_metrics]
     = infinity.
Proof.
  split.
  - intros self final_portfolio trades m Hall.
    unfold BacktestEngine._calculate_metrics.
    destruct trades as [|t0 ts]; [intros H; inversion H; reflexivity|].
    rewrite (filter_none_when_all _ _ Hall). simpl map at 2.
    intros H. bind_ok H. bind_ok H. inversion H; subst; clear H. reflexivity.
  - split; vm_compute; reflexivity.
Qed.

(* ------------------------------------------------------------------ *)
(** ** Composite volatility *)

(** Every snapshot [update] returns carries the literal 0.0 as its
    composite. *)
Lemma update_composite_zero (np_log : float -> float)
    (self self' : VolatilityCalculator.t) (high low close open_price : float)
    (m : VolatilityMeasures.t) :
  VolatilityCalculator.update np_log self high low close open_price = Ok (m, self') ->
  VolatilityMeasures.composite m = 0.
Proof.
  unfold VolatilityCalculator.update. intros H.
  bind_ok H. bind_ok H. destruct a0. inversion H; subst; clear H. reflexivity.
Qed.

(** C6, which the code does not meet.  After fifteen candles with high
    101, low 99, close 100 and open 100 fed to a fresh calculator, the
    snapshot has an average true range of 2, whose share of the weighted sum
    alone is [2 * 100 * 0.25 = 50], and a composite of 0.0; so has every
    snapshot, whatever the history: [update] never computes the sum. *)
Theorem update_composite_is_not_the_weighted_sum :
  (forall np_log : float -> float,
      (r <- feed np_log VolatilityCalculator.new Sample.flat_range ;;
       Ok (option_map (fun m => (VolatilityMeasures.atr m,
                                 VolatilityMeasures.composite m)) (fst r)))
      = Ok (Some (2.0, 0.0)))
  /\ (forall (np_log : float -> float) (self : VolatilityCalculator.t)
             (high low close open_price : float),
         (r <- VolatilityCalculator.update np_log self high low close open_price ;;
          Ok (VolatilityMeasures.composite (fst r)))
         = (r <- VolatilityCalculator.update np_log self high low close open_price ;;
            Ok 0.0)).
Proof.
  split.
  - intros np_log. vm_compute. reflexivity.
  - intros np_log self high low close open_price.
    destruct (VolatilityCalculator.update np_log self high low close open_price)
      as [[m self']|e] eqn:E; simpl; [|reflexivity].
    rewrite (update_composite_zero _ _ _ _ _ _ _ _ E). reflexivity.
Qed.

(** What the composite of that snapshot would be by the calculator's own
    [get_composite_volatility]: the ATR term is 50 whatever the other
    three measures are. *)
Lemma get_composite_volatility_atr_term (bb gk ew : float) :
  VolatilityCalculator.get_composite_volatility
    (VolatilityMeasures.mk bb gk 2.0 ew 0.0)
  = bb * 0.25 + gk * 0.25 + 200.0 * 0.25 + ew * 0.25.
Proof.
  unfold VolatilityCalculator.get_composite_volatility. simpl.
  replace (feq 2.0 0) with false by (vm_compute; reflexivity).
  rewrite !andb_false_r. simpl.
  replace (fgt 2.0 0) with true by (vm_compute; reflexivity).
  replace (2.0 * 100) with 200.0 by (vm_compute; reflexivity).
  reflexivity.
Qed.

(* ------------------------------------------------------------------ *)
(** ** Dictionaries and the store *)

Section Dict.
Context {V : Type}.

Lemma get_set_same (d : dict V) (k : string) (v : V) :
  get (set d k v) k = Some v.
Proof.
  induction d as [|[k' v'] d IH]; simpl.
  - rewrite String.eqb_refl. reflexivity.
  - destruct (String.eqb k k') eqn:E; simpl; rewrite E; [reflexivity | exact IH].
Qed.

Lemma get_set_other (d : dict V) (k k0 : string) (v : V) :
  String.eqb k0 k = false -> get (set d k v) k0 = get d k0.
Proof.
  intros Hne. induction d as [|[k' v'] d IH]; simpl.
  - rewrite Hne. reflexivity.
  - destruct (String.eqb k k') eqn:E; simpl.
    + apply String.eqb_eq in E. subst k'. rewrite Hne. reflexivity.
    + destruct (String.eqb k0 k'); [reflexivity | exact IH].
Qed.

Variable P : V -> Prop.

Lemma values_set_Forall (d : dict V) (k : string) (v : V) :
  Forall P (values d) -> P v -> Forall P (values (set d k v)).
Proof.
  unfold values. intros Hd Hv. induction d as [|[k' v'] d IH]; simpl.
  - constructor; [exact Hv | constructor].
  - inversion Hd; subst. destruct (String.eqb k k'); simpl; constructor; auto.
Qed.

Lemma values_del_Forall (d : dict V) (k : string) :
  Forall P (values d) -> Forall P (values (del d k)).
Proof.
  unfold values. intros Hd. induction d as [|[k' v'] d IH]; simpl.
  - constructor.
  - inversion Hd; subst. destruct (String.eqb k k'); simpl; auto.
Qed.

Lemma get_Forall (d : dict V) (k : string) (v : V) :
  Forall P (values d) -> get d k = Some v -> P v.
Proof.
  unfold values. intros Hd. induction d as [|[k' v'] d IH]; simpl.
  - discriminate.
  - inversion Hd; subst. destruct (String.eqb k k').
    + intros H; inversion H; subst; assumption.
    + auto.
Qed.

End Dict.

(** Reading a location after a write to it: the value written, or the
    default of a location the store does not have. *)
Lemma deref_assign (h : BacktestEngine.store) (l : BacktestEngine.loc)
    (p : PortfolioState.t) :
  BacktestEngine.deref (BacktestEngine.assign h l p) l = p
  \/ BacktestEngine.deref (BacktestEngine.assign h l p) l = PortfolioState.new 0 0.
Proof.
  unfold BacktestEngine.deref. revert l.
  induction h as [|x h IH]; intros [|l]; simpl; auto.
Qed.

Lemma deref_alloc (h : BacktestEngine.store) (p : PortfolioState.t) :
  BacktestEngine.deref (snd (BacktestEngine.alloc h p))
                       (fst (BacktestEngine.alloc h p)) = p.
Proof.
  unfold BacktestEngine.deref, BacktestEngine.alloc. simpl.
  rewrite app_nth2, Nat.sub_diag by lia. reflexivity.
Qed.

(* ------------------------------------------------------------------ *)
(** ** The backtest loop *)

Section LoopInvariant.
Variables (now : float) (portfolio : BacktestEngine.loc)
          (market_data_dict : dict MarketData.t).
Variable Inv : BacktestEngine.run -> Prop.

Hypothesis Inv_symbol :
  forall candle_idx current_candles r r' symbol,
    BacktestEngine.process_symbol
      now portfolio market_data_dict candle_idx current_candles r symbol = Ok r' ->
    Inv r -> Inv r'.

Hypothesis Inv_history :
  forall r history,
    Inv r ->
    Inv (BacktestEngine.mk_run
           (BacktestEngine.heap r)
           (BacktestEngine.mk (BacktestEngine.config (BacktestEngine.self r))
              history
              (BacktestEngine.all_trades (BacktestEngine.self r))
              (BacktestEngine.order_executor (BacktestEngine.self r)))
           (BacktestEngine.strategies r) (BacktestEngine.pending_orders r)).

Lemma symbols_invariant (candle_idx : nat) (current_candles : dict Candle.t)
    (symbols : list string) :
  forall r r',
    foldM (BacktestEngine.process_symbol
             now portfolio market_data_dict candle_idx current_candles)
          symbols r = Ok r' ->
    Inv r -> Inv r'.
Proof.
  induction symbols as [|symbol symbols IH]; simpl; intros r r' H Hr.
  - inversion H; subst; exact Hr.
  - bind_ok H. apply (IH _ _ H). exact (Inv_symbol _ _ _ _ _ E Hr).
Qed.

(** What every symbol step and the history append preserve, the main loop
    preserves. *)
Lemma main_loop_invariant (idxs : list nat) :
  forall r r',
    BacktestEngine.main_loop now portfolio market_data_dict idxs r = Ok r' ->
    Inv r -> Inv r'.
Proof.
  unfold BacktestEngine.main_loop.
  induction idxs as [|i idxs IH]; simpl; intros r r' H Hr.
  - inversion H; subst; exact Hr.
  - bind_ok H. apply (IH _ _ H). clear IH H.
    unfold BacktestEngine.process_candle in E. bind_ok E. bind_ok E.
    inversion E; subst; clear E. apply Inv_history.
    eapply symbols_invariant; eassumption.
Qed.

End LoopInvariant.

(** *** Entry orders *)

(** [Position.add_entry_order] is the path that does record the order:
    a filled order goes to the end of [entry_orders]. *)
Lemma add_entry_order_appends (self self' : Position.t) (order : Order.t) :
  feq (Order.filled_quantity order) 0 = false ->
  Position.add_entry_order self order = Ok self' ->
  Position.entry_orders self' = Position.entry_orders self ++ [order].
Proof.
  unfold Position.add_entry_order. intros Hq H. rewrite Hq in H.
  destruct (Order.filled_price order) as [fp|]; [|discriminate H].
  bind_ok H. inversion H; subst; clear H. reflexivity.
Qed.

(** A fill never touches [entry_orders]: a position the engine creates has
    none, and a position it re-averages keeps the list it had. *)
Lemma apply_fill_entry_orders (ex : OrderExecutor.t) (symbol : string)
    (candle_idx : nat) (candle : Candle.t) (p p' : PortfolioState.t)
    (f : BacktestEngine.fill) :
  BacktestEngine.apply_fill ex symbol candle_idx candle p f = Ok p' ->
  option_map Position.entry_orders (get (PortfolioState.positions p') symbol)
  = Some (match get (PortfolioState.positions p) symbol with
          | Some pos => Position.entry_orders pos
          | None => []
          end).
Proof.
  unfold BacktestEngine.apply_fill. destruct f as [[order filled_qty] fill_price].
  intros H. destruct (get (PortfolioState.positions p) symbol) as [pos|] eqn:Hpos.
  - bind_ok H. bind_ok E. inversion E; subst; clear E.
    inversion H; subst; clear H. simpl. rewrite get_set_same. reflexivity.
  - simpl in H. inversion H; subst; clear H. simpl.
    rewrite get_set_same. reflexivity.
Qed.

Lemma apply_fill_no_entry_orders (ex : OrderExecutor.t) (symbol : string)
    (candle_idx : nat) (candle : Candle.t) (p p' : PortfolioState.t)
    (f : BacktestEngine.fill) :
  BacktestEngine.apply_fill ex symbol candle_idx candle p f = Ok p' ->
  no_entry_orders p -> no_entry_orders p'.
Proof.
  unfold BacktestEngine.apply_fill, no_entry_orders.
  destruct f as [[order filled_qty] fill_price]. intros H Hp.
  destruct (get (PortfolioState.positions p) symbol) as [pos|] eqn:Hpos.
  - bind_ok H. bind_ok E. inversion E; subst; clear E.
    inversion H; subst; clear H. simpl.
    apply values_set_Forall; [exact Hp|]. simpl.
    exact (get_Forall (fun pos => Position.entry_orders pos = []) _ _ _ Hp Hpos).
  - simpl in H. inversion H; subst; clear H. simpl.
    apply values_set_Forall; [exact Hp | reflexivity].
Qed.

Lemma fills_no_entry_orders (ex : OrderExecutor.t) (symbol : string)
    (candle_idx : nat) (candle : Candle.t) (fs : list BacktestEngine.fill) :
  forall p p',
    foldM (BacktestEngine.apply_fill ex symbol candle_idx candle) fs p = Ok p' ->
    no_entry_orders p -> no_entry_orders p'.
Proof.
  induction fs as [|f fs IH]; simpl; intros p p' H Hp.
  - inversion H; subst; exact Hp.
  - bind_ok H. apply (IH _ _ H).
    exact (apply_fill_no_entry_orders _ _ _ _ _ _ _ E Hp).
Qed.

Lemma close_position_no_entry_orders (ex : OrderExecutor.t)
    (symbol tag : string) (candle_idx : nat) (candle : Candle.t)
    (position : Position.t) (pnl : float) (p p' : PortfolioState.t)
    (trades trades' : list Trade.t) :
  BacktestEngine.close_position
    ex symbol tag candle_idx candle position pnl p trades = Ok (p', trades') ->
  no_entry_orders p -> no_entry_orders p'.
Proof.
  unfold BacktestEngine.close_position, no_entry_orders. intros H Hp.
  bind_ok H. inversion H; subst; clear H. simpl.
  apply values_del_Forall. exact Hp.
Qed.

Lemma check_exits_no_entry_orders (now : float) (ex : OrderExecutor.t)
    (symbol : string) (candle_idx : nat) (candle : Candle.t)
    (strats strats' : BacktestEngine.strategy_pair)
    (p p' : PortfolioState.t) (trades trades' : list Trade.t) :
  BacktestEngine.check_exits now ex symbol candle_idx candle strats p trades
  = Ok (strats', p', trades') ->
  no_entry_orders p -> no_entry_orders p'.
Proof.
  unfold BacktestEngine.check_exits. destruct strats as [long_strat short_strat].
  intros H Hp.
  destruct (get (PortfolioState.positions p) symbol) as [position|];
    [|inversion H; subst; exact Hp].
  destruct (Position.trade_type position), long_strat as [ls|], short_strat as [ss|];
    try (inversion H; subst; exact Hp);
    bind_ok H; destruct a as [[sig|] st];
    try (inversion H; subst; exact Hp);
    bind_ok H; destruct a; inversion H; subst; clear H;
    eapply close_position_no_entry_orders; eauto.
Qed.

Lemma process_symbol_no_entry_orders (now : float)
    (portfolio : BacktestEngine.loc) (market_data_dict : dict MarketData.t)
    (candle_idx : nat) (current_candles : dict Candle.t)
    (r r' : BacktestEngine.run) (symbol : string) :
  BacktestEngine.process_symbol
    now portfolio market_data_dict candle_idx current_candles r symbol = Ok r' ->
  no_entry_orders (BacktestEngine.deref (BacktestEngine.heap r) portfolio) ->
  no_entry_orders (BacktestEngine.deref (BacktestEngine.heap r') portfolio).
Proof.
  unfold BacktestEngine.process_symbol. intros H Hr.
  destruct (get current_candles symbol) as [candle|];
    [|inversion H; subst; exact Hr].
  destruct (get (BacktestEngine.strategies r) symbol)
    as [[long_strat short_strat]|]; [|inversion H; subst; exact Hr].
  destruct (get market_data_dict symbol) as [market_data|];
    [|inversion H; subst; exact Hr].
  bind_ok H. destruct a as [filled pending].
  bind_ok H. bind_ok H. destruct a0 as [ls pending1].
  bind_ok H. destruct a0 as [ss pending2].
  bind_ok H. destruct a0 as [[strats p'] trades].
  inversion H; subst; clear H. simpl.
  destruct (deref_assign (BacktestEngine.heap r) portfolio p') as [-> | ->].
  - eapply check_exits_no_entry_orders; [eassumption|].
    eapply fills_no_entry_orders; [eassumption | exact Hr].
  - constructor.
Qed.

(** C1, which the engine does not meet.  On the sample run the grid order
    for 10 units fills on candle 1; the position the engine opens has
    quantity 10 and an empty [entry_orders], so the filled quantities of its
    entry orders sum to 0, not to its quantity.  It is so in every run: a
    fill creates a position without entry orders and re-averages one without
    appending, so after any number of candles every open position has an
    empty [entry_orders]. *)
Theorem engine_position_entry_orders_stay_empty :
  Sample.position_after 2 = Ok (Some Sample.open_position)
  /\ Position.quantity Sample.open_position = 10.0
  /\ Position.entry_orders Sample.open_position = []
  /\ filled_quantity_sum (Position.entry_orders Sample.open_position) = 0.0
  /\ feq (Position.quantity Sample.open_position)
         (filled_quantity_sum (Position.entry_orders Sample.open_position))
     = false
  /\ (forall (now : float) (self : BacktestEngine.t) (h : BacktestEngine.store)
             (market_data_dict : dict MarketData.t)
             (strategy_configs : list StrategyConfig.t) (idxs : list nat)
             (r' : BacktestEngine.run),
         BacktestEngine.main_loop
           now (fst (BacktestEngine.start self h strategy_configs))
           market_data_dict idxs
           (snd (BacktestEngine.start self h strategy_configs)) = Ok r' ->
         no_entry_orders
           (BacktestEngine.deref
              (BacktestEngine.heap r')
              (fst (BacktestEngine.start self h strategy_configs)))).
Proof.
  repeat split; try (vm_compute; reflexivity).
  intros now self h market_data_dict strategy_configs idxs r' H.
  refine (main_loop_invariant now _ market_data_dict
            (fun r => no_entry_orders
                        (BacktestEngine.deref (BacktestEngine.heap r) _))
            _ _ idxs _ _ H _).
  - intros candle_idx current_candles r r0 symbol.
    apply process_symbol_no_entry_orders.
  - intros r history Hr. exact Hr.
  - unfold BacktestEngine.start. simpl.
    pose proof (deref_alloc h (PortfolioState.new
                                 0 (BacktestConfig.initial_balance
                                      (BacktestEngine.config self)))) as D.
    simpl in D. rewrite D. constructor.
Qed.

(** *** The entry latch *)

(** Once the entry flag is latched, [analyze] returns no signal and leaves
    the strategy as it is. *)
Lemma analyze_latched (now : float) (self : GridTradingStrategy.t)
    (market_data : MarketData.t) :
  GridTradingStrategy.entry_signal_generated self = true ->
  GridTradingStrategy.analyze now self market_data = Ok ([], self).
Proof.
  intros H. unfold GridTradingStrategy.analyze. rewrite H, andb_false_r.
  reflexivity.
Qed.

(** The exit check does not write the flag. *)
Lemma check_exit_conditions_flag (now : float) (self self' : GridTradingStrategy.t)
    (current_price account_equity : float) (position_arg : option Position.t)
    (exit_signal : option Signal.t) :
  GridTradingStrategy.check_exit_conditions
    now self current_price account_equity position_arg = Ok (exit_signal, self') ->
  GridTradingStrategy.entry_signal_generated self'
  = GridTradingStrategy.entry_signal_generated self.
Proof.
  unfold GridTradingStrategy.check_exit_conditions. intros H.
  destruct (match position_arg with
            | Some p => Some p
            | None => GridTradingStrategy.position self
            end) as [pos|]; [|inversion H; reflexivity].
  destruct (negb (Position.is_open pos)); [inversion H; reflexivity|].
  destruct (GridTradingStrategy.current_scaled _) as [sc|];
    binds_ok H; inversion H; subst; reflexivity.
Qed.

Lemma try_entry_latched (now : float) (cfg : BacktestConfig.t)
    (market_data : MarketData.t) (candle : Candle.t) (symbol : string)
    (st : GridTradingStrategy.t) (pending : dict (list Order.t)) :
  GridTradingStrategy.entry_signal_generated st = true ->
  BacktestEngine.try_entry now cfg market_data candle symbol (Some st) pending
  = Ok (Some st, pending).
Proof.
  intros H. unfold BacktestEngine.try_entry.
  destruct (GridTradingStrategy.position st); [reflexivity|].
  rewrite (analyze_latched now st market_data H). reflexivity.
Qed.

(** Step 4 hands back a long strategy that is still latched, also when it
    closed the position: nothing there calls [reset]. *)
Lemma check_exits_latched (now : float) (ex : OrderExecutor.t)
    (symbol : string) (candle_idx : nat) (candle : Candle.t)
    (ls : GridTradingStrategy.t) (ss : option GridTradingStrategy.t)
    (strats' : BacktestEngine.strategy_pair)
    (p p' : PortfolioState.t) (trades trades' : list Trade.t) :
  BacktestEngine.check_exits now ex symbol candle_idx candle (Some ls, ss) p trades
  = Ok (strats', p', trades') ->
  GridTradingStrategy.entry_signal_generated ls = true ->
  exists ls', fst strats' = Some ls'
              /\ GridTradingStrategy.entry_signal_generated ls' = true.
Proof.
  unfold BacktestEngine.check_exits. intros H Hl.
  destruct (get (PortfolioState.positions p) symbol) as [position|];
    [|inversion H; subst; simpl; eauto].
  destruct (Position.trade_type position).
  - bind_ok H. destruct a as [sig ls'].
    apply check_exit_conditions_flag in E. rewrite Hl in E.
    destruct sig; [bind_ok H; destruct a|]; inversion H; subst; simpl; eauto.
  - destruct ss as [ss|]; [|inversion H; subst; simpl; eauto].
    bind_ok H. destruct a as [sig ss'].
    destruct sig; [bind_ok H; destruct a|]; inversion H; subst; simpl; eauto.
  - inversion H; subst; simpl; eauto.
Qed.

Lemma process_symbol_latched (now : float) (portfolio : BacktestEngine.loc)
    (market_data_dict : dict MarketData.t) (candle_idx : nat)
    (current_candles : dict Candle.t) (r r' : BacktestEngine.run)
    (symbol s : string) :
  BacktestEngine.process_symbol
    now portfolio market_data_dict candle_idx current_candles r symbol = Ok r' ->
  long_latched r s -> long_latched r' s.
Proof.
  unfold BacktestEngine.process_symbol, long_latched. intros H Hr.
  destruct (get current_candles symbol) as [candle|];
    [|inversion H; subst; exact Hr].
  destruct (get (BacktestEngine.strategies r) symbol)
    as [[long_strat short_strat]|] eqn:Hs; [|inversion H; subst; exact Hr].
  destruct (get market_data_dict symbol) as [market_data|];
    [|inversion H; subst; exact Hr].
  bind_ok H. destruct a as [filled pending].
  bind_ok H. bind_ok H. destruct a0 as [ls pending1].
  bind_ok H. destruct a0 as [ss pending2].
  bind_ok H. destruct a0 as [[strats p'] trades].
  inversion H; subst; clear H. simpl.
  destruct (String.eqb s symbol) eqn:Es.
  - apply String.eqb_eq in Es. subst s. rewrite get_set_same.
    rewrite Hs in Hr. destruct long_strat as [st|]; [|contradiction].
    rewrite (try_entry_latched _ _ _ _ _ _ _ Hr) in E1.
    inversion E1; subst; clear E1.
    match goal with
    | Hc : BacktestEngine.check_exits _ _ _ _ _ _ _ _ = Ok _ |- _ =>
        destruct (check_exits_latched _ _ _ _ _ _ _ _ _ _ _ _ Hc Hr)
          as [ls' [Hf Hl]]
    end.
    destruct strats as [l s0]. simpl in Hf. subst l. exact Hl.
  - rewrite (get_set_other _ _ _ _ Es). exact Hr.
Qed.

(** C2, which the engine does not meet.  On the sample run the take profit
    of candle 2 closes the position and books the trade, and the long
    strategy is left in IDLE with [entry_signal_generated] still set: the
    engine does not call [reset].  On candle 3 [analyze] therefore returns
    no signal and no order is queued, although the same call on the reset
    strategy emits one.  It is so in every run: a latched strategy never
    signals, and no candle, with or without a close, unlatches it. *)
Theorem engine_close_leaves_entry_signal_latched :
  Sample.position_after 2 = Ok (Some Sample.open_position)
  /\ Sample.position_after 3 = Ok None
  /\ (r <- Sample.after 3 ;;
      Ok (map Trade.trade_id (BacktestEngine.all_trades (BacktestEngine.self r))))
     = Ok ["BTCUSDC_L_2"%string]
  /\ Sample.long_strategy_after 3 = Ok (Some Sample.strategy_after_close)
  /\ GridTradingStrategy.state Sample.strategy_after_close = IDLE
  /\ GridTradingStrategy.entry_signal_generated Sample.strategy_after_close = true
  /\ GridTradingStrategy.analyze 0 Sample.strategy_after_close Sample.market_data
     = Ok ([], Sample.strategy_after_close)
  /\ (r <- Sample.after 4 ;; Ok (BacktestEngine.pending_orders r))
     = Ok [("BTCUSDC"%string, [])]
  /\ Sample.long_strategy_after 4 = Ok (Some Sample.strategy_after_close)
  /\ (r <- GridTradingStrategy.analyze
             0 (GridTradingStrategy.reset Sample.strategy_after_close)
             Sample.market_data ;;
      Ok (map Signal.signal_type (fst r)))
     = Ok [BUY]
  /\ (forall (now : float) (self : GridTradingStrategy.t)
             (market_data : MarketData.t),
         GridTradingStrategy.entry_signal_generated self = true ->
         GridTradingStrategy.analyze now self market_data = Ok ([], self))
  /\ (forall (now : float) (portfolio : BacktestEngine.loc)
             (market_data_dict : dict MarketData.t) (idxs : list nat)
             (r r' : BacktestEngine.run) (symbol : string),
         BacktestEngine.main_loop now portfolio market_data_dict idxs r = Ok r' ->
         long_latched r symbol -> long_latched r' symbol).
Proof.
  repeat split; try (vm_compute; reflexivity).
  - exact analyze_latched.
  - intros now portfolio market_data_dict idxs r r' symbol.
    apply (main_loop_invariant now portfolio market_data_dict
             (fun r => long_latched r symbol)).
    + intros candle_idx current_candles r0 r1 symbol0.
      apply process_symbol_latched.
    + intros r0 history Hr. exact Hr.
Qed.

(** *** Equity *)

(** C3, which the code does not meet.  [total_equity] prices every open
    position at 0.0, not at the market: it is the specification's formula
    at price 0.  On the sample run, after candle 1 closed at 100 with 10
    units bought at 100, cash is 9000 and cash plus unrealized P&L at the
    market price is 9000, but [total_equity] is 8000. *)
Theorem total_equity_prices_positions_at_zero :
  (forall p : PortfolioState.t,
      PortfolioState.total_equity p = equity_at_price p 0.0)
  /\ (p <- Sample.portfolio_after 2 ;;
      Ok (PortfolioState.cash_balance p, equity_at_price p 100.0,
          PortfolioState.total_equity p))
     = Ok (9000.0, 9000.0, 8000.0).
Proof.
  split.
  - intros p. reflexivity.
  - vm_compute. reflexivity.
Qed.

(** *** History *)

(** Processing a symbol appends nothing to the history. *)
Lemma process_symbol_history (now : float) (portfolio : BacktestEngine.loc)
    (market_data_dict : dict MarketData.t) (candle_idx : nat)
    (current_candles : dict Candle.t) (r r' : BacktestEngine.run)
    (symbol : string) :
  BacktestEngine.process_symbol
    now portfolio market_data_dict candle_idx current_candles r symbol = Ok r' ->
  BacktestEngine.portfolio_history (BacktestEngine.self r')
  = BacktestEngine.portfolio_history (BacktestEngine.self r).
Proof.
  unfold BacktestEngine.process_symbol. intros H.
  destruct (get current_candles symbol) as [candle|];
    [|inversion H; reflexivity].
  destruct (get (BacktestEngine.strategies r) symbol) as [[long_strat short_strat]|];
    [|inversion H; reflexivity].
  destruct (get market_data_dict symbol) as [market_data|];
    [|inversion H; reflexivity].
  binds_ok H. inversion H; subst; clear H. reflexivity.
Qed.

Lemma symbols_history (now : float) (portfolio : BacktestEngine.loc)
    (market_data_dict : dict MarketData.t) (candle_idx : nat)
    (current_candles : dict Candle.t) (symbols : list string) :
  forall r r' : BacktestEngine.run,
    foldM (BacktestEngine.process_symbol
             now portfolio market_data_dict candle_idx current_candles)
          symbols r = Ok r' ->
    BacktestEngine.portfolio_history (BacktestEngine.self r')
    = BacktestEngine.portfolio_history (BacktestEngine.self r).
Proof.
  induction symbols as [|symbol symbols IH]; simpl; intros r r' H.
  - inversion H; reflexivity.
  - bind_ok H. rewrite (IH _ _ H).
    exact (process_symbol_history _ _ _ _ _ _ _ _ E).
Qed.

(** A candle appends the location of the live portfolio, nothing else. *)
Lemma process_candle_history (now : float) (portfolio : BacktestEngine.loc)
    (market_data_dict : dict MarketData.t) (r r' : BacktestEngine.run)
    (candle_idx : nat) :
  BacktestEngine.process_candle now portfolio market_data_dict r candle_idx = Ok r' ->
  BacktestEngine.portfolio_history (BacktestEngine.self r')
  = BacktestEngine.portfolio_history (BacktestEngine.self r) ++ [portfolio].
Proof.
  unfold BacktestEngine.process_candle. intros H.
  bind_ok H. bind_ok H. inversion H; subst; clear H. simpl.
  rewrite (symbols_history _ _ _ _ _ _ _ _ E0). reflexivity.
Qed.

(** Every entry the main loop appends is the one location [portfolio]. *)
Lemma main_loop_history (now : float) (portfolio : BacktestEngine.loc)
    (market_data_dict : dict MarketData.t) (idxs : list nat) :
  forall r r' : BacktestEngine.run,
    BacktestEngine.main_loop now portfolio market_data_dict idxs r = Ok r' ->
    BacktestEngine.portfolio_history (BacktestEngine.self r')
    = BacktestEngine.portfolio_history (BacktestEngine.self r)
      ++ repeat portfolio (List.length idxs).
Proof.
  unfold BacktestEngine.main_loop.
  induction idxs as [|i idxs IH]; simpl; intros r r' H.
  - inversion H; subst. rewrite app_nil_r. reflexivity.
  - bind_ok H. rewrite (IH _ _ H), (process_candle_history _ _ _ _ _ _ E).
    rewrite <- app_assoc. reflexivity.
Qed.

(** C4, which the engine does not meet.  The history holds references to
    the one live portfolio, not snapshots.  On the sample run the entry of
    candle 0 shows cash 10000 when read after candle 0, 9000 when read after
    candle 1 and 10020 when read after candle 2, and at every moment all
    entries show the same state.  In every run the entries appended are the
    same location, so the states read from them at the end are all the
    final state. *)
Theorem portfolio_history_entries_alias_the_live_portfolio :
  Sample.history_cash_after 1 = Ok [10000.0]
  /\ Sample.history_cash_after 2 = Ok [9000.0; 9000.0]
  /\ Sample.history_cash_after 3 = Ok [10020.0; 10020.0; 10020.0]
  /\ (r <- Sample.after 3 ;;
      Ok (BacktestEngine.portfolio_history (BacktestEngine.self r)))
     = Ok [0; 0; 0]%nat
  /\ (forall (now : float) (portfolio : BacktestEngine.loc)
             (market_data_dict : dict MarketData.t) (idxs : list nat)
             (r r' : BacktestEngine.run),
         BacktestEngine.main_loop now portfolio market_data_dict idxs r = Ok r' ->
         BacktestEngine.get_portfolio_history r'
         = map (BacktestEngine.deref (BacktestEngine.heap r'))
               (BacktestEngine.portfolio_history (BacktestEngine.self r))
           ++ repeat (BacktestEngine.deref (BacktestEngine.heap r') portfolio)
                     (List.length idxs)).
Proof.
  repeat split; try (vm_compute; reflexivity).
  intros now portfolio market_data_dict idxs r r' H.
  unfold BacktestEngine.get_portfolio_history.
  rewrite (main_loop_history _ _ _ _ _ _ H), map_app, map_repeat.
  reflexivity.
Qed.

(* ------------------------------------------------------------------ *)
(** ** Further order facts of floats *)

Lemma SFcompare_refl (x y : spec_float) (c : comparison) :
  SFcompare x y = Some c -> SFcompare x x = Some Eq.
Proof.
  destruct x as [sx|sx| |sx mx ex]; simpl.
  - reflexivity.
  - destruct sx; reflexivity.
  - discriminate.
  - intros _. destruct sx; rewrite Z.compare_refl, Pos.compare_cont_refl; reflexivity.
Qed.

Lemma flt_fle (a b : float) : flt a b = true -> fle a b = true.
Proof.
  unfold flt, fle. rewrite ltb_spec, leb_spec. unfold SFltb, SFleb.
  destruct (SFcompare (Prim2SF a) (Prim2SF b)) as [[]|]; congruence.
Qed.

(** A float that compares with something is not NaN: it is [<=] itself. *)
Lemma fle_refl_l (a b : float) : fle a b = true -> fle a a = true.
Proof.
  unfold fle. rewrite !leb_spec. unfold SFleb.
  destruct (SFcompare (Prim2SF a) (Prim2SF b)) as [c|] eqn:E; [|discriminate].
  rewrite (SFcompare_refl _ _ _ E). reflexivity.
Qed.

Lemma fle_refl_r (a b : float) : fle a b = true -> fle b b = true.
Proof.
  unfold fle. rewrite !leb_spec. unfold SFleb.
  destruct (SFcompare (Prim2SF a) (Prim2SF b)) as [c|] eqn:E; [|discriminate].
  pose proof (SFcompare_antisym (Prim2SF a) (Prim2SF b)) as A. rewrite E in A.
  simpl in A. rewrite (SFcompare_refl _ _ _ A). reflexivity.
Qed.

Lemma feq_not_flt (a b : float) :
  feq a b = true -> flt a b = false /\ flt b a = false.
Proof.
  unfold feq, flt. rewrite FloatAxioms.eqb_spec, !ltb_spec. unfold SFeqb, SFltb.
  rewrite (SFcompare_antisym (Prim2SF a) (Prim2SF b)).
  destruct (SFcompare (Prim2SF a) (Prim2SF b)) as [[]|]; simpl; try discriminate.
  split; reflexivity.
Qed.

(** [max(mn, min(mx, s))] lies between the bounds, also when [s] is NaN. *)
Lemma clamp_bounds (mn mx s : float) :
  fle mn mx = true ->
  fle mn (fmax mn (fmin mx s)) = true /\ fle (fmax mn (fmin mx s)) mx = true.
Proof.
  intros H. unfold fmax, fmin, fgt, flt.
  destruct (s <? mx) eqn:Hs.
  - destruct (mn <? s) eqn:Hm.
    + split; [apply flt_fle; exact Hm | apply flt_fle; exact Hs].
    + split; [exact (fle_refl_l _ _ H) | exact H].
  - destruct (mn <? mx) eqn:Hm.
    + split; [exact H | exact (fle_refl_r _ _ H)].
    + split; [exact (fle_refl_l _ _ H) | exact H].
Qed.

Lemma fmax_zero_nonneg (x : float) : fle 0 (fmax 0.0 x) = true.
Proof.
  unfold fmax, fgt. destruct (0.0 <? x) eqn:E.
  - apply flt_fle. exact E.
  - reflexivity.
Qed.

Lemma fdiv_guarded (a b : float) :
  feq b 0 = false -> fdiv a b = Ok (a / b).
Proof. unfold fdiv. intros ->. reflexivity. Qed.

(* ------------------------------------------------------------------ *)
(** ** Adaptive parameters *)

(** X1.  [_calculate_scaling_factor]: when the configured minimum does not
    exceed the configured maximum, the factor lies between the two for
    every volatility, NaN and the infinities included. *)
Theorem scaling_factor_within_bounds
    (self : AdaptiveParameterEngine.t) (volatility : float) :
  fle (AdaptiveParameterConfig.min_scaling_factor (AdaptiveParameterEngine.config self))
      (AdaptiveParameterConfig.max_scaling_factor (AdaptiveParameterEngine.config self))
  = true ->
  fle (AdaptiveParameterConfig.min_scaling_factor (AdaptiveParameterEngine.config self))
      (AdaptiveParameterEngine._calculate_scaling_factor self volatility) = true
  /\ fle (AdaptiveParameterEngine._calculate_scaling_factor self volatility)
         (AdaptiveParameterConfig.max_scaling_factor
            (AdaptiveParameterEngine.config self)) = true.
Proof.
  intros H. unfold AdaptiveParameterEngine._calculate_scaling_factor.
  apply clamp_bounds. exact H.
Qed.

Lemma scaling_factor_within_bounds_witness :
  fle (AdaptiveParameterConfig.min_scaling_factor
         (AdaptiveParameterEngine.config (AdaptiveParameterEngine.new None)))
      (AdaptiveParameterConfig.max_scaling_factor
         (AdaptiveParameterEngine.config (AdaptiveParameterEngine.new None))) = true
  /\ fle (AdaptiveParameterConfig.min_scaling_factor
            (AdaptiveParameterEngine.config (AdaptiveParameterEngine.new None)))
         (AdaptiveParameterEngine._calculate_scaling_factor
            (AdaptiveParameterEngine.new None) 10.0) = true
  /\ fle (AdaptiveParameterEngine._calculate_scaling_factor
            (AdaptiveParameterEngine.new None) 10.0)
         (AdaptiveParameterConfig.max_scaling_factor
            (AdaptiveParameterEngine.config (AdaptiveParameterEngine.new None))) = true.
Proof.
  split; [reflexivity|].
  apply (scaling_factor_within_bounds (AdaptiveParameterEngine.new None) 10.0).
  reflexivity.
Defined.

Lemma scale_parameter_nonneg (self : AdaptiveParameterEngine.t)
    (base scaling_factor : float) (name : string) (r : float) :
  AdaptiveParameterEngine._scale_parameter self base scaling_factor name = Ok r ->
  fle 0 r = true.
Proof.
  unfold AdaptiveParameterEngine._scale_parameter. intros H.
  bind_ok H. inversion H; subst. apply fmax_zero_nonneg.
Qed.

(** X2.  [scale_parameters], when it returns: the four scaled values are
    non-negative; the composite it scales by is non-negative, is the value
    appended to [volatility_history], and is what the scaling factor and the
    level of the result are computed from; the result is appended to
    [scaling_history]; the configuration is left alone. *)
Theorem scale_parameters_outputs (self self' : AdaptiveParameterEngine.t)
    (measures : VolatilityMeasures.t) (scaled : ScaledParameters.t) :
  AdaptiveParameterEngine.scale_parameters self measures = Ok (scaled, self') ->
  (fle 0 (ScaledParameters.grid_spacing_percent scaled) = true
   /\ fle 0 (ScaledParameters.order_volume scaled) = true
   /\ fle 0 (ScaledParameters.take_profit_percent scaled) = true
   /\ fle 0 (ScaledParameters.max_drawdown_percent scaled) = true)
  /\ AdaptiveParameterEngine.config self' = AdaptiveParameterEngine.config self
  /\ (exists composite,
        fle 0 composite = true
        /\ AdaptiveParameterEngine.volatility_history self'
           = AdaptiveParameterEngine.volatility_history self ++ [composite]
        /\ ScaledParameters.scaling_factor scaled
           = AdaptiveParameterEngine._calculate_scaling_factor self composite
        /\ ScaledParameters.volatility_level scaled
           = AdaptiveParameterEngine._classify_volatility self composite)
  /\ AdaptiveParameterEngine.scaling_history self'
     = AdaptiveParameterEngine.scaling_history self ++ [scaled].
Proof.
  unfold AdaptiveParameterEngine.scale_parameters. intros H.
  bind_ok H. bind_ok H. bind_ok H. bind_ok H.
  inversion H; subst; clear H. simpl.
  repeat split; try (eapply scale_parameter_nonneg; eassumption).
  eexists. repeat split.
  unfold AdaptiveParameterEngine._calculate_composite_volatility.
  apply fmax_zero_nonneg.
Qed.

Lemma scale_parameters_outputs_witness :
  exists scaled self',
    AdaptiveParameterEngine.scale_parameters
      (AdaptiveParameterEngine.new None) Cases.measures = Ok (scaled, self')
    /\ fle 0 (ScaledParameters.grid_spacing_percent scaled) = true
    /\ AdaptiveParameterEngine.scaling_history self' = [scaled].
Proof.
  assert (H : exists v,
             AdaptiveParameterEngine.scale_parameters
               (AdaptiveParameterEngine.new None) Cases.measures = Ok v)
    by returns_by_evaluation.
  destruct H as [[scaled self'] H]. exists scaled, self'.
  split; [exact H|].
  destruct (scale_parameters_outputs _ _ _ _ H) as [[Hg _] [_ [_ Hh]]].
  split; [exact Hg | exact Hh].
Defined.

(** X3.  [_classify_volatility] at its thresholds: the comparisons are
    strict, so a volatility equal to the low threshold is not "LOW" and one
    equal to the high threshold is not "HIGH"; the label is always one of
    the four. *)
Theorem classify_volatility_thresholds_exclusive
    (self : AdaptiveParameterEngine.t) (volatility : float) :
  (feq volatility
       (AdaptiveParameterConfig.low_volatility_threshold
          (AdaptiveParameterEngine.config self)) = true ->
   AdaptiveParameterEngine._classify_volatility self volatility <> "LOW"%string)
  /\ (feq volatility
          (AdaptiveParameterConfig.high_volatility_threshold
             (AdaptiveParameterEngine.config self)) = true ->
      AdaptiveParameterEngine._classify_volatility self volatility <> "HIGH"%string)
  /\ In (AdaptiveParameterEngine._classify_volatility self volatility)
        ["LOW"; "NORMAL"; "HIGH"; "EXTREME"]%string.
Proof.
  unfold AdaptiveParameterEngine._classify_volatility. repeat split.
  - intros H. apply feq_not_flt in H. destruct H as [H _]. rewrite H.
    destruct (fgt _ _); [discriminate|]. destruct (fgt _ _); discriminate.
  - intros H. apply feq_not_flt in H. destruct H as [_ H].
    unfold fgt at 1. unfold flt in H. rewrite H.
    destruct (flt _ _); [discriminate|]. destruct (fgt _ _); discriminate.
  - destruct (flt _ _); [simpl; auto|].
    destruct (fgt _ _); [simpl; auto|]. destruct (fgt _ _); simpl; auto.
Qed.

Lemma classify_volatility_thresholds_exclusive_witness :
  feq 1.0 (AdaptiveParameterConfig.low_volatility_threshold
             (AdaptiveParameterEngine.config (AdaptiveParameterEngine.new None)))
  = true
  /\ AdaptiveParameterEngine._classify_volatility (AdaptiveParameterEngine.new None) 1.0
     <> "LOW"%string.
Proof.
  split; [reflexivity|].
  apply (proj1 (classify_volatility_thresholds_exclusive
                  (AdaptiveParameterEngine.new None) 1.0)).
  reflexivity.
Defined.

(* ------------------------------------------------------------------ *)
(** ** The volatility calculator *)

Lemma calculate_ewma_buffers (calc calc' : VolatilityCalculator.t) (x : float) :
  VolatilityCalculator._calculate_ewma calc = Ok (x, calc') ->
  VolatilityCalculator.closes calc' = VolatilityCalculator.closes calc
  /\ VolatilityCalculator.highs calc' = VolatilityCalculator.highs calc
  /\ VolatilityCalculator.lows calc' = VolatilityCalculator.lows calc
  /\ VolatilityCalculator.opens calc' = VolatilityCalculator.opens calc
  /\ VolatilityCalculator.bb_period calc' = VolatilityCalculator.bb_period calc
  /\ VolatilityCalculator.atr_period calc' = VolatilityCalculator.atr_period calc.
Proof.
  unfold VolatilityCalculator._calculate_ewma. intros H.
  destruct (Nat.ltb _ 2).
  - inversion H; subst. repeat split.
  - bind_ok H. inversion H; subst. repeat split.
Qed.

Lemma update_buffers (np_log : float -> float) (calc calc' : VolatilityCalculator.t)
    (h l c o : float) (m : VolatilityMeasures.t) :
  VolatilityCalculator.update np_log calc h l c o = Ok (m, calc') ->
  VolatilityCalculator.closes calc' = pushed calc (VolatilityCalculator.closes calc) c
  /\ VolatilityCalculator.highs calc' = pushed calc (VolatilityCalculator.highs calc) h
  /\ VolatilityCalculator.lows calc' = pushed calc (VolatilityCalculator.lows calc) l
  /\ VolatilityCalculator.opens calc' = pushed calc (VolatilityCalculator.opens calc) o
  /\ VolatilityCalculator.bb_period calc' = VolatilityCalculator.bb_period calc
  /\ VolatilityCalculator.atr_period calc' = VolatilityCalculator.atr_period calc.
Proof.
  unfold VolatilityCalculator.update. intros H.
  bind_ok H. bind_ok H. destruct a0 as [ew calc2]. inversion H; subst; clear H.
  apply calculate_ewma_buffers in E0. simpl in E0.
  unfold pushed, max_history.
  rewrite length_app in E0. cbn [List.length] in E0. rewrite Nat.add_1_r in E0.
  exact E0.
Qed.

Lemma last_tl_snoc (xs : list float) (x d : float) :
  xs <> [] -> last (tl (xs ++ [x])) d = x.
Proof.
  destruct xs as [|a xs]; [congruence|]. intros _. cbn [app tl].
  apply last_last.
Qed.

(** X4.  [update] keeps its four buffers in step and bounded: from aligned
    buffers of at most [max(bb_period, atr_period) + 5] entries it leaves
    aligned buffers of [min(len + 1, bound)] entries, the new close last. *)
Theorem update_keeps_buffers_aligned_and_bounded (np_log : float -> float)
    (calc calc' : VolatilityCalculator.t) (h l c o : float)
    (m : VolatilityMeasures.t) :
  buffers_aligned calc ->
  VolatilityCalculator.update np_log calc h l c o = Ok (m, calc') ->
  buffers_aligned calc'
  /\ max_history calc' = max_history calc
  /\ List.length (VolatilityCalculator.closes calc')
     = Nat.min (S (List.length (VolatilityCalculator.closes calc))) (max_history calc)
  /\ last (VolatilityCalculator.closes calc') 0 = c.
Proof.
  intros (Hh & Hl & Ho & Hb) H.
  apply update_buffers in H. destruct H as (Ec & Eh & El & Eo & Pb & Pa).
  assert (Hlen : forall xs x,
            List.length xs = List.length (VolatilityCalculator.closes calc) ->
            List.length (pushed calc xs x)
            = Nat.min (S (List.length (VolatilityCalculator.closes calc)))
                      (max_history calc)).
  { intros xs x Hx. unfold pushed.
    destruct (Nat.ltb (max_history calc)
                      (S (List.length (VolatilityCalculator.closes calc)))) eqn:E.
    - apply Nat.ltb_lt in E.
      assert (List.length (tl (xs ++ [x])) = List.length xs).
      { destruct xs; cbn [app tl List.length]; [reflexivity|].
        rewrite length_app. cbn [List.length]. lia. }
      lia.
    - apply Nat.ltb_ge in E. rewrite length_app. cbn [List.length]. lia. }
  assert (Hm : max_history calc' = max_history calc).
  { unfold max_history. rewrite Pb, Pa. reflexivity. }
  unfold buffers_aligned. rewrite Hm, Ec, Eh, El, Eo.
  rewrite !Hlen by (auto). repeat split; try lia.
  unfold pushed. destruct (Nat.ltb _ _) eqn:E.
  - apply Nat.ltb_lt in E. apply last_tl_snoc. intros Hnil.
    rewrite Hnil in E. unfold max_history in E. cbn [List.length] in E. lia.
  - apply last_last.
Qed.

Lemma update_keeps_buffers_aligned_and_bounded_witness :
  buffers_aligned VolatilityCalculator.new
  /\ exists m calc',
       VolatilityCalculator.update
         Cases.np_log VolatilityCalculator.new 101 99 100 100 = Ok (m, calc')
       /\ buffers_aligned calc'
       /\ List.length (VolatilityCalculator.closes calc') = 1%nat.
Proof.
  assert (A : buffers_aligned VolatilityCalculator.new).
  { unfold buffers_aligned, max_history. cbn. repeat split; lia. }
  split; [exact A|].
  assert (H : exists v,
             VolatilityCalculator.update
               Cases.np_log VolatilityCalculator.new 101 99 100 100 = Ok v)
    by returns_by_evaluation.
  destruct H as [[m calc'] H]. exists m, calc'. split; [exact H|].
  destruct (update_keeps_buffers_aligned_and_bounded _ _ _ _ _ _ _ _ A H)
    as [Ha [_ [Hl _]]].
  split; [exact Ha | exact Hl].
Defined.

(** X5.  [update] while the buffers are shorter than both periods: the
    Bollinger bandwidth, the Garman-Klass measure and the average true range
    of the snapshot are 0; on the very first candle the whole snapshot is 0
    and [previous_ewma] is not yet set. *)
Theorem update_cold_start (np_log : float -> float) (calc : VolatilityCalculator.t)
    (h l c o : float) :
  S (List.length (VolatilityCalculator.closes calc))
  < VolatilityCalculator.atr_period calc ->
  S (List.length (VolatilityCalculator.closes calc))
  < VolatilityCalculator.bb_period calc ->
  (forall m calc',
      VolatilityCalculator.update np_log calc h l c o = Ok (m, calc') ->
      VolatilityMeasures.bollinger_bandwidth m = 0
      /\ VolatilityMeasures.garman_klass m = 0
      /\ VolatilityMeasures.atr m = 0)
  /\ (VolatilityCalculator.closes calc = [] ->
      exists calc',
        VolatilityCalculator.update np_log calc h l c o
        = Ok (VolatilityMeasures.mk 0 0 0 0 0, calc')
        /\ VolatilityCalculator.closes calc' = [c]
        /\ VolatilityCalculator.previous_ewma calc'
           = VolatilityCalculator.previous_ewma calc).
Proof.
  intros Ha Hb.
  assert (Hmh : Nat.ltb (Nat.max (VolatilityCalculator.bb_period calc)
                                 (VolatilityCalculator.atr_period calc) + 5)
                        (List.length (VolatilityCalculator.closes calc ++ [c])) = false).
  { apply Nat.ltb_ge. rewrite length_app. cbn [List.length]. lia. }
  assert (Hlen : List.length (VolatilityCalculator.closes calc ++ [c])
                 = S (List.length (VolatilityCalculator.closes calc))).
  { rewrite length_app. cbn [List.length]. lia. }
  split.
  - intros m calc'. unfold VolatilityCalculator.update. rewrite Hmh.
    unfold VolatilityCalculator._calculate_bollinger_bandwidth,
           VolatilityCalculator._calculate_garman_klass,
           VolatilityCalculator._calculate_atr.
    cbn [VolatilityCalculator.closes VolatilityCalculator.bb_period
         VolatilityCalculator.atr_period].
    rewrite Hlen.
    replace (Nat.ltb (S (List.length (VolatilityCalculator.closes calc)))
                     (VolatilityCalculator.bb_period calc)) with true
      by (symmetry; apply Nat.ltb_lt; lia).
    replace (Nat.ltb (S (List.length (VolatilityCalculator.closes calc)))
                     (VolatilityCalculator.atr_period calc)) with true
      by (symmetry; apply Nat.ltb_lt; lia).
    replace (Nat.ltb (S (List.length (VolatilityCalculator.closes calc)))
                     (VolatilityCalculator.atr_period calc + 1)) with true
      by (symmetry; apply Nat.ltb_lt; lia).
    cbn [Py.bind]. intros H. bind_ok H. destruct a. inversion H; subst.
    repeat split.
  - intros Hnil. unfold VolatilityCalculator.update. rewrite Hmh.
    unfold VolatilityCalculator._calculate_bollinger_bandwidth,
           VolatilityCalculator._calculate_garman_klass,
           VolatilityCalculator._calculate_atr,
           VolatilityCalculator._calculate_ewma.
    cbn [VolatilityCalculator.closes VolatilityCalculator.bb_period
         VolatilityCalculator.atr_period].
    rewrite Hlen, Hnil in *. cbn [List.length app] in *.
    replace (Nat.ltb 1 (VolatilityCalculator.bb_period calc)) with true
      by (symmetry; apply Nat.ltb_lt; lia).
    replace (Nat.ltb 1 (VolatilityCalculator.atr_period calc)) with true
      by (symmetry; apply Nat.ltb_lt; lia).
    replace (Nat.ltb 1 (VolatilityCalculator.atr_period calc + 1)) with true
      by (symmetry; apply Nat.ltb_lt; lia).
    cbn. eexists. split; [reflexivity|]. split; reflexivity.
Qed.

Lemma update_cold_start_witness :
  (S (List.length (VolatilityCalculator.closes VolatilityCalculator.new))
   < VolatilityCalculator.atr_period VolatilityCalculator.new
   /\ S (List.length (VolatilityCalculator.closes VolatilityCalculator.new))
      < VolatilityCalculator.bb_period VolatilityCalculator.new)
  /\ exists calc',
       VolatilityCalculator.update
         Cases.np_log VolatilityCalculator.new 101 99 100 100
       = Ok (VolatilityMeasures.mk 0 0 0 0 0, calc')
       /\ VolatilityCalculator.closes calc' = [100]
       /\ VolatilityCalculator.previous_ewma calc' = None.
Proof.
  assert (A : S (List.length (VolatilityCalculator.closes VolatilityCalculator.new))
              < VolatilityCalculator.atr_period VolatilityCalculator.new)
    by (cbn; lia).
  assert (B : S (List.length (VolatilityCalculator.closes VolatilityCalculator.new))
              < VolatilityCalculator.bb_period VolatilityCalculator.new)
    by (cbn; lia).
  split; [split; [exact A | exact B]|].
  apply (proj2 (update_cold_start
                  Cases.np_log VolatilityCalculator.new 101 99 100 100 A B)).
  reflexivity.
Defined.

(* ------------------------------------------------------------------ *)
(** ** Orders, positions and market data *)

(** X6.  [Position.add_entry_order] keeps the quantity of a position equal
    to the sum of the filled quantities of its entry orders: an order with
    nothing filled changes nothing, any other is appended and its filled
    quantity added, the direction and an entry time already set staying as
    they are. *)
Theorem add_entry_order_keeps_quantity_sum (pos pos' : Position.t) (order : Order.t) :
  quantity_is_filled_sum pos ->
  Position.add_entry_order pos order = Ok pos' ->
  quantity_is_filled_sum pos'
  /\ (feq (Order.filled_quantity order) 0 = true -> pos' = pos)
  /\ (feq (Order.filled_quantity order) 0 = false ->
      Position.entry_orders pos' = Position.entry_orders pos ++ [order]
      /\ Position.quantity pos'
         = Position.quantity pos + Order.filled_quantity order
      /\ Position.trade_type pos' = Position.trade_type pos
      /\ (forall e, Position.entry_time pos = Some e ->
                    Position.entry_time pos' = Some e)).
Proof.
  unfold quantity_is_filled_sum, filled_quantity_sum, fsum, Position.add_entry_order.
  intros Hinv H.
  destruct (feq (Order.filled_quantity order) 0) eqn:Hz.
  - inversion H; subst. repeat split; try assumption; try discriminate.
  - destruct (Order.filled_price order) as [fp|]; [|discriminate H].
    bind_ok H. inversion H; subst; clear H. cbn.
    repeat split; try discriminate.
    + rewrite map_app, fold_left_app. cbn. rewrite <- Hinv. reflexivity.
    + intros e ->. reflexivity.
Qed.

Lemma add_entry_order_keeps_quantity_sum_witness :
  quantity_is_filled_sum Cases.empty_position
  /\ exists pos',
       Position.add_entry_order Cases.empty_position Cases.filled_order = Ok pos'
       /\ quantity_is_filled_sum pos'
       /\ Position.entry_orders pos' = [Cases.filled_order].
Proof.
  assert (A : quantity_is_filled_sum Cases.empty_position) by reflexivity.
  split; [exact A|].
  assert (H : exists v,
             Position.add_entry_order Cases.empty_position Cases.filled_order = Ok v)
    by returns_by_evaluation.
  destruct H as [pos' H]. exists pos'. split; [exact H|].
  destruct (add_entry_order_keeps_quantity_sum _ _ _ A H) as [Hq [_ Hn]].
  split; [exact Hq|].
  exact (proj1 (Hn (eq_refl : feq (Order.filled_quantity Cases.filled_order) 0 = false))).
Defined.

Lemma fill_order_returns (order o' : Order.t) (q p c : float) :
  Order.fill_order order q p c = Returns o' ->
  Order.is_filled o' = false /\ Order.status o' = Order.status order
  /\ Order.filled_quantity o' = Order.filled_quantity order + q.
Proof.
  unfold Order.fill_order. intros R.
  destruct (match Order.filled_price order with None => _ | Some _ => _ end);
    [|discriminate R].
  destruct (fge _ _) eqn:E; [discriminate R|].
  inversion R; subst; clear R. unfold Order.is_filled. cbn. auto.
Qed.

(** X7.  [Order.fill_order] cannot complete an order: a fill that brings the
    filled quantity up to the order's quantity does not return (the branch
    assigns [OrderStatus.CLOSED], which the enum does not have), so every
    call that returns leaves the order not filled and its status as it was,
    with the quantity added. *)
Theorem fill_order_never_completes (order : Order.t)
    (filled_qty fill_price fee : float) :
  fge (Order.filled_quantity order + filled_qty) (Order.quantity order) = true ->
  returns_value (Order.fill_order order filled_qty fill_price fee) = false
  /\ (Order.filled_price order = None ->
      Order.fill_order order filled_qty fill_price fee = Raises AttributeError)
  /\ (forall q p c o',
        Order.fill_order order q p c = Returns o' ->
        Order.is_filled o' = false /\ Order.status o' = Order.status order
        /\ Order.filled_quantity o' = Order.filled_quantity order + q).
Proof.
  intros H. split; [|split].
  - unfold Order.fill_order.
    destruct (match Order.filled_price order with None => _ | Some _ => _ end);
      [rewrite H|]; reflexivity.
  - unfold Order.fill_order. intros ->. rewrite H. reflexivity.
  - intros q p c o'. apply fill_order_returns.
Qed.

Lemma fill_order_never_completes_witness :
  fge (Order.filled_quantity Sample.long_order + 10) (Order.quantity Sample.long_order)
  = true
  /\ Order.fill_order Sample.long_order 10 100 0 = Raises AttributeError.
Proof.
  split; [reflexivity|].
  apply (proj1 (proj2 (fill_order_never_completes Sample.long_order 10 100 0
                                                   eq_refl))).
  reflexivity.
Defined.

Lemma last_n_app_exact {A} (n : nat) (pre cs : list A) :
  List.length cs = S n -> last_n (S n) (pre ++ cs) = cs.
Proof.
  intros H. unfold last_n. rewrite length_app, H.
  replace (List.length pre + S n - S n)%nat with (List.length pre + 0)%nat by lia.
  rewrite skipn_app, Nat.add_0_r, skipn_all.
  replace (List.length pre - List.length pre)%nat with 0%nat by lia.
  reflexivity.
Qed.

(** X8.  [MarketData.calculate_volatility] reads the last [period + 1]
    candles only: candles older than that never change its result. *)
Theorem calculate_volatility_window (symbol timeframe : string)
    (older recent : list Candle.t) (period : nat) :
  List.length recent = S period ->
  MarketData.calculate_volatility (MarketData.mk symbol (older ++ recent) timeframe)
                                  period
  = MarketData.calculate_volatility (MarketData.mk symbol recent timeframe) period.
Proof.
  intros H. unfold MarketData.calculate_volatility, MarketData.get_last_n_candles.
  cbn [MarketData.candles]. rewrite Nat.add_1_r.
  rewrite (last_n_app_exact period older recent H).
  rewrite (last_n_app_exact period [] recent H : last_n (S period) recent = recent).
  reflexivity.
Qed.

Lemma calculate_volatility_window_witness :
  List.length [Sample.candle 7200 100 102 100 102;
               Sample.candle 10800 102 102 102 102] = 2%nat
  /\ MarketData.calculate_volatility Sample.market_data 1
     = MarketData.calculate_volatility
         (MarketData.mk "BTCUSDC"
            [Sample.candle 7200 100 102 100 102;
             Sample.candle 10800 102 102 102 102] "1h") 1.
Proof.
  split; [reflexivity|].
  apply (calculate_volatility_window "BTCUSDC" "1h"
           [Sample.candle 0 100 100 100 100; Sample.candle 3600 100 101 99 100]
           [Sample.candle 7200 100 102 100 102; Sample.candle 10800 102 102 102 102]
           1).
  reflexivity.
Defined.

(** With fewer than two candles there is no return to measure. *)
Lemma calculate_volatility_cold_start (md : MarketData.t) (period : nat) :
  List.length (MarketData.candles md) < 2 ->
  MarketData.calculate_volatility md period = Ok 0.
Proof.
  intros H. unfold MarketData.calculate_volatility, MarketData.get_last_n_candles.
  rewrite Nat.add_1_r. unfold last_n.
  destruct (MarketData.candles md) as [|c0 [|c1 r]].
  - reflexivity.
  - cbn [List.length]. replace (1 - S period)%nat with 0%nat by lia. reflexivity.
  - cbn [List.length] in H. lia.
Qed.

(* ------------------------------------------------------------------ *)
(** ** The grid strategy *)

(** X9.  [analyze] signals at most once: it returns either nothing, the
    strategy untouched, or exactly one signal (BUY for a long strategy, SELL
    otherwise) from an idle strategy whose flag was clear, and then sets the
    flag, after which every later call returns nothing. *)
Theorem analyze_signals_at_most_once (now : float)
    (self self' : GridTradingStrategy.t)
    (market_data : MarketData.t) (signals : list Signal.t) :
  GridTradingStrategy.analyze now self market_data = Ok (signals, self') ->
  (signals = [] /\ self' = self)
  \/ (exists signal,
        signals = [signal]
        /\ Signal.signal_type signal = entry_signal_type self
        /\ Signal.symbol signal = GridTradingStrategy.symbol self
        /\ GridTradingStrategy.state self = IDLE
        /\ GridTradingStrategy.entry_signal_generated self = false
        /\ self' = GridTradingStrategy.set_entry_signal_generated self true
        /\ forall now' market_data',
             GridTradingStrategy.analyze now' self' market_data' = Ok ([], self')).
Proof.
  unfold GridTradingStrategy.analyze. intros H.
  destruct (StrategyState_eqb (GridTradingStrategy.state self) IDLE) eqn:Hs;
    [|inversion H; auto].
  destruct (GridTradingStrategy.entry_signal_generated self) eqn:Hf;
    [inversion H; auto|].
  cbn [negb andb] in H. bind_ok H.
  destruct (fge a _); [|inversion H; auto].
  bind_ok H. inversion H; subst; clear H. right.
  unfold Signal.new in E0. destruct (_ && _) in E0; [|discriminate E0].
  inversion E0; subst; clear E0. eexists. repeat split.
  - unfold entry_signal_type. destruct (GridTradingStrategy.trade_type self); reflexivity.
  - destruct (GridTradingStrategy.state self); [reflexivity|discriminate].
  - intros now' market_data'. apply analyze_latched. reflexivity.
Qed.

Lemma analyze_signals_at_most_once_witness :
  exists signals self',
    GridTradingStrategy.analyze 0 Sample.strategy Sample.market_data
    = Ok (signals, self')
    /\ List.length signals = 1%nat
    /\ GridTradingStrategy.analyze 0 self' Sample.market_data = Ok ([], self').
Proof.
  assert (H : exists v,
             GridTradingStrategy.analyze 0 Sample.strategy Sample.market_data = Ok v
             /\ fst v <> [])
    by (vm_compute; eexists; split; [reflexivity | discriminate]).
  destruct H as [[signals self'] [H Hne]]. exists signals, self'.
  split; [exact H|].
  destruct (analyze_signals_at_most_once _ _ _ _ _ H)
    as [[Hnil _] | [signal [Hs [_ [_ [_ [_ [_ Hl]]]]]]]].
  - exfalso. exact (Hne Hnil).
  - split; [rewrite Hs; reflexivity | apply Hl].
Defined.

(** X10.  [analyze] needs two candles: on market data with fewer the
    volatility it measures is 0, below its threshold, so it returns no signal
    and leaves the strategy, the flag included, as it was. *)
Theorem analyze_needs_two_candles (now : float) (self : GridTradingStrategy.t)
    (market_data : MarketData.t) :
  List.length (MarketData.candles market_data) < 2 ->
  GridTradingStrategy.analyze now self market_data = Ok ([], self).
Proof.
  intros H. unfold GridTradingStrategy.analyze.
  destruct (_ && _); [|reflexivity].
  rewrite (calculate_volatility_cold_start _ _ H). reflexivity.
Qed.

Lemma analyze_needs_two_candles_witness :
  List.length (MarketData.candles Cases.first_candle_only) < 2
  /\ GridTradingStrategy.analyze 0 Sample.strategy Cases.first_candle_only
     = Ok ([], Sample.strategy).
Proof.
  assert (A : List.length (MarketData.candles Cases.first_candle_only) < 2)
    by (cbn; lia).
  split; [exact A|].
  exact (analyze_needs_two_candles 0 Sample.strategy Cases.first_candle_only A).
Defined.

Lemma generate_grid_orders_returned (now : float) (self self' : GridTradingStrategy.t)
    (entry_price position_size current_price : float) (orders : list Order.t) :
  GridTradingStrategy.generate_grid_orders
    now self entry_price position_size current_price = Ok (orders, self') ->
  List.length orders = GridTradingParams.grid_levels (GridTradingStrategy.params self)
  /\ Forall (fresh_grid_order self position_size) orders
  /\ map Order.price orders
     = map Some (skipn (List.length (GridTradingStrategy.grid_prices self))
                       (GridTradingStrategy.grid_prices self'))
  /\ firstn (List.length (GridTradingStrategy.grid_prices self))
            (GridTradingStrategy.grid_prices self')
     = GridTradingStrategy.grid_prices self
  /\ self' = GridTradingStrategy.set_grid_prices
               self (GridTradingStrategy.grid_prices self').
Proof.
  unfold GridTradingStrategy.generate_grid_orders. intros H.
  bind_ok H. inversion H; subst; clear H.
  cbn [GridTradingStrategy.grid_prices GridTradingStrategy.set_grid_prices].
  rewrite length_map, length_seq.
  rewrite skipn_app, skipn_all, Nat.sub_diag, firstn_app, firstn_all, Nat.sub_diag.
  cbn [skipn firstn app]. rewrite app_nil_r.
  split; [reflexivity|]. split; [|split; [|split; reflexivity]].
  - apply Forall_forall. intros o Ho. apply in_map_iff in Ho.
    destruct Ho as [level [<- _]]. unfold fresh_grid_order, Order.new, grid_side.
    cbn. repeat split; try assumption.
    destruct (GridTradingStrategy.trade_type self); reflexivity.
  - rewrite !map_map. reflexivity.
Qed.

(** X11.  [generate_grid_orders] with [grid_levels = 0] raises
    ZeroDivisionError; when it returns, it returns one order per level, each a
    pending limit order of the strategy's symbol and side for
    [position_size / grid_levels] with nothing filled, priced at the grid
    prices it appended to [grid_prices] after the old ones; nothing else of
    the strategy changes. *)
Theorem generate_grid_orders_shape (now : float) (self : GridTradingStrategy.t)
    (entry_price position_size current_price : float) :
  (GridTradingParams.grid_levels (GridTradingStrategy.params self) = 0%nat ->
   GridTradingStrategy.generate_grid_orders
     now self entry_price position_size current_price
   = Raise ZeroDivisionError)
  /\ (forall orders self',
        GridTradingStrategy.generate_grid_orders
          now self entry_price position_size current_price = Ok (orders, self') ->
        List.length orders
        = GridTradingParams.grid_levels (GridTradingStrategy.params self)
        /\ Forall (fresh_grid_order self position_size) orders
        /\ map Order.price orders
           = map Some (skipn (List.length (GridTradingStrategy.grid_prices self))
                             (GridTradingStrategy.grid_prices self'))
        /\ firstn (List.length (GridTradingStrategy.grid_prices self))
                  (GridTradingStrategy.grid_prices self')
           = GridTradingStrategy.grid_prices self
        /\ self' = GridTradingStrategy.set_grid_prices
                     self (GridTradingStrategy.grid_prices self')).
Proof.
  split.
  - unfold GridTradingStrategy.generate_grid_orders. intros ->. reflexivity.
  - intros orders self'. apply generate_grid_orders_returned.
Qed.

Lemma generate_grid_orders_shape_witness :
  exists orders self',
    GridTradingStrategy.generate_grid_orders 0 Sample.strategy 100 10 100
    = Ok (orders, self')
    /\ List.length orders = 1%nat
    /\ Forall (fresh_grid_order Sample.strategy 10) orders.
Proof.
  assert (H : exists v,
             GridTradingStrategy.generate_grid_orders 0 Sample.strategy 100 10 100
             = Ok v)
    by returns_by_evaluation.
  destruct H as [[orders self'] H]. exists orders, self'. split; [exact H|].
  destruct (proj2 (generate_grid_orders_shape 0 Sample.strategy 100 10 100) _ _ H)
    as [Hl [Hf _]].
  split; [exact Hl | exact Hf].
Defined.

(** X12.  The orders [generate_grid_orders] returns have nothing filled, so
    [Position.add_entry_order] ignores each of them: passed as they are, they
    never enter a position. *)
Theorem add_entry_order_ignores_fresh_grid_orders (now : float)
    (self self' : GridTradingStrategy.t)
    (entry_price position_size current_price : float) (orders : list Order.t) :
  GridTradingStrategy.generate_grid_orders
    now self entry_price position_size current_price = Ok (orders, self') ->
  forall (pos : Position.t) (order : Order.t),
    In order orders -> Position.add_entry_order pos order = Ok pos.
Proof.
  intros H pos order Hin.
  destruct (generate_grid_orders_returned _ _ _ _ _ _ _ H) as (_ & Hall & _).
  rewrite Forall_forall in Hall. destruct (Hall _ Hin) as (_ & _ & _ & _ & Hq & _).
  unfold Position.add_entry_order. rewrite Hq. reflexivity.
Qed.

Lemma add_entry_order_ignores_fresh_grid_orders_witness :
  exists orders self',
    GridTradingStrategy.generate_grid_orders 0 Sample.strategy 100 10 100
    = Ok (orders, self')
    /\ orders <> []
    /\ forall order, In order orders ->
         Position.add_entry_order Sample.open_position order
         = Ok Sample.open_position.
Proof.
  assert (H : exists v,
             GridTradingStrategy.generate_grid_orders 0 Sample.strategy 100 10 100
             = Ok v
             /\ fst v <> [])
    by (vm_compute; eexists; split; [reflexivity | discriminate]).
  destruct H as [[orders self'] [H Hne]]. exists orders, self'.
  split; [exact H|]. split; [exact Hne|].
  exact (add_entry_order_ignores_fresh_grid_orders
           _ _ _ _ _ _ _ H Sample.open_position).
Defined.

(** X13.  [update_state] cannot open a position: called with filled orders
    on a strategy without one it never returns.  It raises TypeError, the
    [Position] being built without its entry price and quantity, or
    AttributeError before that when the market data has no candle. *)
Theorem update_state_first_fill_raises (self : GridTradingStrategy.t)
    (market_data : MarketData.t) (filled_orders : list Order.t) :
  filled_orders <> [] ->
  GridTradingStrategy.position self = None ->
  returns_value (GridTradingStrategy.update_state self market_data filled_orders)
  = false
  /\ (MarketData.candles market_data <> [] ->
      GridTradingStrategy.update_state self market_data filled_orders
      = Raises (Builtin TypeError))
  /\ (MarketData.candles market_data = [] ->
      GridTradingStrategy.update_state self market_data filled_orders
      = Raises AttributeError).
Proof.
  intros Hne Hpos. unfold GridTradingStrategy.update_state.
  destruct filled_orders as [|o os]; [congruence|]. rewrite Hpos.
  unfold MarketData.latest_candle.
  destruct (MarketData.candles market_data) as [|c cs].
  - repeat split; congruence.
  - repeat split; congruence.
Qed.

Lemma update_state_first_fill_raises_witness :
  ([Cases.filled_order] <> [] /\ GridTradingStrategy.position Sample.strategy = None)
  /\ GridTradingStrategy.update_state
       Sample.strategy Sample.market_data [Cases.filled_order]
     = Raises (Builtin TypeError).
Proof.
  assert (A : [Cases.filled_order] <> []) by discriminate.
  split; [split; [exact A | reflexivity]|].
  apply (proj1 (proj2 (update_state_first_fill_raises
                         Sample.strategy Sample.market_data [Cases.filled_order]
                         A eq_refl))).
  discriminate.
Defined.

(** X14.  [update_state], when it returns, leaves the strategy ACTIVE and
    the entry flag as it was; without filled orders the position and the
    entry orders are untouched.  An ACTIVE strategy gets nothing from
    [analyze] any more. *)
Theorem update_state_always_activates (self self' : GridTradingStrategy.t)
    (market_data : MarketData.t) (filled_orders : list Order.t) :
  GridTradingStrategy.update_state self market_data filled_orders = Returns self' ->
  GridTradingStrategy.state self' = ACTIVE
  /\ GridTradingStrategy.entry_signal_generated self'
     = GridTradingStrategy.entry_signal_generated self
  /\ (filled_orders = [] ->
      GridTradingStrategy.position self' = GridTradingStrategy.position self
      /\ GridTradingStrategy.entry_orders self'
         = GridTradingStrategy.entry_orders self)
  /\ (forall now market_data',
        GridTradingStrategy.analyze now self' market_data' = Ok ([], self')).
Proof.
  unfold GridTradingStrategy.update_state. intros H.
  set (cp := match MarketData.latest_close market_data with
             | Some c => if feq c 0 then 0.0 else c
             | None => 0.0
             end) in H.
  destruct (match filled_orders with [] => Returns self | _ :: _ => _ end)
    as [s1|e] eqn:E1; [|discriminate H].
  set (s2 := match GridTradingStrategy.position s1 with
             | Some pos => if Position.is_open pos then _ else s1
             | None => s1
             end) in H.
  assert (Hflag1 : GridTradingStrategy.entry_signal_generated s1
                   = GridTradingStrategy.entry_signal_generated self).
  { destruct filled_orders; [inversion E1; reflexivity|].
    destruct (GridTradingStrategy.position self);
      [|destruct (MarketData.latest_candle _); discriminate].
    destruct (GridTradingStrategy.add_filled_orders _ _ _) as [[p os]|];
      [|discriminate].
    inversion E1; reflexivity. }
  assert (Hs2 : GridTradingStrategy.entry_signal_generated s2
                = GridTradingStrategy.entry_signal_generated s1
                /\ GridTradingStrategy.position s2 = GridTradingStrategy.position s1
                /\ GridTradingStrategy.entry_orders s2
                   = GridTradingStrategy.entry_orders s1
                /\ GridTradingStrategy.state s2 = GridTradingStrategy.state s1).
  { subst s2. destruct (GridTradingStrategy.position s1) as [pos|] eqn:Ep; [|auto].
    destruct (Position.is_open pos); [|auto]. cbn. auto. }
  destruct Hs2 as (F2 & P2 & O2 & S2).
  inversion H; subst self'; clear H.
  assert (Hst : GridTradingStrategy.state
                  (if StrategyState_eqb (GridTradingStrategy.state s2) IDLE
                   then GridTradingStrategy.set_state s2 ACTIVE else s2) = ACTIVE).
  { destruct (GridTradingStrategy.state s2) eqn:Es; cbn; [reflexivity | exact Es]. }
  split; [exact Hst|]. split; [|split].
  - destruct (StrategyState_eqb _ _); cbn; congruence.
  - intros ->. inversion E1; subst s1.
    destruct (StrategyState_eqb _ _); cbn; auto.
  - intros now market_data'. unfold GridTradingStrategy.analyze.
    rewrite Hst. reflexivity.
Qed.

Lemma update_state_always_activates_witness :
  exists self',
    GridTradingStrategy.update_state Sample.strategy Sample.market_data []
    = Returns self'
    /\ GridTradingStrategy.state self' = ACTIVE
    /\ GridTradingStrategy.analyze 0 self' Sample.market_data = Ok ([], self').
Proof.
  assert (H : exists v,
             GridTradingStrategy.update_state Sample.strategy Sample.market_data []
             = Returns v)
    by returns_by_evaluation.
  destruct H as [self' H]. exists self'. split; [exact H|].
  destruct (update_state_always_activates _ _ _ _ H) as [Hs [_ [_ Ha]]].
  split; [exact Hs | apply Ha].
Defined.

(** X15.  The decision of [check_exit_conditions] on an open position: it
    signals exactly when the P&L percentage reaches the take-profit
    percentage, or the position has entry orders and the absolute P&L reaches
    the drawdown share of the account equity (a position without entry orders
    never stops out), with the adaptive percentages when the strategy has
    them and the configured ones otherwise.  The signal is an EXIT of
    strength 1.0; only the running price extremes of the strategy change. *)
Theorem check_exit_conditions_decision (now : float)
    (self self' : GridTradingStrategy.t) (current_price account_equity : float)
    (pos : Position.t) (exit_signal : option Signal.t) :
  Position.is_open pos = true ->
  GridTradingStrategy.check_exit_conditions
    now self current_price account_equity (Some pos) = Ok (exit_signal, self') ->
  exists pnl_percent,
    Position.calculate_unrealized_pnl_percent pos current_price = Ok pnl_percent
    /\ is_some exit_signal
       = (fge pnl_percent (fst (exit_percentages self))
          || (has_entry_orders pos
              && fge (abs (Position.calculate_unrealized_pnl pos current_price))
                     (account_equity * (snd (exit_percentages self) / 100.0))))
    /\ (forall s, exit_signal = Some s ->
                  Signal.signal_type s = EXIT /\ Signal.strength s = 1.0)
    /\ self' = GridTradingStrategy.set_price_extremes self
                 (fmax (GridTradingStrategy.current_max_price self) current_price)
                 (fmin (GridTradingStrategy.current_min_price self) current_price).
Proof.
  unfold GridTradingStrategy.check_exit_conditions, exit_percentages, has_entry_orders.
  intros Hopen H. rewrite Hopen in H. cbn [negb] in H.
  cbn [GridTradingStrategy.current_scaled GridTradingStrategy.set_price_extremes
       GridTradingStrategy.params GridTradingStrategy.symbol
       GridTradingStrategy.trade_type GridTradingStrategy.current_max_price
       GridTradingStrategy.current_min_price] in H.
  destruct (GridTradingStrategy.current_scaled self) as [sc|]; cbn [fst snd];
    bind_ok H; eexists; (split; [reflexivity|]);
    match type of H with
    | (if fge ?a ?b then _ else _) = _ => destruct (fge a b) eqn:Etp
    end;
    try (bind_ok H; exit_done H).
  all: destruct (Position.entry_orders pos) as [|o os]; [exit_done H|].
  all: match type of H with
       | (if fge ?a ?b then _ else _) = _ => destruct (fge a b) eqn:Esl
       end.
  all: try (bind_ok H); exit_done H.
Qed.

Lemma check_exit_conditions_decision_witness :
  Position.is_open Sample.open_position = true
  /\ exists exit_signal self',
       GridTradingStrategy.check_exit_conditions
         0 Sample.strategy 102 10000 (Some Sample.open_position)
       = Ok (exit_signal, self')
       /\ is_some exit_signal = true
       /\ (forall s, exit_signal = Some s ->
                     Signal.signal_type s = EXIT /\ Signal.strength s = 1.0)
       /\ self' = GridTradingStrategy.set_price_extremes Sample.strategy
                    (fmax (GridTradingStrategy.current_max_price Sample.strategy) 102)
                    (fmin (GridTradingStrategy.current_min_price Sample.strategy) 102).
Proof.
  split; [reflexivity|].
  assert (H : exists v,
             GridTradingStrategy.check_exit_conditions
               0 Sample.strategy 102 10000 (Some Sample.open_position) = Ok v
             /\ is_some (fst v) = true)
    by (vm_compute; eexists; split; reflexivity).
  destruct H as [[exit_signal self'] [H Hs]]. exists exit_signal, self'.
  split; [exact H|]. split; [exact Hs|].
  destruct (check_exit_conditions_decision
              0 Sample.strategy self' 102 10000 Sample.open_position exit_signal
              eq_refl H)
    as [pnl_percent [_ [_ [Hsig Hself]]]].
  split; [exact Hsig | exact Hself].
Defined.

(* ------------------------------------------------------------------ *)
(** ** The engine, step by step *)

Lemma check_pending_acc (ex : OrderExecutor.t) (candle : Candle.t)
    (orders : list Order.t) :
  forall filled0 remaining0 filled remaining,
    foldM (fun (acc : list BacktestEngine.fill * list Order.t) order =>
             let '(filled_orders, remaining_orders) := acc in
             '(filled_qty, fill_price) <-
               OrderExecutor.execute_limit_order ex order candle ;;
             if fgt filled_qty 0
             then Ok (filled_orders ++ [(order, filled_qty, fill_price)],
                      remaining_orders)
             else Ok (filled_orders, remaining_orders ++ [order]))
          orders (filled0, remaining0) = Ok (filled, remaining) ->
    exists fs,
      filled = filled0 ++ fs
      /\ map fill_order_of fs = filter (order_fills ex candle) orders
      /\ Forall (fill_matches ex candle) fs
      /\ remaining
         = remaining0 ++ filter (fun o => negb (order_fills ex candle o)) orders.
Proof.
  induction orders as [|o orders IH]; cbn [foldM filter]; intros f0 r0 f r H.
  - inversion H; subst. exists []. rewrite !app_nil_r. repeat split. constructor.
  - bind_ok H. bind_ok E. destruct a0 as [q p].
    assert (Ho : order_fills ex candle o = fgt q 0).
    { unfold order_fills. rewrite E0. reflexivity. }
    rewrite !Ho.
    destruct (fgt q 0) eqn:Hq; inversion E; subst; clear E; cbn [negb];
      destruct (IH _ _ _ _ H) as (fs & Hf & Hm & Hall & Hr).
    + exists ((o, q, p) :: fs). rewrite Hf, <- app_assoc. cbn [app map].
      split; [reflexivity|]. split; [|split; [|exact Hr]].
      * unfold fill_order_of at 1. cbn [fst]. rewrite Hm. reflexivity.
      * constructor; [|assumption]. unfold fill_matches, fill_order_of. cbn. auto.
    + exists fs. rewrite Hr, <- app_assoc.
      split; [exact Hf|]. split; [exact Hm|]. split; [exact Hall | reflexivity].
Qed.

(** X16.  Step 1 of the loop partitions the pending orders of a symbol: the
    filled ones are those the executor fills on the candle, in their order
    and with the quantity and price it returned; the ones kept pending are
    the others, in their order; none is lost or duplicated. *)
Theorem check_pending_partitions (ex : OrderExecutor.t) (candle : Candle.t)
    (orders : list Order.t) (filled : list BacktestEngine.fill)
    (remaining : list Order.t) :
  BacktestEngine.check_pending ex candle orders = Ok (filled, remaining) ->
  map fill_order_of filled = filter (order_fills ex candle) orders
  /\ remaining = filter (fun o => negb (order_fills ex candle o)) orders
  /\ Forall (fill_matches ex candle) filled
  /\ (List.length filled + List.length remaining)%nat = List.length orders.
Proof.
  unfold BacktestEngine.check_pending. intros H.
  destruct (check_pending_acc _ _ _ _ _ _ _ H) as (fs & Hf & Hm & Hall & Hr).
  cbn [app] in Hf, Hr. subst filled remaining.
  repeat split; try assumption.
  rewrite <- (length_map fill_order_of), Hm.
  clear. induction orders as [|o os IH]; cbn; [reflexivity|].
  destruct (order_fills ex candle o); cbn; lia.
Qed.

Lemma check_pending_partitions_witness :
  exists filled remaining,
    BacktestEngine.check_pending
      Sample.executor Sample.candle_touching [Sample.long_order; Sample.long_order]
    = Ok (filled, remaining)
    /\ map fill_order_of filled = [Sample.long_order; Sample.long_order]
    /\ remaining = [].
Proof.
  assert (H : exists v,
             BacktestEngine.check_pending
               Sample.executor Sample.candle_touching
               [Sample.long_order; Sample.long_order] = Ok v)
    by returns_by_evaluation.
  destruct H as [[filled remaining] H]. exists filled, remaining.
  split; [exact H|].
  destruct (check_pending_partitions _ _ _ _ _ H) as [Hf [Hr _]].
  split; [exact Hf | exact Hr].
Defined.

(** X17.  Step 1 on a pending order without a price, a market order say:
    the comparison of the candle with [None] raises TypeError, whatever the
    other pending orders are. *)
Theorem check_pending_raises_on_priceless_order (ex : OrderExecutor.t)
    (candle : Candle.t) (orders : list Order.t) :
  (exists order, In order orders /\ Order.price order = None) ->
  BacktestEngine.check_pending ex candle orders = Raise TypeError.
Proof.
  unfold BacktestEngine.check_pending.
  generalize (@nil BacktestEngine.fill, @nil Order.t).
  induction orders as [|o orders IH]; intros acc [order [Hin Hp]].
  - destruct Hin.
  - cbn [foldM]. destruct acc as [f r].
    destruct (Order.price o) as [price|] eqn:Ho.
    + destruct Hin as [->|Hin]; [congruence|].
      destruct (OrderExecutor.execute_limit_order ex o candle) as [[q p]|e] eqn:E.
      * cbn [Py.bind]. destruct (fgt q 0); cbn [Py.bind]; apply IH; eauto.
      * unfold OrderExecutor.execute_limit_order in E. rewrite Ho in E.
        destruct (Order.trade_type o); destruct (_ : bool) in E; discriminate.
    + unfold OrderExecutor.execute_limit_order. rewrite Ho. reflexivity.
Qed.

Lemma check_pending_raises_on_priceless_order_witness :
  (exists order,
      In order [Sample.long_order; Cases.market_order]
      /\ Order.price order = None)
  /\ BacktestEngine.check_pending
       Sample.executor Sample.candle_touching [Sample.long_order; Cases.market_order]
     = Raise TypeError.
Proof.
  assert (A : exists order,
             In order [Sample.long_order; Cases.market_order]
             /\ Order.price order = None).
  { exists Cases.market_order. split; [right; left; reflexivity | reflexivity]. }
  split; [exact A|].
  exact (check_pending_raises_on_priceless_order
           Sample.executor Sample.candle_touching
           [Sample.long_order; Cases.market_order] A).
Defined.

(** X18.  Step 2 on a symbol that already has a position: the fill is merged
    into it whatever the direction of the order; the position keeps its own
    direction, id and entry time, its quantity grows by the filled quantity,
    and cash is debited by the commission and by quantity times price. *)
Theorem apply_fill_merges_into_open_position (ex : OrderExecutor.t)
    (symbol : string) (candle_idx : nat) (candle : Candle.t)
    (p p' : PortfolioState.t) (order : Order.t) (filled_qty fill_price : float)
    (pos : Position.t) :
  get (PortfolioState.positions p) symbol = Some pos ->
  BacktestEngine.apply_fill ex symbol candle_idx candle p
                            (order, filled_qty, fill_price) = Ok p' ->
  exists pos',
    get (PortfolioState.positions p') symbol = Some pos'
    /\ Position.trade_type pos' = Position.trade_type pos
    /\ Position.position_id pos' = Position.position_id pos
    /\ Position.quantity pos' = Position.quantity pos + filled_qty
    /\ Position.entry_time pos'
       = match Position.entry_time pos with
         | None => Some (Candle.timestamp candle)
         | Some e => Some e
         end
    /\ PortfolioState.cash_balance p'
       = PortfolioState.cash_balance p
         - OrderExecutor.calculate_commission ex filled_qty fill_price true
         - filled_qty * fill_price
    /\ PortfolioState.total_fees p'
       = PortfolioState.total_fees p
         + OrderExecutor.calculate_commission ex filled_qty fill_price true
    /\ PortfolioState.closed_trades p' = PortfolioState.closed_trades p.
Proof.
  intros Hg H. unfold BacktestEngine.apply_fill in H. rewrite Hg in H.
  bind_ok H. bind_ok E. inversion E; subst; clear E.
  inversion H; subst; clear H. cbn [PortfolioState.positions].
  rewrite get_set_same. eexists. split; [reflexivity|].
  cbn. repeat split.
Qed.

Lemma apply_fill_merges_into_open_position_witness :
  get (PortfolioState.positions Cases.portfolio_open) "BTCUSDC"%string
  = Some Sample.open_position
  /\ exists p' pos',
       BacktestEngine.apply_fill
         Sample.executor "BTCUSDC"%string 2 Sample.candle_touching
         Cases.portfolio_open
         (Order.new 0 "BTCUSDC_short_grid_0" "BTCUSDC" SHORT LIMIT 10.0 (Some 100.0),
          10, 100) = Ok p'
       /\ get (PortfolioState.positions p') "BTCUSDC"%string = Some pos'
       /\ Position.trade_type pos' = LONG
       /\ Position.quantity pos' = 10 + 10.
Proof.
  split; [reflexivity|].
  assert (H : exists v,
             BacktestEngine.apply_fill
               Sample.executor "BTCUSDC"%string 2 Sample.candle_touching
               Cases.portfolio_open
               (Order.new 0 "BTCUSDC_short_grid_0" "BTCUSDC" SHORT LIMIT 10.0
                          (Some 100.0), 10, 100) = Ok v)
    by returns_by_evaluation.
  destruct H as [p' H]. exists p'.
  destruct (apply_fill_merges_into_open_position
              Sample.executor "BTCUSDC"%string 2 Sample.candle_touching
              Cases.portfolio_open p' _ 10 100 Sample.open_position eq_refl H)
    as [pos' [Hg [Ht [_ [Hq _]]]]].
  exists pos'. split; [exact H|]. split; [exact Hg|].
  split; [exact Ht | exact Hq].
Defined.

Lemma get_absent {V} (d : dict V) (k : string) :
  ~ In k (keys d) -> get d k = None.
Proof.
  induction d as [|[k0 v0] d IH]; [reflexivity|].
  cbn [keys map fst In get]. intros Hn.
  destruct (String.eqb_spec k k0) as [->|Hne].
  - exfalso. apply Hn. left. reflexivity.
  - apply IH. intros Hin. apply Hn. right. exact Hin.
Qed.

Lemma get_del_same {V} (d : dict V) (k : string) :
  NoDup (keys d) -> get (del d k) k = None.
Proof.
  induction d as [|[k0 v0] d IH]; [reflexivity|].
  cbn [keys map fst del]. intros Hd. inversion Hd as [|? ? Hn Hd']; subst.
  destruct (String.eqb_spec k k0) as [->|Hne].
  - apply get_absent. exact Hn.
  - cbn [get]. destruct (String.eqb_spec k k0) as [->|_]; [congruence|].
    apply IH. exact Hd'.
Qed.

(** X19.  The close of step 4, when it returns: the position of the symbol
    is gone from the portfolio, and one trade, carrying the position's entry
    price and quantity, the candle's close as exit price and the P&L less the
    commission, is appended to the portfolio's closed trades and to the
    engine's; cash is credited with quantity times price less the commission,
    for a long and for a short position alike. *)
Theorem close_position_books_one_trade (ex : OrderExecutor.t) (symbol tag : string)
    (candle_idx : nat) (candle : Candle.t) (position : Position.t)
    (pnl : float) (p p' : PortfolioState.t) (trades trades' : list Trade.t) :
  NoDup (keys (PortfolioState.positions p)) ->
  BacktestEngine.close_position ex symbol tag candle_idx candle position pnl p trades
  = Ok (p', trades') ->
  get (PortfolioState.positions p') symbol = None
  /\ exists trade,
       trades' = trades ++ [trade]
       /\ PortfolioState.closed_trades p' = PortfolioState.closed_trades p ++ [trade]
       /\ Trade.pnl trade = pnl
       /\ Trade.exit_price trade = Candle.close candle
       /\ Trade.entry_price trade = Position.entry_price position
       /\ Trade.quantity trade = Position.quantity position
       /\ Trade.pnl_after_commission trade
          = pnl - OrderExecutor.calculate_commission
                    ex (Position.quantity position) (Candle.close candle) true
       /\ PortfolioState.cash_balance p'
          = PortfolioState.cash_balance p
            + (Position.quantity position * Candle.close candle
               - OrderExecutor.calculate_commission
                   ex (Position.quantity position) (Candle.close candle) true).
Proof.
  unfold BacktestEngine.close_position. intros Hd H. bind_ok H.
  inversion H; subst; clear H. cbn [PortfolioState.positions].
  split; [apply get_del_same; exact Hd|]. eexists. cbn. repeat split.
Qed.

Lemma close_position_books_one_trade_witness :
  NoDup (keys (PortfolioState.positions Cases.portfolio_open))
  /\ exists p' trades',
       BacktestEngine.close_position
         Sample.executor "BTCUSDC"%string "L"%string 2
         (Sample.candle 7200 100 102 100 102) Sample.open_position 20
         Cases.portfolio_open [] = Ok (p', trades')
       /\ get (PortfolioState.positions p') "BTCUSDC"%string = None
       /\ List.length trades' = 1%nat.
Proof.
  assert (A : NoDup (keys (PortfolioState.positions Cases.portfolio_open))).
  { cbn. constructor; [intros [] | constructor]. }
  split; [exact A|].
  assert (H : exists v,
             BacktestEngine.close_position
               Sample.executor "BTCUSDC"%string "L"%string 2
               (Sample.candle 7200 100 102 100 102) Sample.open_position 20
               Cases.portfolio_open [] = Ok v)
    by returns_by_evaluation.
  destruct H as [[p' trades'] H]. exists p', trades'. split; [exact H|].
  destruct (close_position_books_one_trade _ _ _ _ _ _ _ _ _ _ _ A H)
    as [Hg [trade [Ht _]]].
  split; [exact Hg | rewrite Ht; reflexivity].
Defined.

(* ------------------------------------------------------------------ *)
(** ** The engine and the strategy state machine *)

Lemma analyze_untouched (now : float) (st st' : GridTradingStrategy.t)
    (md : MarketData.t) (sigs : list Signal.t) :
  GridTradingStrategy.analyze now st md = Ok (sigs, st') ->
  untouched st -> untouched st'.
Proof.
  unfold GridTradingStrategy.analyze. intros H U.
  binds_ok H; inversion H; subst; exact U.
Qed.

Lemma generate_grid_orders_untouched (now : float) (st st' : GridTradingStrategy.t)
    (e ps cp : float) (os : list Order.t) :
  GridTradingStrategy.generate_grid_orders now st e ps cp = Ok (os, st') ->
  untouched st -> untouched st'.
Proof.
  unfold GridTradingStrategy.generate_grid_orders. intros H U.
  bind_ok H. inversion H; subst. destruct st; exact U.
Qed.

Lemma check_exit_conditions_untouched (now : float) (st st' : GridTradingStrategy.t)
    (cp equity : float) (parg : option Position.t) (sig : option Signal.t) :
  GridTradingStrategy.check_exit_conditions now st cp equity parg = Ok (sig, st') ->
  untouched st -> untouched st'.
Proof.
  unfold GridTradingStrategy.check_exit_conditions. intros H U.
  destruct (match parg with
            | Some p => Some p
            | None => GridTradingStrategy.position st
            end) as [pos|]; [|inversion H; subst; exact U].
  destruct (negb (Position.is_open pos)); [inversion H; subst; exact U|].
  destruct (GridTradingStrategy.current_scaled _) as [sc|];
    binds_ok H; inversion H; subst; destruct st; exact U.
Qed.

Lemma try_entry_untouched (now : float) (cfg : BacktestConfig.t)
    (md : MarketData.t) (candle : Candle.t) (symbol : string)
    (s s' : option GridTradingStrategy.t) (pending pending' : dict (list Order.t)) :
  BacktestEngine.try_entry now cfg md candle symbol s pending = Ok (s', pending') ->
  side_untouched s -> side_untouched s'.
Proof.
  unfold BacktestEngine.try_entry. intros H U.
  destruct s as [st|]; [|inversion H; subst; exact U].
  destruct (GridTradingStrategy.position st); [inversion H; subst; exact U|].
  bind_ok H. destruct a as [sigs st1].
  pose proof (analyze_untouched _ _ _ _ _ E U) as U1.
  destruct sigs; [inversion H; subst; exact U1|].
  bind_ok H. bind_ok H. destruct a0 as [os st2]. inversion H; subst.
  exact (generate_grid_orders_untouched _ _ _ _ _ _ _ E1 U1).
Qed.

Lemma check_exits_untouched (now : float) (ex : OrderExecutor.t) (symbol : string)
    (idx : nat) (candle : Candle.t) (ls ss : option GridTradingStrategy.t)
    (p p' : PortfolioState.t) (trades trades' : list Trade.t)
    (strats' : BacktestEngine.strategy_pair) :
  BacktestEngine.check_exits now ex symbol idx candle (ls, ss) p trades
  = Ok (strats', p', trades') ->
  side_untouched ls -> side_untouched ss ->
  side_untouched (fst strats') /\ side_untouched (snd strats').
Proof.
  unfold BacktestEngine.check_exits. intros H Ul Us.
  destruct (get (PortfolioState.positions p) symbol) as [position|];
    [|inversion H; subst; auto].
  destruct (Position.trade_type position).
  - destruct ls as [ls|]; [|inversion H; subst; auto].
    bind_ok H. destruct a as [sig ls'].
    pose proof (check_exit_conditions_untouched _ _ _ _ _ _ _ E Ul) as U'.
    destruct sig; [bind_ok H; destruct a|]; inversion H; subst; auto.
  - destruct ss as [ss|].
    + destruct ls; (bind_ok H; destruct a as [sig ss'];
        pose proof (check_exit_conditions_untouched _ _ _ _ _ _ _ E Us) as U';
        destruct sig; [bind_ok H; destruct a|]; inversion H; subst; auto).
    + destruct ls; inversion H; subst; auto.
  - destruct ls, ss; inversion H; subst; auto.
Qed.

Lemma process_symbol_untouched (now : float) (portfolio : BacktestEngine.loc)
    (mdd : dict MarketData.t) (idx : nat) (cc : dict Candle.t)
    (r r' : BacktestEngine.run) (symbol : string) :
  BacktestEngine.process_symbol now portfolio mdd idx cc r symbol = Ok r' ->
  strategies_untouched r -> strategies_untouched r'.
Proof.
  unfold BacktestEngine.process_symbol, strategies_untouched. intros H Hr.
  destruct (get cc symbol) as [candle|]; [|inversion H; subst; exact Hr].
  destruct (get (BacktestEngine.strategies r) symbol)
    as [[long_strat short_strat]|] eqn:Hs; [|inversion H; subst; exact Hr].
  destruct (get mdd symbol) as [market_data|]; [|inversion H; subst; exact Hr].
  bind_ok H. destruct a as [filled pending].
  bind_ok H. bind_ok H. destruct a0 as [ls pending1].
  bind_ok H. destruct a0 as [ss pending2].
  bind_ok H. destruct a0 as [[strats p'] trades].
  inversion H; subst; clear H. cbn [BacktestEngine.strategies].
  apply values_set_Forall; [exact Hr|].
  pose proof (get_Forall _ _ _ _ Hr Hs) as [Ul Us]. cbn [fst snd] in Ul, Us.
  match goal with
  | Hc : BacktestEngine.check_exits _ _ _ _ _ _ _ _ = Ok _ |- _ =>
      refine (check_exits_untouched _ _ _ _ _ _ _ _ _ _ _ _ Hc _ _)
  end.
  - eapply try_entry_untouched; eassumption.
  - eapply try_entry_untouched; eassumption.
Qed.

Lemma init_strategies_untouched (cfgs : list StrategyConfig.t) :
  Forall (fun pr : BacktestEngine.strategy_pair =>
            side_untouched (fst pr) /\ side_untouched (snd pr))
         (values (BacktestEngine.init_strategies cfgs)).
Proof.
  unfold BacktestEngine.init_strategies.
  assert (G : forall d : dict BacktestEngine.strategy_pair,
             Forall (fun pr : BacktestEngine.strategy_pair =>
                       side_untouched (fst pr) /\ side_untouched (snd pr)) (values d) ->
             Forall (fun pr : BacktestEngine.strategy_pair =>
                       side_untouched (fst pr) /\ side_untouched (snd pr))
                    (values (fold_left
                      (fun strategies cfg =>
                         let long_strategy :=
                           if StrategyConfig.enable_long cfg
                           then Some (GridTradingStrategy.new
                                        (StrategyConfig.symbol cfg) LONG
                                        (StrategyConfig.long_params cfg))
                           else None in
                         let short_strategy :=
                           if StrategyConfig.enable_short cfg
                           then Some (GridTradingStrategy.new
                                        (StrategyConfig.symbol cfg) SHORT
                                        (StrategyConfig.short_params cfg))
                           else None in
                         set strategies (StrategyConfig.symbol cfg)
                             (long_strategy, short_strategy)) cfgs d))).
  { induction cfgs as [|cfg cfgs IH]; intros d Hd; cbn [fold_left]; [exact Hd|].
    apply IH. apply values_set_Forall; [exact Hd|]. cbn [fst snd].
    split; [destruct (StrategyConfig.enable_long cfg)
           | destruct (StrategyConfig.enable_short cfg)];
      cbn; repeat split. }
  apply G. constructor.
Qed.

Lemma main_loop_untouched (now : float) (self : BacktestEngine.t)
    (h : BacktestEngine.store) (market_data_dict : dict MarketData.t)
    (strategy_configs : list StrategyConfig.t) (idxs : list nat)
    (r' : BacktestEngine.run) :
  BacktestEngine.main_loop
    now (fst (BacktestEngine.start self h strategy_configs))
    market_data_dict idxs
    (snd (BacktestEngine.start self h strategy_configs)) = Ok r' ->
  strategies_untouched r'.
Proof.
  intros H.
  refine (main_loop_invariant now _ market_data_dict strategies_untouched
                              _ _ idxs _ _ H _).
  - intros candle_idx current_candles r r0 symbol. apply process_symbol_untouched.
  - intros r history Hr. exact Hr.
  - unfold BacktestEngine.start, strategies_untouched. cbn.
    apply init_strategies_untouched.
Qed.

(** X20.  [run_backtest] never drives the state machine of its strategies:
    it calls neither [update_state] nor [update_adaptive_parameters] nor
    [reset], so at the end of every run each strategy is still IDLE, without
    a position, entry or exit orders, and without adaptive measures or scaled
    parameters, whatever was traded. *)
Theorem run_backtest_never_drives_strategies (now : float) (self : BacktestEngine.t)
    (h : BacktestEngine.store) (market_data_dict : dict MarketData.t)
    (strategy_configs : list StrategyConfig.t)
    (metrics : BacktestMetrics.t) (r' : BacktestEngine.run) :
  BacktestEngine.run_backtest now self h market_data_dict strategy_configs
  = Ok (metrics, r') ->
  strategies_untouched r'.
Proof.
  unfold BacktestEngine.run_backtest. intros H.
  destruct (BacktestEngine.start self h strategy_configs) as [portfolio r] eqn:Es.
  bind_ok H. bind_ok H. bind_ok H. inversion H; subst; clear H.
  pose proof (main_loop_untouched now self h market_data_dict strategy_configs
                                  (seq 0 a) r') as L.
  rewrite Es in L. apply L. exact E0.
Qed.

Lemma run_backtest_never_drives_strategies_witness :
  exists metrics r',
    BacktestEngine.run_backtest
      0 (BacktestEngine.new Sample.config) [] Sample.market_data_dict
      [Sample.strategy_config] = Ok (metrics, r')
    /\ BacktestMetrics.total_trades metrics = 1%nat
    /\ strategies_untouched r'.
Proof.
  assert (H : exists v,
             BacktestEngine.run_backtest
               0 (BacktestEngine.new Sample.config) [] Sample.market_data_dict
               [Sample.strategy_config] = Ok v
             /\ BacktestMetrics.total_trades (fst v) = 1%nat)
    by (vm_compute; eexists; split; reflexivity).
  destruct H as [[metrics r'] [H Ht]]. exists metrics, r'.
  split; [exact H|]. split; [exact Ht|].
  exact (run_backtest_never_drives_strategies _ _ _ _ _ _ _ H).
Defined.

Lemma fold_min_le (ds : list MarketData.t) :
  forall m,
    (fold_left (fun m d' => Nat.min m (List.length (MarketData.candles d'))) ds m
     <= m)%nat
    /\ forall d, In d ds ->
         (fold_left (fun m d' => Nat.min m (List.length (MarketData.candles d'))) ds m
          <= List.length (MarketData.candles d))%nat.
Proof.
  induction ds as [|d0 ds IH]; cbn [fold_left]; intros m.
  - split; [lia | intros d []].
  - destruct (IH (Nat.min m (List.length (MarketData.candles d0)))) as [H1 H2].
    split; [lia|]. intros d [<-|Hin]; [lia | exact (H2 d Hin)].
Qed.

Lemma num_candles_zero (mdd : dict MarketData.t) (md : MarketData.t) :
  In md (values mdd) -> MarketData.candles md = [] ->
  BacktestEngine.num_candles mdd = Ok 0%nat.
Proof.
  unfold BacktestEngine.num_candles. intros Hin He.
  destruct (values mdd) as [|d ds]; [destruct Hin|].
  f_equal. destruct (fold_min_le ds (List.length (MarketData.candles d))) as [H1 H2].
  destruct Hin as [<-|Hin].
  - rewrite He in *. cbn [List.length] in *. lia.
  - specialize (H2 _ Hin). rewrite He in H2. cbn [List.length] in H2. lia.
Qed.

(** X21.  [run_backtest] on degenerate market data: with no symbol at all
    the [min] over the candle counts raises ValueError; with a symbol that
    has no candle the loop is not entered, so a fresh engine returns the
    default metrics, records no history, and leaves every strategy as
    constructed. *)
Theorem run_backtest_degenerate_market_data (now : float) (self : BacktestEngine.t)
    (h : BacktestEngine.store) (strategy_configs : list StrategyConfig.t) :
  BacktestEngine.run_backtest now self h [] strategy_configs = Raise ValueError
  /\ (forall (market_data_dict : dict MarketData.t) (md : MarketData.t),
         In md (values market_data_dict) ->
         MarketData.candles md = [] ->
         BacktestEngine.all_trades self = [] ->
         BacktestEngine.run_backtest now self h market_data_dict strategy_configs
         = Ok (BacktestMetrics.default,
               snd (BacktestEngine.start self h strategy_configs))).
Proof.
  split; [reflexivity|].
  intros market_data_dict md Hin He Ht. unfold BacktestEngine.run_backtest.
  rewrite (num_candles_zero _ _ Hin He).
  unfold BacktestEngine.start. cbn. rewrite Ht. reflexivity.
Qed.

Lemma run_backtest_degenerate_market_data_witness :
  In Cases.no_candles
     (values [("BTCUSDC"%string, Sample.market_data);
              ("ETHUSDC"%string, Cases.no_candles)])
  /\ BacktestEngine.run_backtest
       0 (BacktestEngine.new Sample.config) []
       [("BTCUSDC"%string, Sample.market_data); ("ETHUSDC"%string, Cases.no_candles)]
       [Sample.strategy_config]
     = Ok (BacktestMetrics.default,
           snd (BacktestEngine.start (BacktestEngine.new Sample.config) []
                                     [Sample.strategy_config])).
Proof.
  assert (A : In Cases.no_candles
                 (values [("BTCUSDC"%string, Sample.market_data);
                          ("ETHUSDC"%string, Cases.no_candles)]))
    by (right; left; reflexivity).
  split; [exact A|].
  exact (proj2 (run_backtest_degenerate_market_data
                  0 (BacktestEngine.new Sample.config) [] [Sample.strategy_config])
               _ Cases.no_candles A eq_refl eq_refl).
Defined.

(* ------------------------------------------------------------------ *)
(** ** Metrics *)

(** X22.  [_calculate_metrics], when it returns: the trade count is the
    length of the list, the winners are the profitable trades, winners and
    losers add up to the count; the Sharpe, Sortino and Calmar ratios, both
    drawdown figures and both streak counters are never computed and stay
    0. *)
Theorem calculate_metrics_counts (self : BacktestEngine.t)
    (final_portfolio : PortfolioState.t) (trades : list Trade.t)
    (m : BacktestMetrics.t) :
  BacktestEngine._calculate_metrics self final_portfolio trades = Ok m ->
  BacktestMetrics.total_trades m = List.length trades
  /\ BacktestMetrics.winning_trades m
     = List.length (filter Trade.is_profitable trades)
  /\ (BacktestMetrics.winning_trades m + BacktestMetrics.losing_trades m)%nat
     = BacktestMetrics.total_trades m
  /\ BacktestMetrics.sharpe_ratio m = 0
  /\ BacktestMetrics.sortino_ratio m = 0
  /\ BacktestMetrics.calmar_ratio m = 0
  /\ BacktestMetrics.max_drawdown_percent m = 0
  /\ BacktestMetrics.max_drawdown_duration_days m = 0%nat
  /\ BacktestMetrics.consecutive_wins m = 0%nat
  /\ BacktestMetrics.consecutive_losses m = 0%nat.
Proof.
  unfold BacktestEngine._calculate_metrics. intros H.
  destruct trades as [|t0 ts]; [inversion H; subst; cbn; repeat split|].
  bind_ok H. bind_ok H. inversion H; subst; clear H.
  repeat split.
  change ((List.length (filter Trade.is_profitable (t0 :: ts))
           + (List.length (t0 :: ts)
              - List.length (filter Trade.is_profitable (t0 :: ts))))%nat
          = List.length (t0 :: ts)).
  pose proof (filter_length_le Trade.is_profitable (t0 :: ts)). lia.
Qed.

Lemma calculate_metrics_counts_witness :
  exists m,
    BacktestEngine._calculate_metrics
      (BacktestEngine.new Sample.config) (PortfolioState.new 0 10020)
      [Sample.winning_trade] = Ok m
    /\ BacktestMetrics.total_trades m = 1%nat
    /\ BacktestMetrics.winning_trades m = 1%nat
    /\ BacktestMetrics.max_drawdown_percent m = 0.
Proof.
  assert (H : exists v,
             BacktestEngine._calculate_metrics
               (BacktestEngine.new Sample.config) (PortfolioState.new 0 10020)
               [Sample.winning_trade] = Ok v)
    by returns_by_evaluation.
  destruct H as [m H]. exists m. split; [exact H|].
  destruct (calculate_metrics_counts _ _ _ _ H) as [Ht [Hw [_ [_ [_ [_ [Hd _]]]]]]].
  split; [exact Ht|]. split; [exact Hw | exact Hd].
Defined.

(** X23.  The two ways [_calculate_metrics] raises on a non-empty trade
    list: TypeError when a trade has no entry time (its duration subtracts
    [None]), and otherwise ZeroDivisionError when the configured initial
    balance is 0. *)
Theorem calculate_metrics_errors (self : BacktestEngine.t)
    (final_portfolio : PortfolioState.t) (trades : list Trade.t) :
  trades <> [] ->
  ((exists t, In t trades /\ Trade.entry_time t = None) ->
   BacktestEngine._calculate_metrics self final_portfolio trades = Raise TypeError)
  /\ (Forall (fun t => Trade.entry_time t <> None) trades ->
      feq (BacktestConfig.initial_balance (BacktestEngine.config self)) 0 = true ->
      BacktestEngine._calculate_metrics self final_portfolio trades
      = Raise ZeroDivisionError).
Proof.
  intros Hne. unfold BacktestEngine._calculate_metrics.
  destruct trades as [|t0 ts]; [congruence|].
  generalize (t0 :: ts). clear. intros trades. split.
  - intros [t [Hin Hn]].
    assert (E : mapM Trade.duration_seconds trades = Raise TypeError).
    { induction trades as [|x xs IH]; [destruct Hin|]. cbn [mapM].
      unfold Trade.duration_seconds at 1.
      destruct (Trade.entry_time x) as [e|] eqn:Ex; [|reflexivity].
      destruct Hin as [->|Hin]; [congruence|]. cbn [Py.bind].
      rewrite (IH Hin). reflexivity. }
    rewrite E. reflexivity.
  - intros Hall Hz.
    assert (E : exists ds, mapM Trade.duration_seconds trades = Ok ds).
    { induction Hall as [|x xs Hx _ IH]; [exists []; reflexivity|].
      cbn [mapM]. unfold Trade.duration_seconds at 1.
      destruct (Trade.entry_time x) as [e|]; [|congruence].
      destruct IH as [ds ->]. eexists. reflexivity. }
    destruct E as [ds ->]. cbn [Py.bind]. unfold fdiv. rewrite Hz. reflexivity.
Qed.

Lemma calculate_metrics_errors_witness :
  [Sample.winning_trade; Cases.trade_without_entry_time] <> []
  /\ BacktestEngine._calculate_metrics
       (BacktestEngine.new Sample.config) (PortfolioState.new 0 10020)
       [Sample.winning_trade; Cases.trade_without_entry_time]
     = Raise TypeError.
Proof.
  assert (A : [Sample.winning_trade; Cases.trade_without_entry_time] <> [])
    by discriminate.
  split; [exact A|].
  apply (proj1 (calculate_metrics_errors
                  (BacktestEngine.new Sample.config) (PortfolioState.new 0 10020)
                  [Sample.winning_trade; Cases.trade_without_entry_time] A)).
  exists Cases.trade_without_entry_time.
  split; [right; left; reflexivity | reflexivity].
Defined.

Lemma returns_from_total (rest : list float) :
  forall prev, exists rets,
    MetricsCalculator.returns_from prev rest = Ok rets
    /\ List.length rets = List.length rest.
Proof.
  induction rest as [|x r IH]; intros prev; cbn [MetricsCalculator.returns_from].
  - exists []. split; reflexivity.
  - destruct (IH x) as [rets [E L]]. rewrite E.
    destruct (feq prev 0) eqn:Hp; cbn [Py.bind].
    + eexists. split; [reflexivity | cbn [List.length]; congruence].
    + rewrite (fdiv_guarded _ _ Hp). cbn [Py.bind].
      eexists. split; [reflexivity | cbn [List.length]; congruence].
Qed.

(** X24.  The guarded ratios of [MetricsCalculator] never raise:
    [calculate_returns] returns one value per step of the curve, whatever the
    curve holds, zeros included; [calculate_calmar_ratio],
    [calculate_recovery_factor] and [calculate_win_rate] return for every
    input. *)
Theorem metrics_ratios_never_raise :
  (forall equity_curve, exists rets,
      MetricsCalculator.calculate_returns equity_curve = Ok rets
      /\ List.length rets = Nat.pred (List.length equity_curve))
  /\ (forall annual_return max_drawdown_percent, exists r,
         MetricsCalculator.calculate_calmar_ratio annual_return max_drawdown_percent
         = Ok r)
  /\ (forall net_profit max_drawdown, exists r,
         MetricsCalculator.calculate_recovery_factor net_profit max_drawdown = Ok r)
  /\ (forall trades, exists r,
         MetricsCalculator.calculate_win_rate trades = Ok r).
Proof.
  split; [|split; [|split]].
  - intros [|x r]; [exists []; split; reflexivity|].
    exact (returns_from_total r x).
  - intros a d. unfold MetricsCalculator.calculate_calmar_ratio.
    destruct (feq d 0) eqn:E; [eexists; reflexivity|].
    rewrite (fdiv_guarded _ _ E). eexists; reflexivity.
  - intros a d. unfold MetricsCalculator.calculate_recovery_factor.
    destruct (feq d 0) eqn:E; [eexists; reflexivity|].
    rewrite (fdiv_guarded _ _ E). eexists; reflexivity.
  - intros [|t ts]; [eexists; reflexivity|].
    unfold MetricsCalculator.calculate_win_rate, int_div.
    cbn [List.length Py.bind]. eexists; reflexivity.
Qed.

(* ------------------------------------------------------------------ *)
(** ** The adaptive mixin *)

(** X25.  [update_adaptive_parameters], when it returns: the scaled
    parameters returned are the ones stored in [current_scaled] and read back
    by the three getters, and they are appended to the engine's scaling
    history; the snapshot stored in [current_measures] has composite 0.0;
    the trading state of the strategy (parameters, state, position, entry
    orders, grid prices, entry flag) is left alone. *)
Theorem update_adaptive_parameters_stores (np_log : float -> float)
    (self self' : GridTradingStrategy.t) (high low close open_price : float)
    (scaled : ScaledParameters.t) :
  AdaptiveStrategyMixin.update_adaptive_parameters
    np_log self high low close open_price = Ok (scaled, self') ->
  GridTradingStrategy.current_scaled self' = Some scaled
  /\ (exists m, GridTradingStrategy.current_measures self' = Some m
                /\ VolatilityMeasures.composite m = 0)
  /\ AdaptiveStrategyMixin.get_current_grid_spacing self'
     = Some (ScaledParameters.grid_spacing_percent scaled)
  /\ AdaptiveStrategyMixin.get_current_take_profit self'
     = Some (ScaledParameters.take_profit_percent scaled)
  /\ AdaptiveStrategyMixin.get_current_max_drawdown self'
     = Some (ScaledParameters.max_drawdown_percent scaled)
  /\ AdaptiveParameterEngine.scaling_history (GridTradingStrategy.param_engine self')
     = AdaptiveParameterEngine.scaling_history (GridTradingStrategy.param_engine self)
       ++ [scaled]
  /\ GridTradingStrategy.params self' = GridTradingStrategy.params self
  /\ GridTradingStrategy.state self' = GridTradingStrategy.state self
  /\ GridTradingStrategy.position self' = GridTradingStrategy.position self
  /\ GridTradingStrategy.entry_orders self' = GridTradingStrategy.entry_orders self
  /\ GridTradingStrategy.grid_prices self' = GridTradingStrategy.grid_prices self
  /\ GridTradingStrategy.entry_signal_generated self'
     = GridTradingStrategy.entry_signal_generated self.
Proof.
  unfold AdaptiveStrategyMixin.update_adaptive_parameters. intros H.
  bind_ok H. destruct a as [measures calc]. bind_ok H. destruct a as [sc engine].
  inversion H; subst; clear H.
  pose proof (update_composite_zero _ _ _ _ _ _ _ _ E) as Hc.
  assert (Hh : AdaptiveParameterEngine.scaling_history engine
               = AdaptiveParameterEngine.scaling_history
                   (GridTradingStrategy.param_engine self) ++ [scaled]).
  { unfold AdaptiveParameterEngine.scale_parameters in E0.
    bind_ok E0. bind_ok E0. bind_ok E0. bind_ok E0.
    inversion E0; subst. reflexivity. }
  cbn. repeat split; try assumption.
  exists measures. split; [reflexivity | exact Hc].
Qed.

Lemma update_adaptive_parameters_stores_witness :
  exists scaled self',
    AdaptiveStrategyMixin.update_adaptive_parameters
      Cases.np_log Sample.strategy 101 99 100 100 = Ok (scaled, self')
    /\ GridTradingStrategy.current_scaled self' = Some scaled
    /\ AdaptiveStrategyMixin.get_current_take_profit self'
       = Some (ScaledParameters.take_profit_percent scaled).
Proof.
  assert (H : exists v,
             AdaptiveStrategyMixin.update_adaptive_parameters
               Cases.np_log Sample.strategy 101 99 100 100 = Ok v)
    by returns_by_evaluation.
  destruct H as [[scaled self'] H]. exists scaled, self'. split; [exact H|].
  destruct (update_adaptive_parameters_stores _ _ _ _ _ _ _ _ H)
    as [Hs [_ [_ [Ht _]]]].
  split; [exact Hs | exact Ht].
Defined.

(* ------------------------------------------------------------------ *)
(** ** What never raises *)

Lemma calculate_unrealized_pnl_percent_returns (pos : Position.t)
    (current_price : float) :
  exists pnl_percent,
    Position.calculate_unrealized_pnl_percent pos current_price = Ok pnl_percent.
Proof.
  unfold Position.calculate_unrealized_pnl_percent.
  destruct (feq (Position.entry_price pos) 0) eqn:E; [eexists; reflexivity|].
  destruct (Position.trade_type pos); rewrite (fdiv_guarded _ _ E);
    eexists; reflexivity.
Qed.

(** X26.  [check_exit_conditions] never raises: the P&L percentage is
    guarded against an entry price of 0, the drawdown against a price extreme
    of 0, and the signal it builds has strength 1.0; it returns for every
    strategy, price, equity and position. *)
Theorem check_exit_conditions_never_raises (now : float)
    (self : GridTradingStrategy.t) (current_price account_equity : float)
    (position_arg : option Position.t) :
  exists exit_signal self',
    GridTradingStrategy.check_exit_conditions
      now self current_price account_equity position_arg = Ok (exit_signal, self').
Proof.
  unfold GridTradingStrategy.check_exit_conditions.
  destruct (match position_arg with
            | Some p => Some p
            | None => GridTradingStrategy.position self
            end) as [pos|]; [|eexists; eexists; reflexivity].
  destruct (negb (Position.is_open pos)); [eexists; eexists; reflexivity|].
  destruct (calculate_unrealized_pnl_percent_returns pos current_price) as [pct ->].
  cbn [Py.bind].
  destruct (GridTradingStrategy.current_scaled _) as [sc|];
    (destruct (fge pct _); [eexists; eexists; reflexivity|]);
    (destruct (Position.entry_orders pos); [eexists; eexists; reflexivity|]);
    (destruct (fge _ _); eexists; eexists; reflexivity).
Qed.

Lemma nie_ok {A} (a : A) : never_index_error (Ok a).
Proof. exact I. Qed.

Lemma nie_bind {A B} (m : result A) (k : A -> result B) :
  never_index_error m -> (forall a, never_index_error (k a)) ->
  never_index_error (bind m k).
Proof.
  intros Hm Hk. destruct m as [a|e]; cbn [bind]; [apply Hk | exact Hm].
Qed.

Lemma nie_fdiv (a b : float) : never_index_error (fdiv a b).
Proof. unfold fdiv. destruct (feq b 0); exact I. Qed.

(** Close a goal [never_index_error (...)] along the binds and the case
    distinctions of the call. *)
Ltac nie :=
  repeat first
    [ exact I
    | apply nie_ok
    | apply nie_fdiv
    | apply nie_bind; [|intros ?]
    | match goal with
      | |- never_index_error (match ?x with _ => _ end) => destruct x
      end
    | progress cbv zeta ].

Lemma nie_foldM {A S} (f : S -> A -> result S) (xs : list A) :
  (forall s x, In x xs -> never_index_error (f s x)) ->
  forall s, never_index_error (foldM f xs s).
Proof.
  induction xs as [|x xs IH]; intros H s; cbn [foldM].
  - apply nie_ok.
  - apply nie_bind.
    + apply H. left. reflexivity.
    + intros s'. apply IH. intros s0 x0 Hin. apply H. right. exact Hin.
Qed.

Lemma nie_mapM {A B} (f : A -> result B) (xs : list A) :
  (forall x, never_index_error (f x)) -> never_index_error (mapM f xs).
Proof.
  intros H. induction xs as [|x xs IH]; cbn [mapM].
  - apply nie_ok.
  - apply nie_bind; [apply H|]. intros y.
    apply nie_bind; [exact IH|]. intros ys. apply nie_ok.
Qed.

Lemma nie_execute_limit_order (ex : OrderExecutor.t) (order : Order.t)
    (candle : Candle.t) :
  never_index_error (OrderExecutor.execute_limit_order ex order candle).
Proof. unfold OrderExecutor.execute_limit_order. nie. Qed.

Lemma nie_check_pending (ex : OrderExecutor.t) (candle : Candle.t)
    (orders : list Order.t) :
  never_index_error (BacktestEngine.check_pending ex candle orders).
Proof.
  unfold BacktestEngine.check_pending. apply nie_foldM.
  intros [f r] o _. apply nie_bind; [apply nie_execute_limit_order|].
  intros [q p]. nie.
Qed.

Lemma nie_apply_fill (ex : OrderExecutor.t) (symbol : string) (idx : nat)
    (candle : Candle.t) (p : PortfolioState.t) (f : BacktestEngine.fill) :
  never_index_error (BacktestEngine.apply_fill ex symbol idx candle p f).
Proof. unfold BacktestEngine.apply_fill. destruct f as [[o q] fp]. nie. Qed.

Lemma nie_calculate_volatility (md : MarketData.t) (period : nat) :
  never_index_error (MarketData.calculate_volatility md period).
Proof.
  unfold MarketData.calculate_volatility.
  assert (R : forall cs prev, never_index_error (MarketData.returns prev cs)).
  { induction cs as [|c cs IH]; intros prev; cbn [MarketData.returns]; [exact I|].
    apply nie_bind; [apply nie_fdiv|]. intros r.
    apply nie_bind; [apply IH|]. intros rs. exact I. }
  destruct (MarketData.get_last_n_candles md (period + 1)) as [|c0 [|c1 cs]];
    [exact I | exact I |].
  apply nie_bind; [apply R|]. intros rets. nie.
Qed.

Lemma nie_analyze (now : float) (st : GridTradingStrategy.t) (md : MarketData.t) :
  never_index_error (GridTradingStrategy.analyze now st md).
Proof.
  unfold GridTradingStrategy.analyze.
  destruct (_ && _); [|exact I].
  apply nie_bind; [apply nie_calculate_volatility|]. intros v.
  destruct (fge _ _); [|exact I].
  apply nie_bind; [|intros; exact I].
  unfold Signal.new. destruct (_ && _); exact I.
Qed.

Lemma nie_generate_grid_orders (now : float) (st : GridTradingStrategy.t)
    (e ps cp : float) :
  never_index_error (GridTradingStrategy.generate_grid_orders now st e ps cp).
Proof. unfold GridTradingStrategy.generate_grid_orders. nie. Qed.

Lemma nie_try_entry (now : float) (cfg : BacktestConfig.t) (md : MarketData.t)
    (candle : Candle.t) (symbol : string) (s : option GridTradingStrategy.t)
    (pending : dict (list Order.t)) :
  never_index_error (BacktestEngine.try_entry now cfg md candle symbol s pending).
Proof.
  unfold BacktestEngine.try_entry.
  destruct s as [st|]; [|exact I].
  destruct (GridTradingStrategy.position st); [exact I|].
  apply nie_bind; [apply nie_analyze|]. intros [sigs st1].
  destruct sigs; [exact I|].
  apply nie_bind; [apply nie_fdiv|]. intros size.
  apply nie_bind; [apply nie_generate_grid_orders|]. intros [os st2]. exact I.
Qed.

Lemma nie_close_position (ex : OrderExecutor.t) (symbol tag : string) (idx : nat)
    (candle : Candle.t) (position : Position.t) (pnl : float)
    (p : PortfolioState.t) (trades : list Trade.t) :
  never_index_error
    (BacktestEngine.close_position ex symbol tag idx candle position pnl p trades).
Proof. unfold BacktestEngine.close_position. nie. Qed.

Lemma nie_check_exit_conditions (now : float) (st : GridTradingStrategy.t)
    (cp equity : float) (parg : option Position.t) :
  never_index_error
    (GridTradingStrategy.check_exit_conditions now st cp equity parg).
Proof.
  unfold GridTradingStrategy.check_exit_conditions.
  destruct (match parg with
            | Some p => Some p
            | None => GridTradingStrategy.position st
            end) as [pos|]; [|exact I].
  destruct (negb (Position.is_open pos)); [exact I|].
  destruct (calculate_unrealized_pnl_percent_returns pos cp) as [pct ->].
  cbn [Py.bind]. unfold Signal.new. nie.
Qed.

Lemma nie_check_exits (now : float) (ex : OrderExecutor.t) (symbol : string)
    (idx : nat) (candle : Candle.t) (pair : BacktestEngine.strategy_pair)
    (p : PortfolioState.t) (trades : list Trade.t) :
  never_index_error
    (BacktestEngine.check_exits now ex symbol idx candle pair p trades).
Proof.
  unfold BacktestEngine.check_exits. destruct pair as [ls ss].
  destruct (get (PortfolioState.positions p) symbol) as [position|]; [|exact I].
  destruct (Position.trade_type position), ls, ss; try exact I;
    (apply nie_bind; [apply nie_check_exit_conditions|]; intros [sig st'];
     destruct sig; [|exact I];
     apply nie_bind; [apply nie_close_position|]; intros [p' t']; exact I).
Qed.

Lemma nie_process_symbol (now : float) (portfolio : BacktestEngine.loc)
    (mdd : dict MarketData.t) (idx : nat) (cc : dict Candle.t)
    (r : BacktestEngine.run) (symbol : string) :
  never_index_error
    (BacktestEngine.process_symbol now portfolio mdd idx cc r symbol).
Proof.
  unfold BacktestEngine.process_symbol.
  destruct (get cc symbol) as [candle|]; [|exact I].
  destruct (get (BacktestEngine.strategies r) symbol) as [[ls ss]|]; [|exact I].
  destruct (get mdd symbol) as [md|]; [|exact I].
  apply nie_bind.
  { destruct (get (BacktestEngine.pending_orders r) symbol); [|exact I].
    apply nie_bind; [apply nie_check_pending|]. intros [f rem]. exact I. }
  intros [filled pending].
  apply nie_bind; [apply nie_foldM; intros; apply nie_apply_fill|]. intros p.
  apply nie_bind; [apply nie_try_entry|]. intros [ls1 pending1].
  apply nie_bind; [apply nie_try_entry|]. intros [ss1 pending2].
  apply nie_bind; [apply nie_check_exits|]. intros [[strats p'] trades]. exact I.
Qed.

Lemma nie_calculate_metrics (self : BacktestEngine.t) (p : PortfolioState.t)
    (trades : list Trade.t) :
  never_index_error (BacktestEngine._calculate_metrics self p trades).
Proof.
  unfold BacktestEngine._calculate_metrics. destruct trades as [|t0 ts]; [exact I|].
  apply nie_bind.
  { apply nie_mapM. intros t. unfold Trade.duration_seconds.
    destruct (Trade.entry_time t); exact I. }
  intros ds. nie.
Qed.

Lemma candles_at_returns (idx : nat) (mdd : dict MarketData.t) :
  Forall (fun md => idx < List.length (MarketData.candles md)) (values mdd) ->
  exists cc, BacktestEngine.candles_at mdd idx = Ok cc /\ keys cc = keys mdd.
Proof.
  unfold BacktestEngine.candles_at.
  induction mdd as [|[k md] mdd IH]; intros H.
  - exists []. split; reflexivity.
  - cbn [values map snd] in H. inversion H as [|? ? Hlt Hrest]; subst.
    destruct (IH Hrest) as [cc [E K]].
    cbn [mapM fst snd].
    destruct (nth_error (MarketData.candles md) idx) as [c|] eqn:En.
    + cbn [Py.bind]. rewrite E. cbn [Py.bind]. eexists. split; [reflexivity|].
      cbn [keys map fst]. f_equal. exact K.
    + apply nth_error_None in En. lia.
Qed.

(** Every index below the candle count the loop runs to is within the
    candle list of every symbol. *)
Lemma main_loop_indices_in_range (market_data_dict : dict MarketData.t)
    (n candle_idx : nat) :
  BacktestEngine.num_candles market_data_dict = Ok n ->
  candle_idx < n ->
  exists current_candles,
    BacktestEngine.candles_at market_data_dict candle_idx = Ok current_candles
    /\ keys current_candles = keys market_data_dict.
Proof.
  unfold BacktestEngine.num_candles. intros H Hlt.
  apply candles_at_returns. unfold values in *.
  destruct (map snd market_data_dict) as [|d ds]; [discriminate H|].
  inversion H; subst; clear H.
  destruct (fold_min_le ds (List.length (MarketData.candles d))) as [H1 H2].
  constructor; [lia|]. apply Forall_forall. intros md Hin.
  specialize (H2 md Hin). lia.
Qed.

(** X27.  [run_backtest] never raises IndexError: the loop runs to the
    smallest candle count, so [market_data.candles[candle_idx]] is within
    range for every symbol on every candle, and no other step indexes a
    list. *)
Theorem run_backtest_never_raises_index_error (now : float)
    (self : BacktestEngine.t) (h : BacktestEngine.store)
    (market_data_dict : dict MarketData.t)
    (strategy_configs : list StrategyConfig.t) :
  never_index_error
    (BacktestEngine.run_backtest now self h market_data_dict strategy_configs).
Proof.
  unfold BacktestEngine.run_backtest.
  destruct (BacktestEngine.start self h strategy_configs) as [portfolio r].
  destruct (BacktestEngine.num_candles market_data_dict) as [n|e] eqn:En.
  - cbn [bind]. apply nie_bind.
    + unfold BacktestEngine.main_loop. apply nie_foldM.
      intros s idx Hin. apply in_seq in Hin.
      unfold BacktestEngine.process_candle.
      destruct (main_loop_indices_in_range market_data_dict n idx En)
        as [cc [-> _]]; [lia|].
      cbn [bind]. apply nie_bind; [|intros; exact I].
      apply nie_foldM. intros s0 symbol _. apply nie_process_symbol.
    + intros r'. apply nie_bind; [apply nie_calculate_metrics|]. intros m. exact I.
  - cbn [bind]. unfold BacktestEngine.num_candles in En.
    destruct (values market_data_dict); inversion En. exact I.
Qed.

(* ------------------------------------------------------------------ *)
(** ** Valid candles *)

Lemma SFleb_trans (x y z : spec_float) :
  SFleb x y = true -> SFleb y z = true -> SFleb x z = true.
Proof.
  unfold SFleb.
  destruct x as [sx|sx| |sx mx ex], y as [sy|sy| |sy my ey], z as [sz|sz| |sz mz ez];
    cbn [SFcompare]; try discriminate; try reflexivity;
    repeat match goal with s : bool |- _ => destruct s end;
    try discriminate; try reflexivity.
  all: change (Pos.compare_cont Eq ?a ?b) with (Pos.compare a b).
  all: destruct (Z.compare_spec ex ey), (Z.compare_spec ey ez),
         (Z.compare_spec ex ez); subst; try lia; try discriminate;
       try reflexivity.
  all: destruct (Pos.compare_spec mx my), (Pos.compare_spec my mz),
         (Pos.compare_spec mx mz); subst; cbn [CompOpp];
       try lia; try discriminate; try reflexivity.
Qed.

Lemma fle_trans (a b c : float) :
  fle a b = true -> fle b c = true -> fle a c = true.
Proof. unfold fle. rewrite !leb_spec. apply SFleb_trans. Qed.

(** X28.  A candle that passes the check of [__post_init__] has
    [low <= high]; on such a candle a LONG limit order priced at or above the
    close always fills, and so does a SHORT limit order priced at or below
    the close. *)
Theorem valid_candle_fills_orders_through_close (ex : OrderExecutor.t)
    (candle : Candle.t) :
  Candle.valid candle = true ->
  fle (Candle.low candle) (Candle.high candle) = true
  /\ (forall order price,
         Order.price order = Some price ->
         Order.trade_type order = LONG ->
         fle (Candle.close candle) price = true ->
         OrderExecutor.execute_limit_order ex order candle
         = Ok (Order.quantity order,
               fmin price (Candle.close candle) * (1 + OrderExecutor.slippage ex)))
  /\ (forall order price,
         Order.price order = Some price ->
         Order.trade_type order = SHORT ->
         fle price (Candle.close candle) = true ->
         OrderExecutor.execute_limit_order ex order candle
         = Ok (Order.quantity order,
               fmax price (Candle.close candle) * (1 - OrderExecutor.slippage ex))).
Proof.
  unfold Candle.valid. intros H.
  apply andb_prop in H. destruct H as [Hc Ho].
  apply andb_prop in Hc. destruct Hc as [Hlc Hch].
  split; [exact (fle_trans _ _ _ Hlc Hch)|]. split.
  - intros order price Hp Ht Hle. unfold OrderExecutor.execute_limit_order.
    rewrite Hp, Ht, (fle_trans _ _ _ Hlc Hle). reflexivity.
  - intros order price Hp Ht Hle. unfold OrderExecutor.execute_limit_order.
    rewrite Hp, Ht.
    replace (fge (Candle.high candle) price) with true; [reflexivity|].
    symmetry. exact (fle_trans _ _ _ Hle Hch).
Qed.

Lemma valid_candle_fills_orders_through_close_witness :
  Candle.valid Sample.candle_touching = true
  /\ OrderExecutor.execute_limit_order
       Sample.executor Cases.order_at_close Sample.candle_touching
     = Ok (Order.quantity Cases.order_at_close,
           fmin 101.0 (Candle.close Sample.candle_touching)
           * (1 + OrderExecutor.slippage Sample.executor)).
Proof.
  split; [reflexivity|].
  apply (proj1 (proj2 (valid_candle_fills_orders_through_close
                         Sample.executor Sample.candle_touching eq_refl)));
    reflexivity.
Defined.

(* ------------------------------------------------------------------ *)
(** ** The engine over several runs *)

Lemma close_position_trades (ex : OrderExecutor.t) (symbol tag : string) (idx : nat)
    (candle : Candle.t) (position : Position.t) (pnl : float)
    (p p' : PortfolioState.t) (trades trades' : list Trade.t) :
  BacktestEngine.close_position ex symbol tag idx candle position pnl p trades
  = Ok (p', trades') ->
  exists trade, trades' = trades ++ [trade].
Proof.
  unfold BacktestEngine.close_position. intros H. bind_ok H.
  inversion H; subst. eexists. reflexivity.
Qed.

Lemma check_exits_trades (now : float) (ex : OrderExecutor.t) (symbol : string)
    (idx : nat) (candle : Candle.t) (pair strats' : BacktestEngine.strategy_pair)
    (p p' : PortfolioState.t) (trades trades' : list Trade.t) :
  BacktestEngine.check_exits now ex symbol idx candle pair p trades
  = Ok (strats', p', trades') ->
  exists new_trades, trades' = trades ++ new_trades.
Proof.
  unfold BacktestEngine.check_exits. destruct pair as [ls ss]. intros H.
  assert (N : exists new_trades : list Trade.t, trades = trades ++ new_trades)
    by (exists []; rewrite app_nil_r; reflexivity).
  destruct (get (PortfolioState.positions p) symbol) as [position|];
    [|inversion H; subst; exact N].
  destruct (Position.trade_type position), ls, ss;
    try (inversion H; subst; exact N);
    (bind_ok H; destruct a as [sig st']; destruct sig;
     [bind_ok H; destruct a as [pc tc]; inversion H; subst;
      destruct (close_position_trades _ _ _ _ _ _ _ _ _ _ _ E0) as [trade ->];
      eexists; reflexivity
     |inversion H; subst; exact N]).
Qed.

Lemma process_symbol_extends (self0 : BacktestEngine.t) (now : float)
    (portfolio : BacktestEngine.loc) (mdd : dict MarketData.t) (idx : nat)
    (cc : dict Candle.t) (r r' : BacktestEngine.run) (symbol : string) :
  BacktestEngine.process_symbol now portfolio mdd idx cc r symbol = Ok r' ->
  engine_extends self0 r -> engine_extends self0 r'.
Proof.
  unfold BacktestEngine.process_symbol. intros H Hr.
  destruct (get cc symbol) as [candle|]; [|inversion H; subst; exact Hr].
  destruct (get (BacktestEngine.strategies r) symbol) as [[ls ss]|];
    [|inversion H; subst; exact Hr].
  destruct (get mdd symbol) as [md|]; [|inversion H; subst; exact Hr].
  bind_ok H. destruct a as [filled pending].
  bind_ok H. bind_ok H. destruct a0 as [ls1 pending1].
  bind_ok H. destruct a0 as [ss1 pending2].
  bind_ok H. destruct a0 as [[strats p'] trades].
  inversion H; subst; clear H.
  destruct Hr as [[new Ht] [Hc He]].
  match goal with
  | Hc : BacktestEngine.check_exits _ _ _ _ _ _ _ _ = Ok _ |- _ =>
      destruct (check_exits_trades _ _ _ _ _ _ _ _ _ _ _ Hc) as [more ->]
  end.
  unfold engine_extends. cbn. split; [|split; assumption].
  exists (new ++ more). rewrite Ht, app_assoc. reflexivity.
Qed.

(** X29.  The engine object accumulates over runs: [run_backtest] appends
    one history entry per candle after the entries already there, appends
    its trades after the trades already there, and computes the metrics over
    the whole list, so [total_trades] counts the trades of earlier runs as
    well; the configuration is unchanged. *)
Theorem run_backtest_accumulates (now : float) (self : BacktestEngine.t)
    (h : BacktestEngine.store) (market_data_dict : dict MarketData.t)
    (strategy_configs : list StrategyConfig.t)
    (metrics : BacktestMetrics.t) (r' : BacktestEngine.run) :
  BacktestEngine.run_backtest now self h market_data_dict strategy_configs
  = Ok (metrics, r') ->
  exists n new_trades,
    BacktestEngine.num_candles market_data_dict = Ok n
    /\ BacktestEngine.portfolio_history (BacktestEngine.self r')
       = BacktestEngine.portfolio_history self
         ++ repeat (fst (BacktestEngine.start self h strategy_configs)) n
    /\ BacktestEngine.all_trades (BacktestEngine.self r')
       = BacktestEngine.all_trades self ++ new_trades
    /\ BacktestMetrics.total_trades metrics
       = (List.length (BacktestEngine.all_trades self) + List.length new_trades)%nat
    /\ BacktestEngine.config (BacktestEngine.self r') = BacktestEngine.config self.
Proof.
  unfold BacktestEngine.run_backtest. intros H.
  destruct (BacktestEngine.start self h strategy_configs) as [portfolio r] eqn:Es.
  bind_ok H. bind_ok H. bind_ok H. inversion H; subst; clear H.
  assert (Hr : BacktestEngine.self r = self).
  { unfold BacktestEngine.start in Es. inversion Es; subst. reflexivity. }
  assert (X : engine_extends self r').
  { refine (main_loop_invariant now portfolio market_data_dict (engine_extends self)
                                _ _ (seq 0 a) r r' E0 _).
    - intros candle_idx current_candles r1 r2 symbol.
      apply process_symbol_extends.
    - intros r1 history Hx. exact Hx.
    - unfold engine_extends. rewrite Hr.
      split; [exists []; rewrite app_nil_r; reflexivity | split; reflexivity]. }
  destruct X as [[new Ht] [Hc _]].
  exists a, new. split; [reflexivity|]. cbn [fst].
  split.
  { rewrite (main_loop_history _ _ _ _ _ _ E0), Hr, length_seq. reflexivity. }
  split; [exact Ht|]. split; [|exact Hc].
  rewrite <- length_app, <- Ht.
  unfold BacktestEngine._calculate_metrics in E1.
  destruct (BacktestEngine.all_trades (BacktestEngine.self r')) as [|t0 ts];
    [inversion E1; reflexivity|].
  bind_ok E1. bind_ok E1. inversion E1; reflexivity.
Qed.

Lemma run_backtest_accumulates_witness :
  exists metrics r' new_trades,
    BacktestEngine.run_backtest
      0 Cases.engine_used [PortfolioState.new 0 10020] Sample.market_data_dict
      [Sample.strategy_config] = Ok (metrics, r')
    /\ BacktestEngine.all_trades (BacktestEngine.self r')
       = [Sample.winning_trade] ++ new_trades
    /\ BacktestMetrics.total_trades metrics = (1 + List.length new_trades)%nat.
Proof.
  assert (H : exists v,
             BacktestEngine.run_backtest
               0 Cases.engine_used [PortfolioState.new 0 10020]
               Sample.market_data_dict [Sample.strategy_config] = Ok v)
    by returns_by_evaluation.
  destruct H as [[metrics r'] H].
  destruct (run_backtest_accumulates _ _ _ _ _ _ _ H)
    as [n [new_trades [_ [_ [Ht [Hm _]]]]]].
  exists metrics, r', new_trades.
  split; [exact H|]. split; [exact Ht | exact Hm].
Defined.
